(** * Synthetic fraud-ring enrichment ([scripts/enrich_sample.py])

    A shallow embedding of the enrichment script: the helper functions, the
    baseline enrichment of the click table, the selection of hub IPs, the
    cluster builder, the per-cluster email pools, the override loop, the
    write of the output file and the summary printed after it.  The table is
    a pandas data frame, modelled as an ordered list of named columns; the
    global numpy generator is threaded explicitly through every draw; Python
    exceptions are explicit results; files are text, and what pandas reads
    from a text, what the standard output accepts and whether the disk takes
    a write belong to the environment of a run. *)

From Stdlib Require Import ZArith String Ascii List Lia Permutation.
From Stdlib Require Import Decimal DecimalString DecimalZ DecimalPos DecimalFacts DecimalN.
From stdpp Require Import base tactics option list gmap strings.

Open Scope Z_scope.

(** ** Python strings

    A Python [str] is modelled by a Rocq [string] whose characters are the
    code points below 256; [len] is [String.length], slices are
    [substring]-like prefixes and suffixes. *)

Module Py.

(** [s[:pos]] for [0 <= pos]. *)
Fixpoint prefix (pos : nat) (s : string) : string :=
  match pos, s with
  | S p, String c r => String c (prefix p r)
  | _, _ => EmptyString
  end.

(** [s[pos:]] for [0 <= pos]. *)
Fixpoint suffix (pos : nat) (s : string) : string :=
  match pos, s with
  | S p, String _ r => suffix p r
  | _, _ => s
  end.

(** [s[-k:]]: the last [k] characters (the whole string when it is shorter). *)
Definition last_chars (k : nat) (s : string) : string :=
  suffix (String.length s - k)%nat s.

(** [s[0]] and [s[-1]], when the string has them. *)
Definition first_char (s : string) : option ascii := String.get 0 s.
Definition last_char (s : string) : option ascii :=
  String.get (String.length s - 1) s.

(** [c in s] for a one-character [c]. *)
Fixpoint contains (c : ascii) (s : string) : bool :=
  match s with
  | EmptyString => false
  | String d r => if Ascii.eqb c d then true else contains c r
  end.

(** [s.count(c)]. *)
Fixpoint count (c : ascii) (s : string) : nat :=
  match s with
  | EmptyString => 0%nat
  | String d r => ((if Ascii.eqb c d then 1 else 0) + count c r)%nat
  end.

(** [s.replace(c, "")]. *)
Fixpoint remove (c : ascii) (s : string) : string :=
  match s with
  | EmptyString => EmptyString
  | String d r => if Ascii.eqb c d then remove c r else String d (remove c r)
  end.

(** [a[lo:hi]] on a list, for any two integers: a negative index counts
    from the end, and both are clamped to the list. *)
Definition clamp (len i : Z) : Z :=
  if (i <? 0)%Z then Z.max 0 (i + len) else Z.min i len.

Definition slice {A} (lo hi : Z) (a : list A) : list A :=
  let len := Z.of_nat (length a) in
  let l := clamp len lo in
  let h := clamp len hi in
  firstn (Z.to_nat (h - l)) (skipn (Z.to_nat l) a).

(** [str(n)] for an [int]. *)
Definition str_int (n : Z) : string := NilZero.string_of_int (Z.to_int n).

(** [s.zfill(w)] for a string of digits without sign. *)
Definition zfill (w : nat) (s : string) : string :=
  string_of_list_ascii (repeat "0"%char (w - String.length s)) +:+ s.

(** [f"{n:0wd}"]: sign first, then zero padding up to width [w]. *)
Definition fmt_0d (w : nat) (n : Z) : string :=
  if (n <? 0)%Z then String "-" (zfill (w - 1) (str_int (- n)))
  else zfill w (str_int n).

(** ["sep".join(parts)]. *)
Fixpoint join (sep : string) (parts : list string) : string :=
  match parts with
  | [] => EmptyString
  | [p] => p
  | p :: rest => p +:+ sep +:+ join sep rest
  end.

(** [s.encode()]: UTF-8 bytes of the code points below 256. *)
Definition encode_char (c : ascii) : list Z :=
  let n := Z.of_N (N_of_ascii c) in
  if (n <? 128)%Z then [n]
  else [Z.lor 192 (Z.shiftr n 6); Z.lor 128 (Z.land n 63)].

Fixpoint encode (s : string) : list Z :=
  match s with
  | EmptyString => []
  | String c r => encode_char c ++ encode r
  end.

Definition hex_digit (n : Z) : ascii :=
  match n with
  | 0 => "0" | 1 => "1" | 2 => "2" | 3 => "3" | 4 => "4" | 5 => "5"
  | 6 => "6" | 7 => "7" | 8 => "8" | 9 => "9" | 10 => "a" | 11 => "b"
  | 12 => "c" | 13 => "d" | 14 => "e" | _ => "f"
  end%char.

(** Two lower-case hex digits per byte, as [hexdigest] prints them. *)
Fixpoint hex_of_bytes (bs : list Z) : string :=
  match bs with
  | [] => EmptyString
  | b :: r => String (hex_digit (b / 16)) (String (hex_digit (b mod 16)) (hex_of_bytes r))
  end.

(** The integer a byte string denotes, most significant byte first:
    [int(hexdigest, 16)]. *)
Definition int_of_bytes (bs : list Z) : Z :=
  fold_left (fun acc b => acc * 256 + b) bs 0.

End Py.

(** ** hashlib

    [sha256] and [md5] over byte lists, 32-bit words as [Z] reduced modulo
    [2^32]. *)

Module Hashlib.

Definition w32 (x : Z) : Z := x mod 2 ^ 32.
Definition add32 (x y : Z) : Z := w32 (x + y).
Definition not32 (x : Z) : Z := Z.lxor x 4294967295.
Definition rotr (n x : Z) : Z := Z.lor (Z.shiftr x n) (w32 (Z.shiftl x (32 - n))).
Definition rotl (n x : Z) : Z := Z.lor (w32 (Z.shiftl x n)) (Z.shiftr x (32 - n)).

(** Groups of four bytes as words. *)
Fixpoint words_be (bs : list Z) : list Z :=
  match bs with
  | a :: b :: c :: d :: r => (((a * 256 + b) * 256 + c) * 256 + d) :: words_be r
  | _ => []
  end.

Fixpoint words_le (bs : list Z) : list Z :=
  match bs with
  | a :: b :: c :: d :: r => (((d * 256 + c) * 256 + b) * 256 + a) :: words_le r
  | _ => []
  end.

Definition bytes_be (n : nat) (x : Z) : list Z :=
  map (fun i => (x / 256 ^ Z.of_nat i) mod 256) (rev (seq 0 n)).

Definition bytes_le (n : nat) (x : Z) : list Z :=
  map (fun i => (x / 256 ^ Z.of_nat i) mod 256) (seq 0 n).

(** Padding: a [0x80] byte, zeros up to 56 modulo 64, then the bit length
    on eight bytes. *)
Definition pad_zeros (len : nat) : nat := ((119 - len mod 64) mod 64)%nat.

Definition pad (len_bytes : nat -> Z -> list Z) (msg : list Z) : list Z :=
  msg ++ [128] ++ repeat 0 (pad_zeros (length msg))
      ++ len_bytes 8%nat (8 * Z.of_nat (length msg)).

(** Cuts a padded message into blocks of 16 words. *)
Fixpoint blocks (fuel : nat) (ws : list Z) : list (list Z) :=
  match fuel, ws with
  | S f, _ :: _ => firstn 16 ws :: blocks f (skipn 16 ws)
  | _, _ => []
  end.

Module SHA256.

(** The round constants are the first 32 bits of the fractional parts of
    the cube roots of the first 64 primes, the initial state those of the
    square roots of the first 8. *)
Definition is_prime (n : nat) : bool :=
  forallb (fun d => negb (n mod d =? 0)%nat) (seq 2 (n - 2)).

Definition primes : list Z := map Z.of_nat (List.filter is_prime (seq 2 310)).

(** The largest [r] with [r ^ k <= n], found bit by bit from bit 40 down. *)
Definition iroot (k n : Z) : Z :=
  fold_left (fun r b => if (r + 2 ^ b) ^ k <=? n then r + 2 ^ b else r)
            (map Z.of_nat (rev (seq 0 41))) 0.

Definition K : list Z :=
  Eval vm_compute in map (fun p => w32 (iroot 3 (p * 2 ^ 96))) primes.

Definition H0 : list Z :=
  Eval vm_compute in map (fun p => w32 (iroot 2 (p * 2 ^ 64))) (firstn 8 primes).

Definition Ch (x y z : Z) : Z := Z.lxor (Z.land x y) (Z.land (not32 x) z).
Definition Maj (x y z : Z) : Z :=
  Z.lxor (Z.lxor (Z.land x y) (Z.land x z)) (Z.land y z).
Definition Sigma0 (x : Z) : Z := Z.lxor (Z.lxor (rotr 2 x) (rotr 13 x)) (rotr 22 x).
Definition Sigma1 (x : Z) : Z := Z.lxor (Z.lxor (rotr 6 x) (rotr 11 x)) (rotr 25 x).
Definition sigma0 (x : Z) : Z := Z.lxor (Z.lxor (rotr 7 x) (rotr 18 x)) (Z.shiftr x 3).
Definition sigma1 (x : Z) : Z := Z.lxor (Z.lxor (rotr 17 x) (rotr 19 x)) (Z.shiftr x 10).

(** The message schedule, newest word first while it is extended. *)
Fixpoint extend (k : nat) (r : list Z) : list Z :=
  match k with
  | O => r
  | S k' =>
      let w := add32 (add32 (sigma1 (nth 1 r 0)) (nth 6 r 0))
                     (add32 (sigma0 (nth 14 r 0)) (nth 15 r 0)) in
      extend k' (w :: r)
  end.

Definition schedule (block : list Z) : list Z := rev (extend 48 (rev block)).

Definition round (st : list Z) (kw : Z * Z) : list Z :=
  match st with
  | [a; b; c; d; e; f; g; h] =>
      let t1 := add32 (add32 (add32 h (Sigma1 e)) (add32 (Ch e f g) (fst kw))) (snd kw) in
      let t2 := add32 (Sigma0 a) (Maj a b c) in
      [add32 t1 t2; a; b; c; add32 d t1; e; f; g]
  | _ => st
  end.

Definition compress (h : list Z) (block : list Z) : list Z :=
  let st := fold_left round (combine K (schedule block)) h in
  map (fun p => add32 (fst p) (snd p)) (combine h st).

Definition digest (msg : list Z) : list Z :=
  let ws := words_be (pad bytes_be msg) in
  concat (map (bytes_be 4) (fold_left compress (blocks (length ws) ws) H0)).

End SHA256.

Module MD5.

Definition T : list Z :=
  [0xd76aa478; 0xe8c7b756; 0x242070db; 0xc1bdceee; 0xf57c0faf; 0x4787c62a;
   0xa8304613; 0xfd469501; 0x698098d8; 0x8b44f7af; 0xffff5bb1; 0x895cd7be;
   0x6b901122; 0xfd987193; 0xa679438e; 0x49b40821; 0xf61e2562; 0xc040b340;
   0x265e5a51; 0xe9b6c7aa; 0xd62f105d; 0x02441453; 0xd8a1e681; 0xe7d3fbc8;
   0x21e1cde6; 0xc33707d6; 0xf4d50d87; 0x455a14ed; 0xa9e3e905; 0xfcefa3f8;
   0x676f02d9; 0x8d2a4c8a; 0xfffa3942; 0x8771f681; 0x6d9d6122; 0xfde5380c;
   0xa4beea44; 0x4bdecfa9; 0xf6bb4b60; 0xbebfbc70; 0x289b7ec6; 0xeaa127fa;
   0xd4ef3085; 0x04881d05; 0xd9d4d039; 0xe6db99e5; 0x1fa27cf8; 0xc4ac5665;
   0xf4292244; 0x432aff97; 0xab9423a7; 0xfc93a039; 0x655b59c3; 0x8f0ccc92;
   0xffeff47d; 0x85845dd1; 0x6fa87e4f; 0xfe2ce6e0; 0xa3014314; 0x4e0811a1;
   0xf7537e82; 0xbd3af235; 0x2ad7d2bb; 0xeb86d391].

Definition shifts : list Z :=
  concat (map (fun row => row ++ row ++ row ++ row)
              [[7; 12; 17; 22]; [5; 9; 14; 20]; [4; 11; 16; 23]; [6; 10; 15; 21]]).

Definition init : list Z := [0x67452301; 0xefcdab89; 0x98badcfe; 0x10325476].

Definition step (block : list Z) (st : list Z) (i : nat) : list Z :=
  match st with
  | [a; b; c; d] =>
      let '(f, g) :=
        if (i <? 16)%nat then (Z.lor (Z.land b c) (Z.land (not32 b) d), i)
        else if (i <? 32)%nat then
          (Z.lor (Z.land d b) (Z.land (not32 d) c), ((5 * i + 1) mod 16)%nat)
        else if (i <? 48)%nat then
          (Z.lxor (Z.lxor b c) d, ((3 * i + 5) mod 16)%nat)
        else (Z.lxor c (Z.lor b (not32 d)), ((7 * i) mod 16)%nat) in
      let f' := add32 (add32 f a) (add32 (nth i T 0) (nth g block 0)) in
      [d; add32 b (rotl (nth i shifts 0) f'); b; c]
  | _ => st
  end.

Definition compress (h : list Z) (block : list Z) : list Z :=
  let st := fold_left (step block) (seq 0 64) h in
  map (fun p => add32 (fst p) (snd p)) (combine h st).

Definition digest (msg : list Z) : list Z :=
  let ws := words_le (pad bytes_le msg) in
  concat (map (bytes_le 4) (fold_left compress (blocks (length ws) ws) init)).

End MD5.

(** [hashlib.sha256(s.encode()).hexdigest()] read as a base-16 integer. *)
Definition sha256_int (s : string) : Z := Py.int_of_bytes (SHA256.digest (Py.encode s)).

(** [hashlib.md5(s.encode()).hexdigest()]. *)
Definition md5_hexdigest (s : string) : string := Py.hex_of_bytes (MD5.digest (Py.encode s)).

End Hashlib.

(** ** Floats

    The two float constants of the script multiply a row count.  A binary64
    value is a pair [(m, e)] standing for [m * 2^e]; the product with an
    integer is rounded to 53 bits, ties to even, as the hardware does. *)

Module Float.

(** The integer nearest to [p / q], ties to the even one ([0 < q]). *)
Definition round_half_even (p q : Z) : Z :=
  let d := p / q in
  let r := p mod q in
  if 2 * r <? q then d
  else if q <? 2 * r then d + 1
  else if Z.even d then d else d + 1.

(** [n * x] for an integer [0 <= n < 2^53] and the float [x = m * 2^e]. *)
Definition mul_int (n : Z) (x : Z * Z) : Z * Z :=
  let p := n * fst x in
  let s := Z.log2 p + 1 - 53 in
  if s <=? 0 then (p, snd x) else (round_half_even p (2 ^ s), snd x + s).

(** [int(x)] for [x >= 0]: truncation. *)
Definition to_int (x : Z * Z) : Z :=
  if 0 <=? snd x then fst x * 2 ^ snd x else fst x / 2 ^ (- snd x).

(** [round(x)] for [x >= 0]: Python rounds halves to the even integer. *)
Definition round (x : Z * Z) : Z :=
  if 0 <=? snd x then fst x * 2 ^ snd x else round_half_even (fst x) (2 ^ (- snd x)).

(** The literals [0.05] and [0.30] as binary64 values. *)
Definition lit_0_05 : Z * Z := (3602879701896397, -56).
Definition lit_0_30 : Z * Z := (5404319552844595, -54).

End Float.

(** ** Exceptions and results *)

Inductive exn : Type :=
  | FileNotFoundError (path : string)
  | FileExistsError (path : string)
  | OSError
  | ParserError
  | UnicodeEncodeError
  | KeyError (key : string)
  | ValueError (msg : string)
  | TypeError
  | OutOfFuel.

Inductive result (A : Type) : Type :=
  | Ok (a : A)
  | Raise (e : exn).
Arguments Ok {A} a.
Arguments Raise {A} e.

#[global] Instance result_ret : MRet result := fun A a => Ok a.
#[global] Instance result_bind : MBind result := fun A B f r =>
  match r with Ok a => f a | Raise e => Raise e end.

(** [for x in xs: ...] collecting one result per element, left to right. *)
Fixpoint result_mapM {A B} (f : A -> result B) (xs : list A) : result (list B) :=
  match xs with
  | [] => Ok []
  | x :: r => y ← f x; ys ← result_mapM f r; Ok (y :: ys)
  end.

(** ** The random source

    [np.random] is a global generator; the embedding threads its state [G].
    The operations are those the script calls, with numpy's documented
    contract as laws.  [rs_seed] is [np.random.seed(s)] (and the fresh
    [RandomState(s)] pandas builds for [sample(random_state=s)]). *)

Class RandomState (G : Type) : Type := {
  rs_seed : Z -> G;
  (** [np.random.randint(low, high)], one integer of [[low, high)]. *)
  rs_randint : Z -> Z -> G -> Z * G;
  (** [np.random.choice(a, size=k, replace=True)] as [k] positions in a
      population of [pop] elements. *)
  rs_choice : nat -> nat -> G -> list nat * G;
  (** [np.random.choice(a, size=k, replace=False)], again as positions. *)
  rs_choice_distinct : nat -> nat -> G -> list nat * G;
  rs_randint_range : forall lo hi g,
    lo < hi -> lo <= fst (rs_randint lo hi g) < hi;
  rs_choice_length : forall pop k g, length (fst (rs_choice pop k g)) = k;
  rs_choice_bound : forall pop k g,
    (0 < pop)%nat -> Forall (fun i => (i < pop)%nat) (fst (rs_choice pop k g));
  rs_choice_distinct_length : forall pop k g,
    (k <= pop)%nat -> length (fst (rs_choice_distinct pop k g)) = k;
  rs_choice_distinct_bound : forall pop k g,
    (k <= pop)%nat -> Forall (fun i => (i < pop)%nat) (fst (rs_choice_distinct pop k g));
  rs_choice_distinct_NoDup : forall pop k g,
    (k <= pop)%nat -> NoDup (fst (rs_choice_distinct pop k g))
}.

(** A computation that draws from the generator and may raise. *)
Definition Rand (G A : Type) : Type := G -> result (A * G).

#[global] Instance rand_ret {G} : MRet (Rand G) := fun A a g => Ok (a, g).
#[global] Instance rand_bind {G} : MBind (Rand G) := fun A B f c g =>
  match c g with
  | Ok (a, g') => f a g'
  | Raise e => Raise e
  end.

Definition lift {G A} (r : result A) : Rand G A := fun g =>
  match r with Ok a => Ok (a, g) | Raise e => Raise e end.

Definition raise {G A} (e : exn) : Rand G A := fun _ => Raise e.

Fixpoint rand_mapM {G A B} (f : A -> Rand G B) (xs : list A) : Rand G (list B) :=
  match xs with
  | [] => mret []
  | x :: r => y ← f x; ys ← rand_mapM f r; mret (y :: ys)
  end.

(** [a[i]] for a position that a draw produced. *)
Definition pick {A} (d : A) (a : list A) (i : nat) : A := nth i a d.

Section Numpy.
Context {G : Type} `{RandomState G}.

(** [np.random.randint(low, high)]; numpy raises when the range is empty. *)
Definition randint (low high : Z) : Rand G Z := fun g =>
  if low <? high then Ok (rs_randint low high g)
  else Raise (ValueError "low >= high").

(** [np.random.choice(a, size=k, replace=True)]. *)
Definition choice {A} (d : A) (a : list A) (k : nat) : Rand G (list A) := fun g =>
  if (length a =? 0)%nat && negb (k =? 0)%nat
  then Raise (ValueError "a must be non-empty")
  else let '(idx, g') := rs_choice (length a) k g in Ok (map (pick d a) idx, g').

(** [np.random.choice(a)]: a single element. *)
Definition choice1 {A} (d : A) (a : list A) : Rand G A := fun g =>
  if (length a =? 0)%nat then Raise (ValueError "a must be non-empty")
  else let '(i, g') := rs_randint 0 (Z.of_nat (length a)) g in
       Ok (pick d a (Z.to_nat i), g').

(** [np.random.choice(a, size=k, replace=False)]. *)
Definition choice_distinct {A} (d : A) (a : list A) (k : Z) : Rand G (list A) := fun g =>
  if k <? 0 then Raise (ValueError "negative dimensions are not allowed")
  else if (length a =? 0)%nat && negb (k =? 0)
  then Raise (ValueError "a must be non-empty")
  else if Z.of_nat (length a) <? k
  then Raise (ValueError "Cannot take a larger sample than population")
  else let '(idx, g') := rs_choice_distinct (length a) (Z.to_nat k) g in
       Ok (map (pick d a) idx, g').

End Numpy.

(** ** The data frame

    A cell is what pandas holds after [read_csv]: an integer, a float, a
    text, a boolean or a missing value.  The script never computes with the
    floats it reads, it prints and compares them, so a float is kept as the
    text Python prints for it ([13.0], [1e+16]).  A frame is its row count
    and its columns in order; rows are known by their position, as under the
    default index; [df[name] = values] replaces a column in place or
    appends a new one at the end. *)

Inductive Cell : Type :=
  | CInt (n : Z)
  | CFloat (repr : string)
  | CStr (s : string)
  | CBool (b : bool)
  | CNaN.

#[global] Instance Cell_eq_dec : EqDecision Cell.
Proof. solve_decision. Defined.

(** [str(v)]. *)
Definition str (c : Cell) : string :=
  match c with
  | CInt n => Py.str_int n
  | CFloat r => r
  | CStr s => s
  | CBool true => "True"
  | CBool false => "False"
  | CNaN => "nan"
  end.

Abbreviation Column := (list Cell).

Record DataFrame : Type := {
  nrows : nat;
  columns : list (string * Column)
}.

Definition col_names (df : DataFrame) : list string := map fst (columns df).

(** Every column has one cell per row. *)
Definition wf_frame (df : DataFrame) : Prop :=
  Forall (fun kc => length (snd kc) = nrows df) (columns df).

Fixpoint lookup_col (name : string) (cols : list (string * Column)) : option Column :=
  match cols with
  | [] => None
  | (k, c) :: r => if String.eqb k name then Some c else lookup_col name r
  end.

Fixpoint assign_col (name : string) (vals : Column) (cols : list (string * Column))
  : list (string * Column) :=
  match cols with
  | [] => [(name, vals)]
  | (k, c) :: r =>
      if String.eqb k name then (k, vals) :: r else (k, c) :: assign_col name vals r
  end.

(** [df[name]]. *)
Definition get_col (name : string) (df : DataFrame) : result Column :=
  match lookup_col name (columns df) with
  | Some c => Ok c
  | None => Raise (KeyError name)
  end.

(** [df[name] = values] for a list of values. *)
Definition set_col (name : string) (vals : Column) (df : DataFrame) : result DataFrame :=
  if (length vals =? nrows df)%nat
  then Ok {| nrows := nrows df; columns := assign_col name vals (columns df) |}
  else Raise (ValueError "Length of values does not match length of index").

(** [df[name] = v] for a scalar, broadcast to every row. *)
Definition set_col_scalar (name : string) (v : Cell) (df : DataFrame) : DataFrame :=
  {| nrows := nrows df; columns := assign_col name (repeat v (nrows df)) (columns df) |}.

(** [row[name]] inside [for _, row in df.iterrows()]; every cell keeps its
    own type (the click table has text columns, so a row is an object
    series). *)
Definition row_get (df : DataFrame) (i : nat) (name : string) : result Cell :=
  c ← get_col name df; Ok (nth i c CNaN).

(** [series.isin(values)]. *)
Definition isin (col : Column) (values : list Cell) : list bool :=
  map (fun c => bool_decide (c ∈ values)) col.

(** [mask.sum()] and [mask.any()]. *)
Fixpoint mask_sum (mask : list bool) : nat :=
  match mask with
  | [] => 0%nat
  | b :: m => ((if b then 1 else 0) + mask_sum m)%nat
  end.
Definition mask_any (mask : list bool) : bool := existsb id mask.

(** Positions of the rows a mask selects, in row order. *)
Fixpoint mask_positions (i : nat) (mask : list bool) : list nat :=
  match mask with
  | [] => []
  | b :: m => (if b then [i] else []) ++ mask_positions (S i) m
  end.

(** The masked rows take the values in order; the others keep theirs. *)
Fixpoint mask_assign (mask : list bool) (vals : Column) (col : Column) : Column :=
  match mask, col with
  | true :: m, x :: c =>
      match vals with
      | v :: vs => v :: mask_assign m vs c
      | [] => x :: mask_assign m [] c
      end
  | false :: m, x :: c => x :: mask_assign m vals c
  | _, _ => col
  end.

(** [series[mask].tolist()]. *)
Fixpoint mask_select (mask : list bool) (col : Column) : Column :=
  match mask, col with
  | b :: m, x :: c => (if b then [x] else []) ++ mask_select m c
  | _, _ => []
  end.

(** [df.loc[mask, name] = values]; a column that does not exist yet is
    created with missing values in the rows outside the mask. *)
Definition loc_set (mask : list bool) (name : string) (vals : Column) (df : DataFrame)
  : result DataFrame :=
  if (length vals =? mask_sum mask)%nat then
    let old := default (repeat CNaN (nrows df)) (lookup_col name (columns df)) in
    Ok {| nrows := nrows df;
          columns := assign_col name (mask_assign mask vals old) (columns df) |}
  else Raise (ValueError "cannot set using a mask with a different length").

(** [df.loc[mask, name] = v] for a scalar. *)
Definition loc_set_scalar (mask : list bool) (name : string) (v : Cell) (df : DataFrame)
  : DataFrame :=
  let old := default (repeat CNaN (nrows df)) (lookup_col name (columns df)) in
  {| nrows := nrows df;
     columns := assign_col name (mask_assign mask (repeat v (mask_sum mask)) old)
                           (columns df) |}.

(** [df.loc[labels, name] = values]: the labels of the default index are the
    row positions; a label outside the index is a [KeyError]. *)
Fixpoint label_assign (labels : list nat) (vals : Column) (col : Column) : Column :=
  match labels, vals with
  | i :: ls, v :: vs => label_assign ls vs (<[i := v]> col)
  | _, _ => col
  end.

Definition loc_set_labels (labels : list nat) (name : string) (vals : Column)
  (df : DataFrame) : result DataFrame :=
  if negb (forallb (fun i => (i <? nrows df)%nat) labels) then Raise (KeyError "index")
  else if negb (length vals =? length labels)%nat
  then Raise (ValueError "shape mismatch")
  else
    let old := default (repeat CNaN (nrows df)) (lookup_col name (columns df)) in
    Ok {| nrows := nrows df;
          columns := assign_col name (label_assign labels vals old) (columns df) |}.

(** ** Files

    A CSV file is text: the names of its header line and its records, each
    the list of the fields between the separators (blank lines dropped,
    quotes removed).  Any other file is one that pandas cannot read, with
    the exception it raises.  The file system maps paths to files;
    directories are not part of it. *)

Record Csv : Type := {
  header : list string;
  records : list (list string)
}.

Inductive File : Type :=
  | CsvFile (c : Csv)
  | Unreadable (e : exn).

(** No record has more fields than the header has names.  (A table with
    longer records is read by pandas with the first field of each record as
    the label of its row, or refused; the frames here have no labels.) *)
Definition no_long_record (c : Csv) : Prop :=
  Forall (fun r => (length r <= length (header c))%nat) (records c).

(** The names of the header are distinct and none is blank, so that pandas
    keeps them as they are. *)
Definition plain_header (c : Csv) : Prop :=
  NoDup (header c) /\ "" ∉ header c.

(** The reader of pandas: the frame it builds from the text of a table.
    How it infers the type of each column (an integer column with a blank
    in it is read as floats, so that [13] comes back as [13.0]), which
    fields it takes as missing and which tables it refuses is pandas' own
    business, not the script's: the reader is a parameter of a run, known
    by what every frame it returns has: one cell per row in every column,
    one row per record when no record is longer than the header, and the
    names of a plain header. *)
Class CsvReader : Type := {
  parse : Csv -> result DataFrame;
  parse_wf : forall c df, parse c = Ok df -> wf_frame df;
  parse_rows : forall c df,
    parse c = Ok df -> no_long_record c -> nrows df = length (records c);
  parse_names : forall c df,
    parse c = Ok df -> no_long_record c -> plain_header c -> col_names df = header c
}.

(** [pd.read_csv(path)]. *)
Definition read_csv `{CsvReader} (path : string) (fs : gmap string File)
  : result DataFrame :=
  match fs !! path with
  | None => Raise (FileNotFoundError path)
  | Some (Unreadable e) => Raise e
  | Some (CsvFile c) => parse c
  end.

(** The field [to_csv] writes for a cell: a missing value is an empty
    field. *)
Definition to_text (c : Cell) : string :=
  match c with
  | CInt n => Py.str_int n
  | CFloat r => r
  | CStr s => s
  | CBool true => "True"
  | CBool false => "False"
  | CNaN => ""
  end.

(** The row of a frame at a position. *)
Definition row_cells (df : DataFrame) (i : nat) : list Cell :=
  map (fun kc => nth i (snd kc) CNaN) (columns df).

(** The text [df.to_csv(path, index=False)] writes. *)
Definition to_csv (df : DataFrame) : Csv :=
  {| header := col_names df;
     records := map (fun i => map to_text (row_cells df i)) (seq 0 (nrows df)) |}.

(** ** Iteration order of sets

    [list(set(xs))] enumerates the distinct elements in the order of the
    hash table, which the script does not control; for text it follows the
    per-process hash seed of the interpreter.  The order is a parameter of a
    run. *)

Record SetIteration : Type := {
  list_of_cell_set : list Cell -> list Cell;
  list_of_str_set : list string -> list string;
  list_of_cell_set_perm : forall xs, list_of_cell_set xs ≡ₚ remove_dups xs;
  list_of_str_set_perm : forall xs, list_of_str_set xs ≡ₚ remove_dups xs
}.

(** ** Configuration *)

Definition SEED : Z := 42.
Definition FRACTION_FRAUD_IPS : Z * Z := Float.lit_0_05.
Definition CLUSTER_MIN_SIZE : Z := 2.
Definition CLUSTER_MAX_SIZE : Z := 5.
Definition EMAIL_VARIANTS_PER_CLUSTER : nat := 30.

(** [[f"AD{n:03d}" for n in range(lo, hi)]]. *)
Definition ad_range (lo hi : nat) : list string :=
  map (fun n => "AD" +:+ Py.fmt_0d 3 (Z.of_nat n)) (seq lo (hi - lo)).

Definition FRAUD_TARGET_ADS : list string := ad_range 1 6.
Definition ALL_ADS : list string := ad_range 1 21.

Definition COUNTRIES : list string :=
  ["US"; "FR"; "IN"; "CN"; "BR"; "GB"; "DE"; "ES"; "IT"; "MX"].
Definition CONNECTION_TYPES : list string := ["wifi"; "4g"; "5g"].

(** The baseline email domains (line 113) and the list the override loop
    draws from (line 184). *)
Definition domains : list string := ["gmail.com"; "yahoo.com"; "outlook.com"; "proton.me"].
Definition fraud_domains : list string := ["gmail.com"; "outlook.com"; "mail.ru"; "yahoo.com"].

Definition OUTPUT_CSV : string := "data/train_sample_enriched.csv".

(** ** Helpers *)

Definition stable_hash_to_int (vals : list Cell) (modulo : Z) : Z :=
  Hashlib.sha256_int (Py.join "|" (map str vals)) mod modulo.

Definition gen_user_id (ip device os_ : Cell) : string :=
  "U" +:+ Py.fmt_0d 7 (stable_hash_to_int [ip; device; os_] 1000000).

Definition gen_fingerprint (device os_ app channel : Cell) : string :=
  Py.prefix 16 (Hashlib.md5_hexdigest
    (str device +:+ "-" +:+ str os_ +:+ "-" +:+ str app +:+ "-" +:+ str channel)).

Definition email_from_handle (handle domain : string) : string :=
  handle +:+ "@" +:+ domain.

Record Cluster : Type := {
  cluster_id : Z;
  ips : list Cell
}.

(** [f"fp_{stable_hash_to_int(*c['ips'], modulo=10**8):08d}"]. *)
Definition cluster_fingerprint (c : Cluster) : string :=
  "fp_" +:+ Py.fmt_0d 8 (stable_hash_to_int (ips c) (10 ^ 8)).

(** [df["ip"].unique()]: the distinct values in order of first appearance. *)
Fixpoint unique (l : list Cell) : list Cell :=
  match l with
  | [] => []
  | x :: r => x :: filter (fun y => y <> x) (unique r)
  end.

(** [max(1, int(len(unique_ips) * FRACTION_FRAUD_IPS))]. *)
Definition num_hub_ips (n : nat) : Z :=
  Z.max 1 (Float.to_int (Float.mul_int (Z.of_nat n) FRACTION_FRAUD_IPS)).

Fixpoint rand_foldM {G A B} (f : B -> A -> Rand G B) (b : B) (xs : list A) : Rand G B :=
  match xs with
  | [] => mret b
  | x :: r => b' ← f b x; rand_foldM f b' r
  end.

(** ** The script *)

Section Script.
Context {G : Type} `{RandomState G}.
Variable it : SetIteration.

Definition plus_variant (handle : string) : Rand G string :=
  k ← randint 1 9; mret (handle +:+ "+promo" +:+ Py.str_int k).

Definition dot_variant (handle : string) : Rand G string :=
  if Py.contains "." handle || (String.length handle <? 3)%nat then mret handle
  else
    pos ← randint 1 (Z.of_nat (String.length handle) - 1);
    mret (Py.prefix (Z.to_nat pos) handle +:+ "." +:+ Py.suffix (Z.to_nat pos) handle).

Definition underscore_variant (handle : string) : Rand G string :=
  if Py.contains "_" handle || (String.length handle <? 3)%nat then mret handle
  else
    pos ← randint 1 (Z.of_nat (String.length handle) - 1);
    mret (Py.prefix (Z.to_nat pos) handle +:+ "_" +:+ Py.suffix (Z.to_nat pos) handle).

Definition random_handle (base : string) (span : Z) : Rand G string :=
  k ← randint 0 span; mret (base +:+ Py.fmt_0d 6 k).

(** *** Base enrichment (lines 90-117) *)

Definition base_enrichment (df : DataFrame) : Rand G DataFrame :=
  let n := nrows df in
  ads ← choice "" ALL_ADS n;
  df ← lift (set_col "ad_id" (map CStr ads) df);
  uids ← lift (result_mapM (fun i =>
            ip ← row_get df i "ip";
            device ← row_get df i "device";
            os_ ← row_get df i "os";
            Ok (gen_user_id ip device os_)) (seq 0 n));
  df ← lift (set_col "user_id" (map CStr uids) df);
  countries ← choice "" COUNTRIES n;
  df ← lift (set_col "country" (map CStr countries) df);
  fps ← lift (result_mapM (fun i =>
            device ← row_get df i "device";
            os_ ← row_get df i "os";
            app ← row_get df i "app";
            channel ← row_get df i "channel";
            Ok (gen_fingerprint device os_ app channel)) (seq 0 n));
  df ← lift (set_col "device_fingerprint" (map CStr fps) df);
  conns ← choice "" CONNECTION_TYPES n;
  df ← lift (set_col "connection_type" (map CStr conns) df);
  uid_col ← lift (get_col "user_id" df);
  emails ← rand_mapM (fun uid =>
            d ← choice1 "" domains;
            mret (email_from_handle ("user" +:+ Py.last_chars 6 (str uid)) d)) uid_col;
  lift (set_col "email" (map CStr emails) df).

(** *** Hub selection (lines 121-126) *)

Definition select_hubs (df : DataFrame) : Rand G (list Cell) :=
  ip_col ← lift (get_col "ip" df);
  let unique_ips := unique ip_col in
  hub ← choice_distinct CNaN unique_ips (num_hub_ips (length unique_ips));
  mret (list_of_cell_set it hub).

(** *** Cluster builder (lines 127-135)

    The [while] loop, with one unit of fuel per iteration. *)

Fixpoint cluster_loop (fuel : nat) (m M : Z) (hub_ips_list : list Cell)
  (cursor cid : Z) (clusters : list Cluster) : Rand G (list Cluster) :=
  if cursor <? Z.of_nat (length hub_ips_list) then
    match fuel with
    | O => raise OutOfFuel
    | S fuel' =>
        size ← randint m (M + 1);
        let block := Py.slice cursor (cursor + size) hub_ips_list in
        cluster_loop fuel' m M hub_ips_list (cursor + size) (cid + 1)
                     (clusters ++ [{| cluster_id := cid; ips := block |}])
    end
  else mret clusters.

Definition build_clusters (m M : Z) (hub_ips_list : list Cell) : Rand G (list Cluster) :=
  cluster_loop (length hub_ips_list) m M hub_ips_list 0 1 [].

(** *** Email pools (lines 138-149) *)

Definition build_email_pool (base_root : string) (pool_size : nat) : Rand G (list string) :=
  let base_handles :=
    map (fun i => base_root +:+ Py.fmt_0d 3 (Z.of_nat i)) (seq 0 pool_size) in
  pool ← rand_foldM (fun pool h =>
            p ← plus_variant h;
            d ← dot_variant h;
            u ← underscore_variant h;
            mret (pool ++ [h; p; d; u])) [] base_handles;
  mret (list_of_str_set it pool).

(** The three dictionaries keyed by cluster id (lines 149-159). *)
Definition make_email_pools (clusters : list Cluster) : Rand G (gmap Z (list string)) :=
  rand_foldM (fun d c =>
      pool ← build_email_pool "frauder" EMAIL_VARIANTS_PER_CLUSTER;
      mret (<[cluster_id c := pool]> d)) ∅ clusters.

Definition make_target_ads (clusters : list Cluster) : Rand G (gmap Z (list string)) :=
  rand_foldM (fun d c =>
      size ← randint 1 4;
      ads ← choice_distinct "" FRAUD_TARGET_ADS size;
      mret (<[cluster_id c := ads]> d)) ∅ clusters.

Definition make_fingerprints (clusters : list Cluster) : gmap Z string :=
  fold_left (fun d c => <[cluster_id c := cluster_fingerprint c]> d) clusters ∅.

Definition dict_get {V} (d : gmap Z V) (k : Z) : result V :=
  match d !! k with
  | Some v => Ok v
  | None => Raise (KeyError (Py.str_int k))
  end.

(** *** Override loop (lines 162-197) *)

(** [df.loc[mask].sample(frac=0.30, random_state=SEED).index]: pandas draws
    [round(0.30 * len)] positions without replacement from a generator of its
    own, seeded with [SEED]; the labels are the rows at those positions. *)
Definition sample_labels (mask : list bool) : result (list nat) :=
  let rows := mask_positions 0 mask in
  let k := Float.round (Float.mul_int (Z.of_nat (length rows)) Float.lit_0_30) in
  match choice_distinct 0%nat rows k (rs_seed SEED) with
  | Ok (labels, _) => Ok labels
  | Raise e => Raise e
  end.

Record Prepared : Type := {
  cluster_email_pools : gmap Z (list string);
  cluster_target_ads : gmap Z (list string);
  cluster_fingerprints : gmap Z string
}.

(** One iteration of [for c in clusters]. *)
Definition override_cluster (pre : Prepared) (df : DataFrame) (c : Cluster)
  : Rand G DataFrame :=
  let cid := cluster_id c in
  ip_col ← lift (get_col "ip" df);
  let mask := isin ip_col (ips c) in
  if negb (mask_any mask) then mret df
  else
    let k := mask_sum mask in
    let df := loc_set_scalar mask "fraud_cluster_id" (CInt cid) df in
    let df := loc_set_scalar mask "is_synthetic_fraud" (CBool true) df in
    targets ← lift (dict_get (cluster_target_ads pre) cid);
    ads ← choice "" targets k;
    df ← lift (loc_set mask "ad_id" (map CStr ads) df);
    fp ← lift (dict_get (cluster_fingerprints pre) cid);
    let df := loc_set_scalar mask "device_fingerprint" (CStr fp) df in
    pool ← lift (dict_get (cluster_email_pools pre) cid);
    handles ← choice "" pool k;
    doms ← choice "" fraud_domains k;
    df ← lift (loc_set mask "email"
                 (map (fun hd => CStr (email_from_handle (fst hd) (snd hd)))
                      (combine handles doms)) df);
    base_users ← rand_mapM (fun _ => random_handle "u" 999999)
                   (seq 0 (Nat.max 50 (k / 10)));
    uid_col ← lift (get_col "user_id" df);
    uids ← choice CNaN (map CStr base_users ++ mask_select mask uid_col) k;
    df ← lift (loc_set mask "user_id" uids df);
    sub_idx ← lift (sample_labels mask);
    countries ← choice "" COUNTRIES (length sub_idx);
    lift (loc_set_labels sub_idx "country" (map CStr countries) df).

Definition inject_fraud (pre : Prepared) (clusters : list Cluster) (df : DataFrame)
  : Rand G DataFrame :=
  let df := set_col_scalar "fraud_cluster_id" (CInt 0) df in
  let df := set_col_scalar "is_synthetic_fraud" (CBool false) df in
  rand_foldM (override_cluster pre) df clusters.

(** *** The whole run

    What a run computes, kept together so that statements can name the
    clusters and pools the output was built from. *)

Record Run : Type := {
  run_input : DataFrame;
  run_baseline : DataFrame;
  run_hub_ips_list : list Cell;
  run_clusters : list Cluster;
  run_prepared : Prepared;
  run_output : DataFrame
}.

Definition enrich (df0 : DataFrame) : Rand G Run :=
  df ← base_enrichment df0;
  hub_ips_list ← select_hubs df;
  clusters ← build_clusters CLUSTER_MIN_SIZE CLUSTER_MAX_SIZE hub_ips_list;
  pools ← make_email_pools clusters;
  targets ← make_target_ads clusters;
  let pre := {| cluster_email_pools := pools;
                cluster_target_ads := targets;
                cluster_fingerprints := make_fingerprints clusters |} in
  out ← inject_fraud pre clusters df;
  mret {| run_input := df0; run_baseline := df; run_hub_ips_list := hub_ips_list;
          run_clusters := clusters; run_prepared := pre; run_output := out |}.

End Script.

(** ** The environment of a run

    What the script prints, statement by statement.  Whether the standard
    output takes a message is the environment's: a terminal that cannot
    encode the check mark U+2705 of line 202 raises [UnicodeEncodeError] on
    [MsgSaved]. *)

Inductive Message : Type :=
  | MsgReading (path : string)          (* line 83 *)
  | MsgRows (n : nat)                   (* line 86 *)
  | MsgSaved (path : string)            (* line 202 *)
  | MsgSummary                          (* line 206 *)
  | MsgFraudRows (n : nat)              (* line 207 *)
  | MsgClusters (n : nat)               (* line 208 *)
  | MsgExamples                         (* line 209 *)
  | MsgEmails (emails : list Cell).     (* line 210 *)

(** A write either completes, or fails with an [OSError]: before the file
    is opened, and then nothing changes, or part-way, and then the path
    holds what the disk took. *)
Inductive Disk : Type :=
  | Sound
  | Fails (left : option File).

Record Env : Type := {
  stdout : Message -> option exn;
  disk : Disk
}.

(** The state a run works on: the files, and what was printed so far. *)
Record World : Type := {
  files : gmap string File;
  printed : list Message
}.

(** A statement that acts on the world and may raise. *)
Definition IO (A : Type) : Type := World -> World * result A.

#[global] Instance io_ret : MRet IO := fun A a w => (w, Ok a).
#[global] Instance io_bind : MBind IO := fun A B f c w =>
  match c w with
  | (w', Ok a) => f a w'
  | (w', Raise e) => (w', Raise e)
  end.

(** A computation that looks at the files without changing them, and one
    that does not look at them. *)
Definition reading {A} (f : gmap string File -> result A) : IO A := fun w =>
  (w, f (files w)).

Definition compute {A} (r : result A) : IO A := fun w => (w, r).

(** [print(...)]. *)
Definition print (env : Env) (m : Message) : IO unit := fun w =>
  match stdout env m with
  | Some e => (w, Raise e)
  | None => ({| files := files w; printed := printed w ++ [m] |}, Ok tt)
  end.

(** The directory of the output file. *)
Definition DATA : string := "data".

(** [path.mkdir(exist_ok=True, parents=True)]: the directory is made, or is
    there already, unless a file stands at its path. *)
Definition mkdir (path : string) : IO unit := fun w =>
  match files w !! path with
  | Some _ => (w, Raise (FileExistsError path))
  | None => (w, Ok tt)
  end.

(** [df.to_csv(path, index=False)] on the disk of the environment. *)
Definition write_csv (env : Env) (df : DataFrame) (path : string) : IO unit := fun w =>
  match disk env with
  | Sound =>
      ({| files := <[path := CsvFile (to_csv df)]> (files w); printed := printed w |},
       Ok tt)
  | Fails None => (w, Raise OSError)
  | Fails (Some f) =>
      ({| files := <[path := f]> (files w); printed := printed w |}, Raise OSError)
  end.

(** *** The summary (lines 204-210) *)

(** [x > 0] for one cell of a series: text against a number is a
    [TypeError], a missing value compares false. *)
Definition gt0 (c : Cell) : result bool :=
  match c with
  | CInt n => Ok (0 <? n)
  | CFloat r => Ok (negb (Py.contains "-"%char (Py.prefix 1 r)) && negb (String.eqb r "0.0"))
  | CBool b => Ok b
  | CNaN => Ok false
  | CStr _ => Raise TypeError
  end.

(** [(df[name] > 0)]. *)
Definition series_gt0 (name : string) (df : DataFrame) : result (list bool) :=
  col ← get_col name df; result_mapM gt0 col.

(** [series.nunique()]: the distinct values, missing ones left out. *)
Definition nunique (col : Column) : nat :=
  length (remove_dups (filter (fun c => c <> CNaN) col)).

(** ** The script, statement by statement

    The generator is seeded at import time (lines 32-33).  The file is
    written at line 201; the prints of lines 202-210 come after it. *)

Section Main.
Context {G : Type} `{RandomState G} `{CsvReader}.
Variable it : SetIteration.
Variable env : Env.

(** Lines 205-210: the rows of fraud clusters are counted, then the
    distinct cluster ids among them, and the first five of their emails are
    shown. *)
Definition summary (df : DataFrame) : IO unit :=
  fraud ← compute (series_gt0 "fraud_cluster_id" df);
  _ ← print env MsgSummary;
  _ ← print env (MsgFraudRows (mask_sum fraud));
  ids ← compute (get_col "fraud_cluster_id" df);
  _ ← print env (MsgClusters (nunique (mask_select fraud ids)));
  _ ← print env MsgExamples;
  emails ← compute (get_col "email" df);
  print env (MsgEmails (firstn 5 (mask_select fraud emails))).

(** Lines 83-210, on the file named by [INPUT_CSV]. *)
Definition main (input_csv : string) : IO Run :=
  _ ← print env (MsgReading input_csv);
  df0 ← reading (read_csv input_csv);
  _ ← print env (MsgRows (nrows df0));
  r ← compute (match enrich it df0 (rs_seed SEED) with
               | Ok (r, _) => Ok r
               | Raise e => Raise e
               end);
  _ ← mkdir DATA;
  _ ← write_csv env (run_output r) OUTPUT_CSV;
  _ ← print env (MsgSaved OUTPUT_CSV);
  _ ← summary (run_output r);
  mret r.

End Main.

(** ** A small generator

    A concrete random source on which the script can be run: a linear
    congruential generator, with draws without replacement taken as a
    rotation of the population. *)

Module Lcg.

Definition next (g : Z) : Z := (g * 1103515245 + 12345) mod 2 ^ 31.

Definition randint (lo hi g : Z) : Z * Z :=
  (lo + (g / 65536) mod (hi - lo), next g).

Fixpoint draws (pop k : nat) (g : Z) : list nat * Z :=
  match k with
  | O => ([], g)
  | S k' =>
      let '(i, g1) := randint 0 (Z.of_nat pop) g in
      let '(r, g2) := draws pop k' g1 in
      (Z.to_nat i :: r, g2)
  end.

Definition distinct (pop k : nat) (g : Z) : list nat * Z :=
  let r := Z.to_nat (g mod Z.of_nat pop) in
  (firstn k (skipn r (seq 0 pop) ++ firstn r (seq 0 pop)), next g).

End Lcg.

(** The generator as a random source: the contract of every operation is
    checked here. *)
#[global] Instance lcg_random : RandomState Z.
Proof.
  refine {| rs_seed := fun s => s;
            rs_randint := Lcg.randint;
            rs_choice := Lcg.draws;
            rs_choice_distinct := Lcg.distinct |}.
  - intros lo hi g Hlt. unfold Lcg.randint. simpl.
    pose proof (Z.mod_pos_bound (g / 65536) (hi - lo)). lia.
  - intros pop k. induction k as [|k IH]; intros g; simpl; [done|].
    specialize (IH (Lcg.next g)). destruct (Lcg.draws pop k (Lcg.next g)).
    simpl in *. lia.
  - intros pop k g Hpop. revert g. induction k as [|k IH]; intros g; simpl; [constructor|].
    specialize (IH (Lcg.next g)). destruct (Lcg.draws pop k (Lcg.next g)). simpl in *.
    constructor; [|done].
    pose proof (Z.mod_pos_bound (g / 65536) (Z.of_nat pop - 0)). lia.
  - intros pop k g Hk. unfold Lcg.distinct. simpl. rewrite length_take, length_app.
    rewrite length_drop, length_take, length_seq. lia.
  - intros pop k g _. unfold Lcg.distinct. simpl. apply Forall_take.
    apply Forall_app. split; [apply Forall_drop|apply Forall_take];
      apply Forall_forall; intros i Hi; apply elem_of_seq in Hi; lia.
  - intros pop k g _. unfold Lcg.distinct. simpl.
    eapply sublist_NoDup; [|apply sublist_take].
    rewrite Permutation_app_comm, take_drop. apply NoDup_seq.
Defined.

(** Two orders in which a set can be enumerated: first-kept order, and for
    text the reverse of it. *)
Definition kept_order : SetIteration := {|
  list_of_cell_set := remove_dups;
  list_of_str_set := remove_dups;
  list_of_cell_set_perm := fun xs => reflexivity _;
  list_of_str_set_perm := fun xs => reflexivity _
|}.

Definition reverse_order : SetIteration := {|
  list_of_cell_set := remove_dups;
  list_of_str_set := fun xs => rev (remove_dups xs);
  list_of_cell_set_perm := fun xs => reflexivity _;
  list_of_str_set_perm := fun xs => symmetry (Permutation_rev (remove_dups xs))
|}.

(** ** A small reader

    A concrete reader on which the script can be run.  It knows integers as
    Python prints them (of at most fifteen digits), blanks and other text,
    on tables with a plain header and no long record, and gives up on any
    other table.  A column of integers is read as integers, a column of
    integers and blanks as floats, any other column as text; a blank is a
    missing value.  (pandas knows more kinds of fields: floats, booleans,
    the markers of a missing value; the tables below hold none.) *)

Module Reader.

Inductive Field : Type :=
  | Blank
  | Whole (n : Z)
  | Text (s : string).

Definition classify (s : string) : Field :=
  if String.eqb s "" then Blank
  else
    match NilZero.int_of_string s with
    | Some d =>
        let n := Z.of_int d in
        if String.eqb (Py.str_int n) s && (Z.abs n <? 10 ^ 15) then Whole n else Text s
    | None => Text s
    end.

Definition is_blank (f : Field) : bool :=
  match f with Blank => true | _ => false end.

Definition is_whole (f : Field) : bool :=
  match f with Whole _ => true | _ => false end.

Definition as_int (f : Field) : Cell :=
  match f with Whole n => CInt n | _ => CNaN end.

Definition as_float (f : Field) : Cell :=
  match f with Whole n => CFloat (Py.str_int n +:+ ".0") | _ => CNaN end.

Definition as_text (f : Field) : Cell :=
  match f with Blank => CNaN | Whole n => CStr (Py.str_int n) | Text s => CStr s end.

(** The cells of a column, from its fields. *)
Definition infer (fields : list string) : Column :=
  let fs := map classify fields in
  if forallb is_blank fs then map (fun _ => CNaN) fs
  else if forallb is_whole fs then map as_int fs
  else if forallb (fun f => is_blank f || is_whole f) fs then map as_float fs
  else map as_text fs.

Definition known (c : Csv) : bool :=
  forallb (fun r => (length r <=? length (header c))%nat) (records c)
  && bool_decide (NoDup (header c))
  && bool_decide ("" ∉ header c).

(** A record shorter than the header is padded with blanks. *)
Definition parse (c : Csv) : result DataFrame :=
  if known c then
    Ok {| nrows := length (records c);
          columns := imap (fun j name =>
                             (name, infer (map (fun r => nth j r "") (records c))))
                          (header c) |}
  else Raise ParserError.

End Reader.

#[global] Instance table_reader : CsvReader.
Proof.
  refine {| parse := Reader.parse |}.
  - intros c df. unfold Reader.parse. destruct (Reader.known c); [|done].
    intros [= <-]. unfold wf_frame. simpl. apply Forall_forall.
    intros kc [j [name [-> _]]]%elem_of_lookup_imap. simpl.
    unfold Reader.infer.
    repeat match goal with |- context [if ?b then _ else _] => destruct b end;
      by rewrite ?length_map.
  - intros c df. unfold Reader.parse. destruct (Reader.known c); [|done].
    by intros [= <-] _.
  - intros c df. unfold Reader.parse. destruct (Reader.known c); [|done].
    intros [= <-] _ _. unfold col_names. simpl.
    assert (forall (names : list string) (F : nat -> Column),
              map fst (imap (fun j name => (name, F j)) names) = names) as Hnames.
    { induction names as [|name names IH]; intros F; simpl; [done|].
      f_equal. apply (IH (F ∘ S)). }
    apply (Hnames _ (fun j => Reader.infer (map (fun r => nth j r "") (records c)))).
Defined.

(** ** Two environments

    A terminal that prints everything on a disk that takes every write, and
    one that cannot encode the check mark of line 202. *)

Definition terminal : Env := {| stdout := fun _ => None; disk := Sound |}.

Definition ascii_terminal : Env := {|
  stdout := fun m => match m with MsgSaved _ => Some UnicodeEncodeError | _ => None end;
  disk := Sound
|}.

(** ** A sample table

    Three clicks from two source addresses, the files that hold them, and
    the runs of the script on them that later statements name. *)

Definition click (ip app device os channel t : string) : list string :=
  [ip; app; device; os; channel; t; ""; "0"].

Definition sample_csv : Csv := {|
  header := ["ip"; "app"; "device"; "os"; "channel"; "click_time";
             "attributed_time"; "is_attributed"];
  records := [click "10" "3" "1" "13" "379" "2017-11-07 09:30:38";
              click "20" "3" "1" "19" "379" "2017-11-07 13:40:27";
              click "10" "14" "1" "13" "478" "2017-11-07 18:05:24"]
|}.

Definition sample_files : gmap string File := {["in.csv" := CsvFile sample_csv]}.

Definition sample_world : World := {| files := sample_files; printed := [] |}.

Definition empty_frame : DataFrame := {| nrows := 0; columns := [] |}.

Definition sample_frame : DataFrame :=
  Eval vm_compute in
    match read_csv "in.csv" sample_files with Ok df => df | Raise _ => empty_frame end.

(** The same clicks with the [os] of the second one left blank. *)
Definition gap_csv : Csv := {|
  header := header sample_csv;
  records := [click "10" "3" "1" "13" "379" "2017-11-07 09:30:38";
              click "20" "3" "1" "" "379" "2017-11-07 13:40:27";
              click "10" "14" "1" "13" "478" "2017-11-07 18:05:24"]
|}.

Definition gap_world : World :=
  {| files := {["in.csv" := CsvFile gap_csv]}; printed := [] |}.

Definition empty_run : Run := {|
  run_input := empty_frame; run_baseline := empty_frame; run_hub_ips_list := [];
  run_clusters := [];
  run_prepared := {| cluster_email_pools := ∅; cluster_target_ads := ∅;
                     cluster_fingerprints := ∅ |};
  run_output := empty_frame
|}.

Definition sample_run : Run :=
  Eval vm_compute in
    match enrich kept_order sample_frame (rs_seed SEED) with
    | Ok (r, _) => r
    | Raise _ => empty_run
    end.

Definition sample_run_reversed : Run :=
  Eval vm_compute in
    match enrich reverse_order sample_frame (rs_seed SEED) with
    | Ok (r, _) => r
    | Raise _ => empty_run
    end.

Definition sample_injected : DataFrame :=
  Eval vm_compute in
    match inject_fraud (G := Z) (run_prepared sample_run) (run_clusters sample_run)
            (run_baseline sample_run) 7 with
    | Ok (df, _) => df
    | Raise _ => empty_frame
    end.

Definition hub3 : list Cell := [CInt 1; CInt 2; CInt 3].

(** Thirty-nine rows with thirty-nine distinct addresses. *)
Definition ips39 : list Cell := map (fun i => CInt (Z.of_nat i)) (seq 1 39).

Definition df39 : DataFrame := {| nrows := 39; columns := [("ip", ips39)] |}.

(** ** Specification predicates *)

(** What the two variants do to a handle they accept: one separator at an
    interior position. *)
Definition inserted_once (c : ascii) (handle r : string) : Prop :=
  exists pos : nat,
    (1 <= pos <= String.length handle - 2)%nat
    /\ r = Py.prefix pos handle +:+ String c EmptyString +:+ Py.suffix pos handle
    /\ String.length r = S (String.length handle)
    /\ Py.count c r = 1%nat
    /\ Py.first_char r = Py.first_char handle
    /\ Py.last_char r = Py.last_char handle
    /\ Py.remove c r = handle.


(** Cluster sizes: every block holds between 1 and [M] addresses, and every
    block but the last at least [m]. *)
Definition sizes_within (m M : Z) (cs : list Cluster) : Prop :=
  forall i c, cs !! i = Some c ->
    1 <= Z.of_nat (length (ips c)) <= M
    /\ ((S i < length cs)%nat -> m <= Z.of_nat (length (ips c))).

(** Identifiers count up from [first]. *)
Definition ids_from (first : Z) (cs : list Cluster) : Prop :=
  forall i c, cs !! i = Some c -> cluster_id c = first + Z.of_nat i.

Definition pairwise_disjoint (cs : list Cluster) : Prop :=
  forall i j c1 c2, cs !! i = Some c1 -> cs !! j = Some c2 -> i <> j ->
    forall x, x ∈ ips c1 -> x ∉ ips c2.

(** The cell of a column at a row. *)
Definition cell (df : DataFrame) (name : string) (i : nat) : option Cell :=
  match lookup_col name (columns df) with
  | Some c => c !! i
  | None => None
  end.

Definition has_col (df : DataFrame) (name : string) : Prop :=
  is_Some (lookup_col name (columns df)).

(** A frame changed in one column, and there only in the rows of a mask,
    where the new cells satisfy [P]. *)
Definition col_update (mask : list bool) (name : string) (P : Cell -> Prop)
  (df df' : DataFrame) : Prop :=
  exists old new,
    lookup_col name (columns df) = Some old
    /\ df' = {| nrows := nrows df; columns := assign_col name new (columns df) |}
    /\ length new = length old
    /\ (forall i, mask !! i <> Some true -> new !! i = old !! i)
    /\ (forall i, mask !! i = Some true -> (i < length old)%nat ->
          exists v, new !! i = Some v /\ P v).

(** A frame changed only in the columns [S], and there only in the rows
    of a mask. *)
Definition unchanged_outside (mask : list bool) (S : list string)
  (df df' : DataFrame) : Prop :=
  nrows df' = nrows df
  /\ col_names df' = col_names df
  /\ (wf_frame df -> wf_frame df')
  /\ (forall name, name ∉ S ->
        lookup_col name (columns df') = lookup_col name (columns df))
  /\ (forall name i, mask !! i <> Some true -> cell df' name i = cell df name i).

(** The rows of a mask hold, in one column, cells that satisfy [P]. *)
Definition masked_has (mask : list bool) (name : string) (P : Cell -> Prop)
  (df : DataFrame) : Prop :=
  forall i, mask !! i = Some true -> (i < nrows df)%nat ->
    exists v, cell df name i = Some v /\ P v.

(** The columns the override loop writes. *)
Definition overridden : list string :=
  ["fraud_cluster_id"; "is_synthetic_fraud"; "ad_id"; "device_fingerprint";
   "email"; "user_id"; "country"].

(** What the override loop leaves in a row of cluster [c]. *)
Definition fraud_row (pre : Prepared) (c : Cluster) (df : DataFrame) (i : nat) : Prop :=
  cell df "fraud_cluster_id" i = Some (CInt (cluster_id c))
  /\ cell df "is_synthetic_fraud" i = Some (CBool true)
  /\ (exists fp, cluster_fingerprints pre !! cluster_id c = Some fp
        /\ cell df "device_fingerprint" i = Some (CStr fp))
  /\ (exists pool handle domain,
        cluster_email_pools pre !! cluster_id c = Some pool
        /\ handle ∈ pool /\ domain ∈ fraud_domains
        /\ cell df "email" i = Some (CStr (email_from_handle handle domain)))
  /\ (exists targets ad,
        cluster_target_ads pre !! cluster_id c = Some targets
        /\ ad ∈ targets
        /\ cell df "ad_id" i = Some (CStr ad)).

(** [names] after [df[name] = ...]: a new column goes to the end. *)
Definition add_name (names : list string) (name : string) : list string :=
  if decide (name ∈ names) then names else names ++ [name].

(** A frame reached by assigning, one after the other, the columns of a
    sequence of names. *)
Inductive assigns : list string -> DataFrame -> DataFrame -> Prop :=
  | assigns_nil df : assigns [] df df
  | assigns_cons name vals seq df df' :
      assigns seq {| nrows := nrows df;
                     columns := assign_col name vals (columns df) |} df' ->
      assigns (name :: seq) df df'.

(** The columns of the base enrichment, in the order the script adds them. *)
Definition base_columns : list string :=
  ["ad_id"; "user_id"; "country"; "device_fingerprint"; "connection_type"; "email"].

(** The columns the script adds, in the order of their first assignment. *)
Definition new_columns : list string :=
  base_columns ++ ["fraud_cluster_id"; "is_synthetic_fraud"].

(** What holds of a finished run over the column of source addresses. *)
Record run_facts (r : Run) (ip_col : Column) : Prop := {
  rf_ip : lookup_col "ip" (columns (run_input r)) = Some ip_col;
  rf_base : assigns base_columns (run_input r) (run_baseline r);
  rf_base_wf : wf_frame (run_baseline r);
  rf_hub_NoDup : NoDup (run_hub_ips_list r);
  rf_hub_sub : forall x, x ∈ run_hub_ips_list r -> x ∈ ip_col;
  rf_hub_count :
    Z.of_nat (length (run_hub_ips_list r)) = num_hub_ips (length (unique ip_col));
  rf_blocks : concat (map ips (run_clusters r)) = run_hub_ips_list r;
  rf_ids : ids_from 1 (run_clusters r);
  rf_sizes : sizes_within CLUSTER_MIN_SIZE CLUSTER_MAX_SIZE (run_clusters r);
  rf_fingerprints :
    cluster_fingerprints (run_prepared r) = make_fingerprints (run_clusters r);
  rf_targets :
    map_Forall (fun _ v => v <> [] /\ NoDup v /\ forall ad, ad ∈ v -> ad ∈ FRAUD_TARGET_ADS)
               (cluster_target_ads (run_prepared r));
  rf_rows : nrows (run_output r) = nrows (run_input r);
  rf_wf : wf_frame (run_output r);
  rf_names : col_names (run_output r) = foldl add_name (col_names (run_input r)) new_columns;
  rf_frame : forall name, name ∉ overridden ->
    lookup_col name (columns (run_output r)) = lookup_col name (columns (run_baseline r));
  rf_assigns : exists seq,
    (forall name, name ∈ seq -> name ∈ new_columns)
    /\ assigns seq (run_input r) (run_output r);
  rf_outside : forall i x, ip_col !! i = Some x ->
    (forall c, c ∈ run_clusters r -> x ∉ ips c) ->
    cell (run_output r) "fraud_cluster_id" i = Some (CInt 0)
    /\ cell (run_output r) "is_synthetic_fraud" i = Some (CBool false)
    /\ forall name, name ∉ ["fraud_cluster_id"; "is_synthetic_fraud"] ->
         cell (run_output r) name i = cell (run_baseline r) name i;
  rf_inside : forall i x c, c ∈ run_clusters r -> ip_col !! i = Some x -> x ∈ ips c ->
    fraud_row (run_prepared r) c (run_output r) i
}.

(** An input the script accepts: a well-formed table with at least one row
    and the five columns the script reads. *)
Definition valid_input (df : DataFrame) : Prop :=
  wf_frame df /\ (1 <= nrows df)%nat
  /\ forall name, name ∈ ["ip"; "device"; "os"; "app"; "channel"] -> has_col df name.

(** The dictionaries hold what the loop needs for a cluster. *)
Definition prepared_for (pre : Prepared) (c : Cluster) : Prop :=
  (exists pool, cluster_email_pools pre !! cluster_id c = Some pool /\ pool <> [])
  /\ (exists targets, cluster_target_ads pre !! cluster_id c = Some targets /\ targets <> [])
  /\ is_Some (cluster_fingerprints pre !! cluster_id c).

(** The hub count as the specification words it:
    [max(1, round(|IPs| * f))]. *)
Definition hub_count_rounded (n : nat) : Z :=
  Z.max 1 (Float.round (Float.mul_int (Z.of_nat n) FRACTION_FRAUD_IPS)).


(** The columns of the input table and the enriched [connection_type]. *)
Definition kept_columns : list string :=
  ["ip"; "app"; "device"; "os"; "channel"; "click_time"; "attributed_time";
   "is_attributed"; "connection_type"].


(** ** Shapes of values

    Predicates in which the later statements say what the helpers and the
    stages of the script produce. *)

(** Every character of [s] is one of [alphabet]. *)
Definition spelled_with (alphabet s : string) : Prop :=
  forall c, Py.contains c s = true -> Py.contains c alphabet = true.

Definition decimal_digits : string := "0123456789".
Definition hex_digits : string := "0123456789abcdef".

(** A handle the variants act on: no dot, underscore or plus sign, and at
    least three characters. *)
Definition plain_handle (h : string) : Prop :=
  Py.contains "." h = false /\ Py.contains "_" h = false
  /\ Py.contains "+" h = false /\ (3 <= String.length h)%nat.

(** The four entries the pool builder adds for a base handle. *)
Definition variant_of (h e : string) : Prop :=
  e = h
  \/ (exists k, 1 <= k <= 8 /\ e = h +:+ "+promo" +:+ Py.str_int k)
  \/ inserted_once "." h e
  \/ inserted_once "_" h e.

(** What the base enrichment leaves in row [i] of a table [df], read from
    the row of the input table [df0]. *)
Definition baseline_row (df0 df : DataFrame) (i : nat) : Prop :=
  exists ip device os_ app channel ad country conn domain,
    cell df0 "ip" i = Some ip /\ cell df0 "device" i = Some device
    /\ cell df0 "os" i = Some os_ /\ cell df0 "app" i = Some app
    /\ cell df0 "channel" i = Some channel
    /\ ad ∈ ALL_ADS /\ cell df "ad_id" i = Some (CStr ad)
    /\ cell df "user_id" i = Some (CStr (gen_user_id ip device os_))
    /\ country ∈ COUNTRIES /\ cell df "country" i = Some (CStr country)
    /\ cell df "device_fingerprint" i
       = Some (CStr (gen_fingerprint device os_ app channel))
    /\ conn ∈ CONNECTION_TYPES /\ cell df "connection_type" i = Some (CStr conn)
    /\ domain ∈ domains
    /\ cell df "email" i
       = Some (CStr (email_from_handle
                       ("user" +:+ Py.last_chars 6 (gen_user_id ip device os_)) domain)).

(** What the override loop leaves in the [user_id] and the [country] of a
    row of cluster [c]: a fresh sock-puppet id, or the id that some row of
    the cluster had in [before]; the country the row had, or one of
    [COUNTRIES]. *)
Definition rotated_row (c : Cluster) (ip_col : Column) (before after : DataFrame)
  (i : nat) : Prop :=
  (exists v, cell after "user_id" i = Some v
     /\ ((exists k, 0 <= k < 999999 /\ v = CStr ("u" +:+ Py.fmt_0d 6 k))
         \/ (exists j x, ip_col !! j = Some x /\ x ∈ ips c
               /\ cell before "user_id" j = Some v)))
  /\ (exists v, cell after "country" i = Some v
     /\ (cell before "country" i = Some v \/ exists s, s ∈ COUNTRIES /\ v = CStr s)).



(** The body of the loop of [build_email_pool], and the draw of one set of
    target ads, as computations of their own. *)
Section Steps.
Context {G : Type} `{RandomState G}.

Definition pool_step (pool : list string) (h : string) : Rand G (list string) :=
  p ← plus_variant h; d ← dot_variant h; u ← underscore_variant h;
  mret (pool ++ [h; p; d; u]).

Definition mk_targets : Rand G (list string) :=
  size ← randint 1 4; choice_distinct "" FRAUD_TARGET_ADS size.

End Steps.

(** * Properties *)

(** ** Test vectors of the primitives *)

Example sha256_abc :
  Hashlib.sha256_int "abc"
  = 0xba7816bf8f01cfea414140de5dae2223b00361a396177a9cb410ff61f20015ad.
Proof. vm_compute. reflexivity. Qed.

Example sha256_constants :
  length Hashlib.SHA256.K = 64%nat
  /\ nth 0 Hashlib.SHA256.K 0 = 0x428a2f98 /\ nth 63 Hashlib.SHA256.K 0 = 0xc67178f2
  /\ nth 0 Hashlib.SHA256.H0 0 = 0x6a09e667 /\ nth 7 Hashlib.SHA256.H0 0 = 0x5be0cd19.
Proof. vm_compute. repeat split. Qed.

Example md5_abc : Hashlib.md5_hexdigest "abc" = "900150983cd24fb0d6963f7d28e17f72".
Proof. vm_compute. reflexivity. Qed.

Example md5_empty : Hashlib.md5_hexdigest "" = "d41d8cd98f00b204e9800998ecf8427e".
Proof. vm_compute. reflexivity. Qed.

Example str_int_examples :
  Py.str_int 0 = "0" /\ Py.str_int 120 = "120" /\ Py.str_int (-7) = "-7"
  /\ Py.fmt_0d 3 7 = "007" /\ Py.fmt_0d 3 1234 = "1234" /\ Py.fmt_0d 7 42 = "0000042".
Proof. vm_compute. repeat split. Qed.

(** ** Strings *)

Lemma append_cons c (a b : string) : String c a +:+ b = String c (a +:+ b).
Proof. reflexivity. Qed.

Lemma append_nil (b : string) : EmptyString +:+ b = b.
Proof. reflexivity. Qed.

Ltac str_simpl := simpl; rewrite ?append_cons, ?append_nil; simpl.

Lemma string_app_length (a b : string) :
  String.length (a +:+ b) = (String.length a + String.length b)%nat.
Proof. induction a as [|c a IH]; str_simpl; [done|]. by rewrite IH. Qed.

Lemma prefix_suffix pos s : Py.prefix pos s +:+ Py.suffix pos s = s.
Proof.
  revert s. induction pos as [|p IH]; intros [|c s]; str_simpl; try done.
  by rewrite IH.
Qed.

Lemma prefix_length pos s :
  (pos <= String.length s)%nat -> String.length (Py.prefix pos s) = pos.
Proof.
  revert s. induction pos as [|p IH]; intros [|c s]; simpl; intros Hle; try lia.
  rewrite IH; lia.
Qed.

Lemma suffix_length pos s :
  String.length (Py.suffix pos s) = (String.length s - pos)%nat.
Proof. revert s. induction pos as [|p IH]; intros [|c s]; simpl; try done. Qed.

Lemma count_app c a b : Py.count c (a +:+ b) = (Py.count c a + Py.count c b)%nat.
Proof. induction a as [|d a IH]; str_simpl; [done|]. rewrite IH. lia. Qed.

Lemma remove_app c a b : Py.remove c (a +:+ b) = Py.remove c a +:+ Py.remove c b.
Proof.
  induction a as [|d a IH]; str_simpl; [done|].
  destruct (Ascii.eqb c d); str_simpl; by rewrite IH.
Qed.

Lemma contains_app c a b : Py.contains c (a +:+ b) = Py.contains c a || Py.contains c b.
Proof. induction a as [|d a IH]; str_simpl; [done|]. by destruct (Ascii.eqb c d). Qed.

Lemma count_absent c s : Py.contains c s = false -> Py.count c s = 0%nat.
Proof.
  induction s as [|d s IH]; simpl; [done|].
  destruct (Ascii.eqb c d); [done|]. intros Hs. by rewrite IH.
Qed.

Lemma remove_absent c s : Py.contains c s = false -> Py.remove c s = s.
Proof.
  induction s as [|d s IH]; simpl; [done|].
  destruct (Ascii.eqb c d); [done|]. intros Hs. by rewrite IH.
Qed.

Lemma last_char_app a b : b <> EmptyString -> Py.last_char (a +:+ b) = Py.last_char b.
Proof.
  intros Hb. unfold Py.last_char. induction a as [|c a IH]; str_simpl; [done|].
  rewrite <- IH. rewrite string_app_length.
  destruct b as [|d b]; [done|]. simpl.
  replace (String.length a + S (String.length b) - 0)%nat
    with (S (String.length a + S (String.length b) - 1)) by lia.
  done.
Qed.

Lemma insert_interior c pos handle :
  Py.contains c handle = false ->
  (1 <= pos <= String.length handle - 2)%nat ->
  inserted_once c handle
    (Py.prefix pos handle +:+ String c EmptyString +:+ Py.suffix pos handle).
Proof.
  intros Habs Hpos. exists pos. split; [done|]. split; [done|].
  pose proof (prefix_suffix pos handle) as Hsplit.
  assert (Py.contains c (Py.prefix pos handle) = false
          /\ Py.contains c (Py.suffix pos handle) = false) as [Hp Hs].
  { rewrite <- Hsplit, contains_app in Habs. by apply orb_false_elim in Habs. }
  assert (Py.suffix pos handle <> EmptyString) as Hne.
  { intros Hempty. pose proof (suffix_length pos handle) as Hl.
    rewrite Hempty in Hl. simpl in Hl. lia. }
  repeat split.
  - rewrite !string_app_length, prefix_length, suffix_length by lia. simpl. lia.
  - rewrite !count_app, (count_absent _ _ Hp), (count_absent _ _ Hs). simpl.
    by rewrite Ascii.eqb_refl.
  - unfold Py.first_char. destruct pos as [|p]; [lia|]. by destruct handle.
  - rewrite last_char_app by (by destruct (Py.suffix pos handle)).
    change (String c "" +:+ Py.suffix pos handle) with (String c (Py.suffix pos handle)).
    change (String c (Py.suffix pos handle))
      with (String c EmptyString +:+ Py.suffix pos handle).
    rewrite last_char_app by done.
    rewrite <- Hsplit at 2. by rewrite last_char_app.
  - rewrite !remove_app, (remove_absent _ _ Hp), (remove_absent _ _ Hs). simpl.
    by rewrite Ascii.eqb_refl.
Qed.

(** ** The text that is hashed *)

Lemma digits_have_no_bar d : Py.contains "|" (NilEmpty.string_of_uint d) = false.
Proof. induction d; simpl; done. Qed.

Lemma str_int_no_bar n : Py.contains "|" (Py.str_int n) = false.
Proof.
  unfold Py.str_int, NilZero.string_of_int, NilZero.string_of_uint.
  destruct (Z.to_int n) as [d|d]; destruct d; simpl; try done; apply digits_have_no_bar.
Qed.

Lemma to_int_not_nil n : Z.to_int n <> Pos Nil /\ Z.to_int n <> Neg Nil.
Proof.
  destruct n as [|p|p]; simpl; split; try done.
  - intros [= Hp]. by apply (Unsigned.to_uint_nonnil p).
  - intros [= Hp]. by apply (Unsigned.to_uint_nonnil p).
Qed.

Lemma str_int_inj n n' : Py.str_int n = Py.str_int n' -> n = n'.
Proof.
  unfold Py.str_int. intros Heq. apply DecimalZ.to_int_inj.
  destruct (to_int_not_nil n) as [Hp Hn]. destruct (to_int_not_nil n') as [Hp' Hn'].
  pose proof (NilZero.isi _ Hp Hn) as H1. pose proof (NilZero.isi _ Hp' Hn') as H2.
  rewrite Heq in H1. rewrite H1 in H2. by injection H2.
Qed.

Lemma str_int_nonempty n : Py.str_int n <> EmptyString.
Proof.
  unfold Py.str_int, NilZero.string_of_int, NilZero.string_of_uint.
  destruct (Z.to_int n) as [d|d]; [|done]. by destruct d.
Qed.

Lemma contains_cons c d r :
  Py.contains c (String d r) = if Ascii.eqb c d then true else Py.contains c r.
Proof. reflexivity. Qed.

(** Two texts without a bar that agree up to the first bar are equal. *)
Lemma split_at_bar (a b r1 r2 : string) :
  Py.contains "|" a = false -> Py.contains "|" b = false ->
  a +:+ String "|" r1 = b +:+ String "|" r2 -> a = b /\ r1 = r2.
Proof.
  revert b. induction a as [|c a IH]; intros [|c' b] Ha Hb; rewrite ?append_cons, ?append_nil.
  - by intros [= ->].
  - intros [= <- _]. by rewrite contains_cons, Ascii.eqb_refl in Hb.
  - intros [= -> _]. by rewrite contains_cons, Ascii.eqb_refl in Ha.
  - intros [= -> Hrest]. rewrite contains_cons in Ha, Hb.
    destruct (Ascii.eqb "|" c'); [done|].
    destruct (IH b Ha Hb Hrest) as [-> ->]. done.
Qed.

Lemma no_bar_before_bar (a b r : string) :
  Py.contains "|" a = false -> a <> b +:+ String "|" r.
Proof.
  intros Ha ->. rewrite contains_app, contains_cons, Ascii.eqb_refl in Ha.
  by rewrite orb_true_r in Ha.
Qed.

Lemma join_bar_inj (l1 l2 : list string) :
  Forall (fun s => Py.contains "|" s = false /\ s <> EmptyString) l1 ->
  Forall (fun s => Py.contains "|" s = false /\ s <> EmptyString) l2 ->
  Py.join "|" l1 = Py.join "|" l2 -> l1 = l2.
Proof.
  intros H1. revert l2. induction H1 as [|x l1 [Hx Hxne] H1 IH]; intros l2 H2 Heq.
  - destruct H2 as [|y l2 [Hy Hyne] H2]; [done|].
    simpl in Heq. destruct l2; [by subst|].
    symmetry in Heq. destruct y; [done|]. by rewrite append_cons in Heq.
  - destruct H2 as [|y l2 [Hy Hyne] H2].
    + simpl in Heq. destruct l1; [by subst|].
      destruct x; [done|]. by rewrite append_cons in Heq.
    + destruct l1 as [|x' l1], l2 as [|y' l2]; simpl in Heq.
      * by subst.
      * exfalso. by apply (no_bar_before_bar x y (Py.join "|" (y' :: l2)) Hx).
      * exfalso. symmetry in Heq.
        by apply (no_bar_before_bar y x (Py.join "|" (x' :: l1)) Hy).
      * change ("|" +:+ ?r) with (String "|" r) in Heq.
        apply split_at_bar in Heq as [-> Hrest]; [|done|done].
        f_equal. by apply IH.
Qed.

(** For integer addresses the hashed text determines the sequence. *)
Lemma hash_input_determines_sequence (l1 l2 : list Z) :
  Py.join "|" (map str (map CInt l1)) = Py.join "|" (map str (map CInt l2)) -> l1 = l2.
Proof.
  intros Heq. apply join_bar_inj in Heq.
  - revert l2 Heq. induction l1 as [|a l1 IH]; intros [|b l2]; simpl; try done.
    intros [= Hab Hrest]. apply str_int_inj in Hab as ->. f_equal. by apply IH.
  - rewrite !map_map. apply Forall_forall. intros s Hs.
    apply list_elem_of_In, in_map_iff in Hs as (n & <- & _). simpl.
    split; [apply str_int_no_bar|apply str_int_nonempty].
  - rewrite !map_map. apply Forall_forall. intros s Hs.
    apply list_elem_of_In, in_map_iff in Hs as (n & <- & _). simpl.
    split; [apply str_int_no_bar|apply str_int_nonempty].
Qed.

Section Draws.
Context {G : Type} `{RandomState G}.

Lemma randint_ok lo hi (g : G) :
  lo < hi ->
  exists v g', randint lo hi g = Ok (v, g') /\ lo <= v < hi.
Proof.
  intros Hlt. unfold randint. rewrite (proj2 (Z.ltb_lt _ _) Hlt).
  pose proof (rs_randint_range lo hi g Hlt) as Hr.
  destruct (rs_randint lo hi g) as [v g']. by exists v, g'.
Qed.

End Draws.

(** ** The two variants *)

Section Variants.
Context {G : Type} `{RandomState G}.

(** C10. On a handle of at least three characters without a dot,
    [dot_variant] returns the handle with one dot inserted at an interior
    position: the first and the last character are unchanged, the result
    holds exactly one dot, and removing it gives the handle back.  A handle
    that holds a dot already, or is shorter than three characters, comes
    back unchanged, and the generator is not touched.  The same holds of
    [underscore_variant] with the underscore. *)
Theorem variants_insert_one_separator (handle : string) (g : G) :
  (Py.contains "." handle = false -> (3 <= String.length handle)%nat ->
     exists r g', dot_variant handle g = Ok (r, g') /\ inserted_once "." handle r)
  /\ (Py.contains "." handle = true \/ (String.length handle < 3)%nat ->
     dot_variant handle g = Ok (handle, g))
  /\ (Py.contains "_" handle = false -> (3 <= String.length handle)%nat ->
     exists r g', underscore_variant handle g = Ok (r, g') /\ inserted_once "_" handle r)
  /\ (Py.contains "_" handle = true \/ (String.length handle < 3)%nat ->
     underscore_variant handle g = Ok (handle, g)).
Proof.
  unfold dot_variant, underscore_variant.
  repeat split.
  - intros Habs Hlen. rewrite Habs. simpl.
    rewrite (proj2 (Nat.ltb_ge _ _) Hlen).
    destruct (randint_ok 1 (Z.of_nat (String.length handle) - 1) g) as (pos & g' & Hr & Hpos); [lia|].
    unfold mbind, rand_bind. rewrite Hr. eexists _, g'. split; [done|].
    apply insert_interior; [done|lia].
  - intros [Hc|Hlen]; [by rewrite Hc|].
    rewrite (proj2 (Nat.ltb_lt _ _) Hlen). by rewrite orb_true_r.
  - intros Habs Hlen. rewrite Habs. simpl.
    rewrite (proj2 (Nat.ltb_ge _ _) Hlen).
    destruct (randint_ok 1 (Z.of_nat (String.length handle) - 1) g) as (pos & g' & Hr & Hpos); [lia|].
    unfold mbind, rand_bind. rewrite Hr. eexists _, g'. split; [done|].
    apply insert_interior; [done|lia].
  - intros [Hc|Hlen]; [by rewrite Hc|].
    rewrite (proj2 (Nat.ltb_lt _ _) Hlen). by rewrite orb_true_r.
Qed.
End Variants.

(** ** Floats *)

Lemma round_half_even_bounds p q :
  0 < q ->
  2 * p - q <= 2 * q * Float.round_half_even p q <= 2 * p + q
  /\ p / q <= Float.round_half_even p q.
Proof.
  intros Hq. unfold Float.round_half_even.
  pose proof (Z.div_mod p q ltac:(lia)) as Hdm.
  pose proof (Z.mod_pos_bound p q Hq) as Hr.
  set (d := p / q) in *. set (r := p mod q) in *.
  destruct (Z.ltb_spec (2 * r) q); [nia|].
  destruct (Z.ltb_spec q (2 * r)); [nia|].
  destruct (Z.even d); nia.
Qed.

(** The product of a row count with a float of at most one half stays
    within the row count, truncated or rounded. *)
Lemma mul_int_within (n m e : Z) :
  0 <= n -> 0 < m -> e < 0 -> 2 * m <= 2 ^ (- e) ->
  0 <= Float.to_int (Float.mul_int n (m, e)) <= n
  /\ 0 <= Float.round (Float.mul_int n (m, e)) <= n.
Proof.
  intros Hn Hm He Hhalf.
  unfold Float.mul_int. simpl fst. simpl snd.
  set (p := n * m). set (E := - e) in *.
  assert (0 < 2 ^ E) as HE by (apply Z.pow_pos_nonneg; lia).
  assert (0 <= p) as Hp by nia.
  assert (2 * p <= n * 2 ^ E) as Hpn by nia.
  destruct (Z.leb_spec (Z.log2 p + 1 - 53) 0) as [Hs|Hs].
  - unfold Float.to_int, Float.round. simpl fst. simpl snd.
    rewrite (proj2 (Z.leb_gt 0 e)) by lia. fold E.
    destruct (round_half_even_bounds p (2 ^ E) HE) as [[Hlo Hhi] Hge].
    pose proof (Z.div_pos p (2 ^ E) Hp HE) as Hd0.
    assert (p / 2 ^ E <= n) as Hdn.
    { apply Z.div_le_upper_bound; nia. }
    split; [lia|]. split; [lia|]. nia.
  - set (s := Z.log2 p + 1 - 53) in *.
    assert (0 < p) as Hp0.
    { destruct (Z.eq_dec p 0) as [Hz|]; [|lia]. subst s. rewrite Hz in Hs. simpl in Hs. lia. }
    assert (0 < 2 ^ s) as H2s by (apply Z.pow_pos_nonneg; lia).
    assert (2 ^ s <= p) as Hsp.
    { pose proof (Z.log2_spec p Hp0) as [Hlog _].
      etrans; [|exact Hlog]. apply Z.pow_le_mono_r; lia. }
    destruct (round_half_even_bounds p (2 ^ s) H2s) as [[Hlo Hhi] Hge].
    set (m' := Float.round_half_even p (2 ^ s)) in *.
    assert (0 <= m') as Hm'.
    { pose proof (Z.div_pos p (2 ^ s) Hp H2s). lia. }
    unfold Float.to_int, Float.round. simpl fst. simpl snd.
    destruct (Z.leb_spec 0 (e + s)) as [Hes|Hes].
    + assert (2 ^ s = 2 ^ E * 2 ^ (e + s)) as Hsplit.
      { rewrite <- Z.pow_add_r by lia. f_equal. lia. }
      assert (0 < 2 ^ (e + s)) as Hpos by (apply Z.pow_pos_nonneg; lia).
      set (v := m' * 2 ^ (e + s)).
      assert (0 <= v) as Hv0 by nia.
      assert (4 * (2 ^ E * v) <= 3 * (n * 2 ^ E)) as Hv.
      { assert (2 ^ E * v = 2 ^ s * m') as -> by (unfold v; rewrite Hsplit; ring). nia. }
      assert (v <= n) by nia. lia.
    + set (F := - (e + s)).
      assert (0 < 2 ^ F) as HF by (apply Z.pow_pos_nonneg; lia).
      assert (2 ^ E = 2 ^ s * 2 ^ F) as Hsplit.
      { rewrite <- Z.pow_add_r by lia. f_equal. lia. }
      assert (4 * m' <= 3 * n * 2 ^ F) as Hm4.
      { assert (4 * (2 ^ s * m') <= 3 * (n * 2 ^ s * 2 ^ F)) by nia. nia. }
      destruct (round_half_even_bounds m' (2 ^ F) HF) as [[Hlo' Hhi'] Hge'].
      pose proof (Z.div_pos m' (2 ^ F) Hm' HF) as Hd0.
      assert (1 <= n) as Hn1 by nia.
      assert (m' / 2 ^ F <= n) as Hdn.
      { apply Z.div_le_upper_bound; nia. }
      split; [lia|]. split; [lia|]. nia.
Qed.

Lemma num_hub_ips_within (n : nat) : (1 <= n)%nat -> 1 <= num_hub_ips n <= Z.of_nat n.
Proof.
  intros Hn. unfold num_hub_ips, FRACTION_FRAUD_IPS, Float.lit_0_05.
  destruct (mul_int_within (Z.of_nat n) 3602879701896397 (-56)) as [Hi _]; lia.
Qed.

(** Below [2^52] rows the truncated product is the integer quotient by 20. *)
Lemma mul_int_0_05_exact (n : Z) :
  0 <= n < 2 ^ 52 ->
  Float.to_int (Float.mul_int n Float.lit_0_05) = n / 20.
Proof.
  intros Hn. unfold Float.mul_int, Float.lit_0_05. simpl fst. simpl snd.
  set (d := 3602879701896397).
  set (p := n * d).
  assert (0 <= p) as Hp by (unfold p, d; lia).
  pose proof (Z.div_mod n 20 ltac:(lia)) as Hdm.
  pose proof (Z.mod_pos_bound n 20 ltac:(lia)) as Ht.
  set (q := n / 20) in *. set (t := n mod 20) in *.
  assert (0 <= q) as Hq0 by (apply Z.div_pos; lia).
  destruct (Z.leb_spec (Z.log2 p + 1 - 53) 0) as [Hs|Hs].
  - unfold Float.to_int. simpl fst. simpl snd.
    change (0 <=? -56) with false. cbv iota.
    assert (p < 2 ^ 53) as Hsmall.
    { destruct (Z.eq_dec p 0) as [->|Hne]; [done|].
      pose proof (Z.log2_spec p ltac:(lia)) as [_ Hup].
      eapply Z.lt_le_trans; [exact Hup|]. apply Z.pow_le_mono_r; lia. }
    assert (n < 20) as Hn20 by (unfold p, d in Hsmall; lia).
    rewrite Z.div_small by (change (- -56) with 56; lia).
    symmetry. unfold q. apply Z.div_small. lia.
  - set (s := Z.log2 p + 1 - 53) in *.
    assert (0 < p) as Hp0.
    { destruct (Z.eq_dec p 0) as [Hz|]; [|lia]. subst s. rewrite Hz in Hs. simpl in Hs. lia. }
    assert (0 < n) as Hn0 by (unfold p, d in Hp0; lia).
    assert (0 < 2 ^ s) as H2s by (apply Z.pow_pos_nonneg; lia).
    assert (2 ^ s * 2 ^ 52 <= p) as Hsp.
    { pose proof (Z.log2_spec p Hp0) as [Hlog _].
      rewrite <- Z.pow_add_r by lia.
      replace (s + 52) with (Z.log2 p) by lia. done. }
    assert (2 ^ s <= n) as Hsn by (unfold p, d in Hsp; lia).
    assert (s < 52) as Hs52.
    { apply (Z.pow_lt_mono_r_iff 2); lia. }
    destruct (round_half_even_bounds p (2 ^ s) H2s) as [[Hlo Hhi] Hge].
    set (m' := Float.round_half_even p (2 ^ s)) in *.
    unfold Float.to_int. simpl fst. simpl snd.
    rewrite (proj2 (Z.leb_gt 0 (-56 + s))) by lia.
    set (F := - (-56 + s)).
    assert (0 < 2 ^ F) as HF by (apply Z.pow_pos_nonneg; lia).
    assert (2 ^ 56 = 2 ^ s * 2 ^ F) as Hsplit.
    { rewrite <- Z.pow_add_r by lia. f_equal. lia. }
    assert (20 * d = 2 ^ 56 + 4) as Hd by done.
    symmetry. apply Z.div_unique_pos with (r := m' - q * 2 ^ F); [|lia].
    split.
    + destruct (Z.eq_dec t 0) as [Ht0|Ht0].
      * assert (p = q * 2 ^ F * 2 ^ s + 4 * q) as Hpq by (unfold p; nia).
        assert (q * 2 ^ F <= p / 2 ^ s); [|lia].
        apply Z.div_le_lower_bound; nia.
      * assert (2 * (2 ^ s * (q * 2 ^ F)) <= 2 * 2 ^ s * m'); [|nia].
        assert (2 ^ s * (q * 2 ^ F) = q * 2 ^ 56) as -> by (rewrite Hsplit; ring).
        assert (20 * (2 * (q * 2 ^ 56)) <= 20 * (2 * p - 2 ^ s)); [|lia].
        unfold p. nia.
    + assert (2 * 2 ^ s * m' < 2 * (2 ^ s * ((q + 1) * 2 ^ F))); [|nia].
      assert (2 ^ s * ((q + 1) * 2 ^ F) = (q + 1) * 2 ^ 56) as -> by (rewrite Hsplit; ring).
      assert (20 * (2 * p + 2 ^ s) < 20 * (2 * ((q + 1) * 2 ^ 56))); [|lia].
      unfold p. nia.
Qed.

Lemma num_hub_ips_exact (n : nat) :
  Z.of_nat n < 2 ^ 52 -> num_hub_ips n = Z.max 1 (Z.of_nat n / 20).
Proof.
  intros Hn. unfold num_hub_ips, FRACTION_FRAUD_IPS.
  rewrite mul_int_0_05_exact by lia. done.
Qed.

(** ** Slices *)

Lemma slice_forward {A} (l : list A) (c s : Z) :
  0 <= c -> 0 <= s ->
  Py.slice c (c + s) l = take (Z.to_nat s) (drop (Z.to_nat c) l).
Proof.
  intros Hc Hs. unfold Py.slice, Py.clamp.
  rewrite (proj2 (Z.ltb_ge c 0)), (proj2 (Z.ltb_ge (c + s) 0)) by lia.
  destruct (Z.le_gt_cases (c + s) (Z.of_nat (length l))) as [Hin|Hout].
  - rewrite !Z.min_l by lia. f_equal. lia.
  - rewrite (Z.min_r (c + s)) by lia.
    destruct (Z.le_gt_cases c (Z.of_nat (length l))) as [Hc'|Hc'].
    + rewrite Z.min_l by lia.
      rewrite !take_ge; [done| |]; rewrite length_drop; lia.
    + rewrite Z.min_r by lia. rewrite !drop_ge by lia. by rewrite !take_nil.
Qed.

(** ** The cluster builder *)

Section Builder.
Context {G : Type} `{RandomState G}.

Lemma ids_from_nil first : ids_from first [].
Proof. intros i c Hi. by rewrite lookup_nil in Hi. Qed.

Lemma sizes_within_nil m M : sizes_within m M [].
Proof. intros i c Hi. by rewrite lookup_nil in Hi. Qed.

Lemma ids_from_cons first c cs :
  cluster_id c = first -> ids_from (first + 1) cs -> ids_from first (c :: cs).
Proof.
  intros Hc Hcs [|i] c' Hi; simpl in Hi.
  - inversion Hi; subst. lia.
  - rewrite (Hcs i c' Hi). lia.
Qed.

Lemma sizes_within_cons m M c cs :
  1 <= Z.of_nat (length (ips c)) <= M ->
  (cs <> [] -> m <= Z.of_nat (length (ips c))) ->
  sizes_within m M cs -> sizes_within m M (c :: cs).
Proof.
  intros Hc Hm Hcs [|i] c' Hi; simpl in Hi.
  - inversion Hi; subst. split; [done|]. intros Hmore. apply Hm.
    destruct cs; simpl in *; [lia|done].
  - destruct (Hcs i c' Hi) as [Hb Hmin]. split; [done|].
    intros Hmore. apply Hmin. simpl in Hmore. lia.
Qed.

Lemma cluster_loop_spec (m M : Z) (hub : list Cell) :
  1 <= m <= M ->
  forall fuel cursor cid acc (g : G),
    0 <= cursor ->
    (length hub - Z.to_nat cursor <= fuel)%nat ->
    exists cs g',
      cluster_loop fuel m M hub cursor cid acc g = Ok (acc ++ cs, g')
      /\ concat (map ips cs) = drop (Z.to_nat cursor) hub
      /\ ids_from cid cs
      /\ sizes_within m M cs.
Proof.
  intros HmM. induction fuel as [|fuel IH]; intros cursor cid acc g Hcur Hfuel.
  - simpl. rewrite (proj2 (Z.ltb_ge _ _)) by lia.
    exists [], g. rewrite app_nil_r, drop_ge by lia.
    split_and!; [done|done|apply ids_from_nil|apply sizes_within_nil].
  - simpl. destruct (Z.ltb_spec cursor (Z.of_nat (length hub))) as [Hlt|Hge].
    + destruct (randint_ok m (M + 1) g) as (size & g1 & Hr & Hsize); [lia|].
      unfold mbind, rand_bind at 1. rewrite Hr.
      destruct (IH (cursor + size) (cid + 1)
                  (acc ++ [{| cluster_id := cid;
                              ips := Py.slice cursor (cursor + size) hub |}]) g1)
        as (cs & g' & Hrun & Hcat & Hids & Hsz); [lia|lia|].
      exists ({| cluster_id := cid; ips := Py.slice cursor (cursor + size) hub |} :: cs), g'.
      rewrite Hrun, <- app_assoc. split; [done|].
      rewrite slice_forward by lia.
      assert (Hblock : length (take (Z.to_nat size) (drop (Z.to_nat cursor) hub))
                       = Nat.min (Z.to_nat size) (length hub - Z.to_nat cursor)).
      { by rewrite length_take, length_drop. }
      split_and!.
      * simpl. rewrite Hcat.
        replace (Z.to_nat (cursor + size)) with (Z.to_nat cursor + Z.to_nat size)%nat by lia.
        rewrite <- drop_drop. apply take_drop.
      * by apply ids_from_cons.
      * apply sizes_within_cons; simpl; [rewrite Hblock; lia| |done].
        intros Hne. rewrite Hblock.
        destruct cs as [|c' cs]; [done|].
        destruct (Hsz 0%nat c' eq_refl) as [[Hpos _] _].
        assert (length (concat (map ips (c' :: cs))) > 0)%nat as Hrest.
        { simpl. rewrite length_app. lia. }
        rewrite Hcat, length_drop in Hrest. lia.
    + exists [], g. rewrite app_nil_r, drop_ge by lia.
      split_and!; [done|done|apply ids_from_nil|apply sizes_within_nil].
Qed.

End Builder.

(** ** Columns *)

Lemma lookup_assign_same name v cols : lookup_col name (assign_col name v cols) = Some v.
Proof.
  induction cols as [|[k c] r IH]; simpl.
  - by rewrite String.eqb_refl.
  - destruct (String.eqb_spec k name) as [->|Hne]; simpl.
    + by rewrite String.eqb_refl.
    + by rewrite (proj2 (String.eqb_neq k name) Hne).
Qed.

Lemma lookup_assign_other name name' v cols :
  name' <> name -> lookup_col name' (assign_col name v cols) = lookup_col name' cols.
Proof.
  intros Hne. induction cols as [|[k c] r IH]; simpl.
  - by rewrite (proj2 (String.eqb_neq name name')).
  - destruct (String.eqb_spec k name) as [->|Hk]; simpl.
    + by rewrite (proj2 (String.eqb_neq name name')).
    + by rewrite IH.
Qed.

Lemma lookup_col_None name cols : lookup_col name cols = None <-> name ∉ map fst cols.
Proof.
  induction cols as [|[k c] r IH]; simpl.
  - split; [intros _; apply not_elem_of_nil|done].
  - rewrite not_elem_of_cons. destruct (String.eqb_spec k name) as [->|Hk].
    + split; [done|]. intros [Hne _]. done.
    + rewrite IH. split; [intros Hr; split; [congruence|done]|by intros [_ Hr]].
Qed.

Lemma lookup_col_Some name cols c : lookup_col name cols = Some c -> name ∈ map fst cols.
Proof.
  intros Hl. destruct (decide (name ∈ map fst cols)) as [|Hn]; [done|].
  apply lookup_col_None in Hn. congruence.
Qed.

Lemma names_assign_present name v cols :
  is_Some (lookup_col name cols) -> map fst (assign_col name v cols) = map fst cols.
Proof.
  induction cols as [|[k c] r IH]; simpl; intros [old Hold]; [done|].
  destruct (String.eqb_spec k name) as [->|Hk]; simpl; [done|].
  rewrite IH; [done|by exists old].
Qed.

Lemma names_assign_absent name v cols :
  lookup_col name cols = None -> map fst (assign_col name v cols) = map fst cols ++ [name].
Proof.
  induction cols as [|[k c] r IH]; simpl; intros Hn; [done|].
  destruct (String.eqb_spec k name) as [->|Hk]; simpl; [done|].
  by rewrite IH.
Qed.

Lemma Forall_assign (P : string * Column -> Prop) name v cols :
  Forall P cols -> (forall k, P (k, v)) -> Forall P (assign_col name v cols).
Proof.
  intros Hall Hv. induction Hall as [|[k c] r Hk Hr IH]; simpl.
  - by constructor.
  - destruct (String.eqb k name); constructor; auto.
Qed.

Lemma wf_lookup df name c :
  wf_frame df -> lookup_col name (columns df) = Some c -> length c = nrows df.
Proof.
  unfold wf_frame. generalize (nrows df). intros n Hwf.
  induction Hwf as [|[k c'] r Hk Hr IH]; simpl; [done|].
  destruct (String.eqb k name); [|done]. intros [= ->]. done.
Qed.

(** ** Masks *)

Lemma map_fmap {A B} (f : A -> B) (l : list A) : map f l = f <$> l.
Proof. induction l as [|x l IH]; simpl; [done|]. by rewrite IH. Qed.

Lemma isin_length col values : length (isin col values) = length col.
Proof. unfold isin. by rewrite length_map. Qed.

Lemma isin_lookup col values i x :
  col !! i = Some x -> isin col values !! i = Some (bool_decide (x ∈ values)).
Proof. intros Hx. unfold isin. by rewrite map_fmap, list_lookup_fmap, Hx. Qed.


Lemma mask_any_false mask i : mask_any mask = false -> mask !! i <> Some true.
Proof.
  unfold mask_any. revert i. induction mask as [|b m IH]; intros i; simpl.
  - by rewrite lookup_nil.
  - destruct b; simpl; [done|]. intros Hm. destruct i as [|i]; simpl; [done|]. by apply IH.
Qed.

Lemma mask_any_sum mask : mask_any mask = true -> (1 <= mask_sum mask)%nat.
Proof.
  unfold mask_any. induction mask as [|b m IH]; simpl; [done|].
  destruct b; simpl; [lia|]. intros Hm. specialize (IH Hm). lia.
Qed.

Lemma mask_positions_spec k mask j :
  j ∈ mask_positions k mask <-> exists i, j = (k + i)%nat /\ mask !! i = Some true.
Proof.
  revert k. induction mask as [|b m IH]; intros k; simpl.
  - split; [by intros ?%elem_of_nil|]. intros (i & _ & Hi). by rewrite lookup_nil in Hi.
  - rewrite elem_of_app, IH. split.
    + intros [Hb|(i & -> & Hi)].
      * destruct b; [|by apply elem_of_nil in Hb].
        apply list_elem_of_singleton in Hb as ->. exists 0%nat. split; [lia|done].
      * exists (S i). split; [lia|done].
    + intros ([|i] & -> & Hi); simpl in Hi.
      * inversion Hi; subst. left. rewrite Nat.add_0_r. by apply list_elem_of_singleton.
      * right. exists i. split; [lia|done].
Qed.

Lemma mask_positions_length k mask : length (mask_positions k mask) = mask_sum mask.
Proof.
  revert k. induction mask as [|b m IH]; intros k; simpl; [done|].
  rewrite length_app, IH. by destruct b.
Qed.

Lemma mask_assign_length mask vals col : length (mask_assign mask vals col) = length col.
Proof.
  revert vals col. induction mask as [|b m IH]; intros vals [|x c]; [done|done|by destruct b|].
  destruct b; [destruct vals|]; simpl; by rewrite IH.
Qed.

Lemma mask_assign_outside mask vals col i :
  mask !! i <> Some true -> mask_assign mask vals col !! i = col !! i.
Proof.
  revert vals col i.
  induction mask as [|b m IH]; intros vals [|x c] i Hi; [done|done|by destruct b|].
  destruct b.
  - destruct i as [|i]; [done|]. simpl in Hi. destruct vals; simpl; by apply IH.
  - destruct i as [|i]; [done|]. simpl in Hi. simpl. by apply IH.
Qed.

Lemma mask_assign_inside mask vals col i :
  mask !! i = Some true -> (i < length col)%nat -> (mask_sum mask <= length vals)%nat ->
  exists v, mask_assign mask vals col !! i = Some v /\ v ∈ vals.
Proof.
  revert vals col i. induction mask as [|b m IH]; intros vals [|x c] i Hi Hlen Hsum;
    simpl in *; try done; try lia.
  destruct b.
  - destruct vals as [|v vs]; simpl in Hsum; [lia|].
    destruct i as [|i]; simpl.
    + exists v. split; [done|]. apply elem_of_cons. by left.
    + destruct (IH vs c i) as (w & Hw & Hin); [done|lia|lia|].
      exists w. split; [done|]. apply elem_of_cons. by right.
  - destruct i as [|i]; [done|]. simpl in Hi. apply IH; [done|lia|lia].
Qed.

Lemma label_assign_length labels vals col :
  length (label_assign labels vals col) = length col.
Proof.
  revert vals col. induction labels as [|l ls IH]; intros [|v vs] col; simpl; try done.
  by rewrite IH, length_insert.
Qed.

Lemma label_assign_outside labels vals col i :
  i ∉ labels -> label_assign labels vals col !! i = col !! i.
Proof.
  revert vals col. induction labels as [|l ls IH]; intros [|v vs] col Hi; simpl; try done.
  apply not_elem_of_cons in Hi as [Hne Hi].
  rewrite IH by done. by apply list_lookup_insert_ne.
Qed.

(** ** Runs of the monad *)

Section Runs.
Context {G : Type} `{RandomState G}.

Lemma bind_Ok {A B} (c : Rand G A) (f : A -> Rand G B) g b g' :
  (c ≫= f) g = Ok (b, g') -> exists a g1, c g = Ok (a, g1) /\ f a g1 = Ok (b, g').
Proof.
  unfold mbind, rand_bind. destruct (c g) as [[a g1]|e]; [|done].
  intros Hf. by exists a, g1.
Qed.

Lemma lift_Ok {A} (r : result A) (g : G) a g' :
  lift r g = Ok (a, g') -> r = Ok a /\ g' = g.
Proof. unfold lift. destruct r; [|done]. by intros [= -> ->]. Qed.

Lemma ret_Ok {A} (x : A) (g : G) a g' :
  (mret x : Rand G A) g = Ok (a, g') -> a = x /\ g' = g.
Proof. unfold mret, rand_ret. by intros [= -> ->]. Qed.

Lemma result_bind_Ok {A B} (r : result A) (f : A -> result B) b :
  (r ≫= f) = Ok b -> exists a, r = Ok a /\ f a = Ok b.
Proof. unfold mbind, result_bind. destruct r as [a|e]; [|done]. intros Hf. by exists a. Qed.

Lemma choice_Ok {A} (d : A) (a : list A) k (g : G) xs g' :
  choice d a k g = Ok (xs, g') -> length xs = k /\ forall x, x ∈ xs -> x ∈ a.
Proof.
  unfold choice. destruct (length a =? 0)%nat eqn:Hlen; simpl.
  - destruct (k =? 0)%nat eqn:Hk; simpl; [|done].
    pose proof (rs_choice_length (length a) k g) as Hl.
    destruct (rs_choice (length a) k g) as [idx g1]. intros [= <- <-].
    simpl in Hl. rewrite length_map. split; [done|].
    apply Nat.eqb_eq in Hk. subst k. destruct idx; [|done].
    simpl. by intros x ?%elem_of_nil.
  - apply Nat.eqb_neq in Hlen.
    pose proof (rs_choice_length (length a) k g) as Hl.
    pose proof (rs_choice_bound (length a) k g ltac:(lia)) as Hb.
    destruct (rs_choice (length a) k g) as [idx g1]. intros [= <- <-].
    simpl in *. rewrite length_map. split; [done|].
    intros x Hx. rewrite map_fmap in Hx. apply list_elem_of_fmap in Hx as (i & -> & Hi).
    rewrite Forall_forall in Hb. specialize (Hb i Hi).
    unfold pick. apply list_elem_of_In, nth_In. done.
Qed.

Lemma choice_total {A} (d : A) (a : list A) k (g : G) :
  a <> [] \/ k = 0%nat -> exists xs g', choice d a k g = Ok (xs, g').
Proof.
  intros Hok. unfold choice.
  assert ((length a =? 0)%nat && negb (k =? 0)%nat = false) as ->.
  { destruct Hok as [Ha| ->]; [|by rewrite andb_false_r].
    destruct a; [done|]. done. }
  destruct (rs_choice (length a) k g) as [idx g1]. by eexists _, _.
Qed.

Lemma choice1_Ok {A} (d : A) (a : list A) (g : G) x g' :
  choice1 d a g = Ok (x, g') -> x ∈ a.
Proof.
  unfold choice1. destruct (length a =? 0)%nat eqn:Hlen; [done|].
  apply Nat.eqb_neq in Hlen.
  pose proof (rs_randint_range 0 (Z.of_nat (length a)) g ltac:(lia)) as Hr.
  destruct (rs_randint 0 (Z.of_nat (length a)) g) as [i g1]. intros [= <- <-].
  simpl in Hr. unfold pick. apply list_elem_of_In, nth_In. lia.
Qed.

Lemma choice1_total {A} (d : A) (a : list A) (g : G) :
  a <> [] -> exists x g', choice1 d a g = Ok (x, g').
Proof.
  intros Ha. unfold choice1. destruct a; [done|]. simpl.
  destruct (rs_randint 0 _ g) as [i g1]. by eexists _, _.
Qed.

Lemma NoDup_pick {A} (d : A) (a : list A) (idx : list nat) :
  NoDup a -> NoDup idx -> Forall (fun i => (i < length a)%nat) idx ->
  NoDup (map (pick d a) idx).
Proof.
  intros Ha Hidx. induction Hidx as [|i idx Hi Hidx IH]; intros Hb; simpl; [constructor|].
  apply Forall_cons in Hb as [Hib Hb]. constructor; [|by apply IH].
  intros Hin. rewrite map_fmap in Hin. apply list_elem_of_fmap in Hin as (j & Hj & Hjin).
  rewrite Forall_forall in Hb. specialize (Hb j Hjin).
  unfold pick in Hj. apply Hi.
  rewrite NoDup_ListNoDup in Ha.
  rewrite (proj1 (List.NoDup_nth a d) Ha i j Hib Hb Hj). done.
Qed.

Lemma choice_distinct_Ok {A} (d : A) (a : list A) k (g : G) xs g' :
  choice_distinct d a k g = Ok (xs, g') ->
  0 <= k <= Z.of_nat (length a) /\ length xs = Z.to_nat k
  /\ (forall x, x ∈ xs -> x ∈ a) /\ (NoDup a -> NoDup xs).
Proof.
  unfold choice_distinct. destruct (Z.ltb_spec k 0) as [|Hk0]; [done|].
  destruct ((length a =? 0)%nat && negb (k =? 0)); [done|].
  destruct (Z.ltb_spec (Z.of_nat (length a)) k) as [|Hka]; [done|].
  pose proof (rs_choice_distinct_length (length a) (Z.to_nat k) g ltac:(lia)) as Hl.
  pose proof (rs_choice_distinct_bound (length a) (Z.to_nat k) g ltac:(lia)) as Hb.
  pose proof (rs_choice_distinct_NoDup (length a) (Z.to_nat k) g ltac:(lia)) as Hn.
  destruct (rs_choice_distinct (length a) (Z.to_nat k) g) as [idx g1]. intros [= <- <-].
  simpl in *. rewrite length_map. split_and!; [lia|lia|done| |].
  - intros x Hx. rewrite map_fmap in Hx. apply list_elem_of_fmap in Hx as (i & -> & Hi).
    rewrite Forall_forall in Hb. specialize (Hb i Hi).
    unfold pick. apply list_elem_of_In, nth_In. done.
  - intros Ha. by apply NoDup_pick.
Qed.

Lemma choice_distinct_total {A} (d : A) (a : list A) k (g : G) :
  0 <= k <= Z.of_nat (length a) -> (a <> [] \/ k = 0) ->
  exists xs g', choice_distinct d a k g = Ok (xs, g').
Proof.
  intros Hk Hok. unfold choice_distinct.
  rewrite (proj2 (Z.ltb_ge k 0)) by lia.
  assert ((length a =? 0)%nat && negb (k =? 0) = false) as ->.
  { destruct Hok as [Ha| ->]; [|by rewrite andb_false_r]. by destruct a. }
  rewrite (proj2 (Z.ltb_ge (Z.of_nat (length a)) k)) by lia.
  destruct (rs_choice_distinct (length a) (Z.to_nat k) g) as [idx g1]. by eexists _, _.
Qed.

End Runs.

(** ** Updates of one column *)

Lemma unchanged_refl mask S df : unchanged_outside mask S df df.
Proof. by split_and!. Qed.

Lemma unchanged_trans mask S df df1 df2 :
  unchanged_outside mask S df df1 -> unchanged_outside mask S df1 df2 ->
  unchanged_outside mask S df df2.
Proof.
  intros (Hn1 & Hc1 & Hw1 & Ho1 & Hm1) (Hn2 & Hc2 & Hw2 & Ho2 & Hm2).
  split_and!; try congruence; [tauto| |].
  - intros name Hname. rewrite Ho2, Ho1; done.
  - intros name i Hi. rewrite Hm2, Hm1; done.
Qed.

Lemma col_update_unchanged mask S name P df df' :
  name ∈ S -> col_update mask name P df df' -> unchanged_outside mask S df df'.
Proof.
  intros HS (old & new & Hold & -> & Hlen & Hout & _). split_and!; simpl.
  - done.
  - unfold col_names. simpl. apply names_assign_present. by exists old.
  - intros Hwf. unfold wf_frame in *. simpl. apply Forall_assign; [done|].
    intros k. simpl. rewrite Hlen. by apply (wf_lookup df name).
  - intros name' Hname'. apply lookup_assign_other. intros ->. done.
  - intros name' i Hi. unfold cell. simpl.
    destruct (decide (name' = name)) as [->|Hne].
    + rewrite lookup_assign_same, Hold. by apply Hout.
    + by rewrite lookup_assign_other.
Qed.

Lemma col_update_masked mask name P df df' :
  wf_frame df -> col_update mask name P df df' -> masked_has mask name P df'.
Proof.
  intros Hwf (old & new & Hold & -> & Hlen & _ & Hin) i Hi Hrow. simpl in Hrow.
  unfold cell. simpl. rewrite lookup_assign_same. apply Hin; [done|].
  by rewrite (wf_lookup df name old).
Qed.

Lemma masked_has_preserved mask mask' S name P df df' :
  name ∉ S -> unchanged_outside mask' S df df' ->
  masked_has mask name P df -> masked_has mask name P df'.
Proof.
  intros Hname (Hn & _ & _ & Ho & _) Hhas i Hi Hrow.
  unfold cell. rewrite Ho by done. apply Hhas; [done|]. by rewrite <- Hn.
Qed.

Lemma unchanged_has_col mask S df df' name :
  unchanged_outside mask S df df' -> has_col df name -> has_col df' name.
Proof.
  intros (_ & Hc & _) [c Hc']. unfold has_col.
  destruct (lookup_col name (columns df')) eqn:Hl; [by eexists|].
  apply lookup_col_None in Hl. apply lookup_col_Some in Hc'.
  unfold col_names in Hc. by rewrite Hc in Hl.
Qed.

Lemma loc_set_scalar_update mask name v df :
  has_col df name ->
  col_update mask name (fun w => w = v) df (loc_set_scalar mask name v df).
Proof.
  intros [old Hold]. exists old, (mask_assign mask (repeat v (mask_sum mask)) old).
  unfold loc_set_scalar. rewrite Hold. simpl. split_and!; try done.
  - apply mask_assign_length.
  - intros i Hi. by apply mask_assign_outside.
  - intros i Hi Hlen.
    destruct (mask_assign_inside mask (repeat v (mask_sum mask)) old i)
      as (w & Hw & Hin); [done|done|by rewrite repeat_length|].
    exists w. split; [done|]. apply list_elem_of_In in Hin. by apply repeat_spec in Hin.
Qed.

Lemma loc_set_update mask name vals df df' :
  has_col df name -> loc_set mask name vals df = Ok df' ->
  col_update mask name (fun w => w ∈ vals) df df'.
Proof.
  intros [old Hold]. unfold loc_set.
  destruct (Nat.eqb_spec (length vals) (mask_sum mask)) as [Hlen|]; [|done].
  intros [= <-]. exists old, (mask_assign mask vals old).
  rewrite Hold. simpl. split_and!; try done.
  - apply mask_assign_length.
  - intros i Hi. by apply mask_assign_outside.
  - intros i Hi Hl. apply mask_assign_inside; [done|done|lia].
Qed.

Lemma loc_set_total mask name vals df :
  length vals = mask_sum mask -> exists df', loc_set mask name vals df = Ok df'.
Proof.
  intros Hlen. unfold loc_set. rewrite (proj2 (Nat.eqb_eq _ _) Hlen). by eexists.
Qed.

Lemma loc_set_labels_update mask labels name vals df df' :
  has_col df name -> (forall l, l ∈ labels -> mask !! l = Some true) ->
  loc_set_labels labels name vals df = Ok df' ->
  col_update mask name (fun _ => True) df df'.
Proof.
  intros [old Hold] Hlabels. unfold loc_set_labels.
  destruct (negb (forallb _ labels)); [done|].
  destruct (negb (length vals =? length labels)%nat); [done|].
  intros [= <-]. exists old, (label_assign labels vals old).
  rewrite Hold. simpl. split_and!; try done.
  - apply label_assign_length.
  - intros i Hi. apply label_assign_outside. intros Hin. by apply Hi, Hlabels.
  - intros i Hi Hl.
    destruct (label_assign labels vals old !! i) as [v|] eqn:Hv; [by exists v|].
    apply lookup_ge_None in Hv. rewrite label_assign_length in Hv. lia.
Qed.

(** ** One iteration of the override loop *)

Ltac in_cols := apply (bool_decide_unpack _); vm_compute; exact I.

(** From an update of one column: the frame outside the columns [S]. *)
Ltac frame_of U F S :=
  match type of U with
  | col_update ?mask ?name _ _ _ =>
      pose proof (col_update_unchanged mask S name _ _ _ ltac:(in_cols) U) as F
  end.

Ltac carry F := eapply masked_has_preserved; [ | exact F | ]; [in_cols | ].

(** Splits the first bind of a successful run: the value, and the run
    that produced it. *)
Tactic Notation "run_step" hyp(H) "as" ident(a) ident(Ha) :=
  cbv beta zeta in H;
  let g := fresh "g" in
  apply bind_Ok in H as (a & g & Ha & H).

(** The same for a step that cannot touch the generator. *)
Tactic Notation "lift_step" hyp(H) "as" ident(a) ident(Ha) :=
  run_step H as a Ha; apply lift_Ok in Ha as [Ha ->].

Section Override.
Context {G : Type} `{RandomState G}.

Lemma dict_get_Ok {V} (d : gmap Z V) k v : dict_get d k = Ok v -> d !! k = Some v.
Proof. unfold dict_get. destruct (d !! k); [|done]. by intros [= ->]. Qed.

Lemma sample_labels_Ok mask labels :
  sample_labels (G := G) mask = Ok labels ->
  forall l, l ∈ labels -> mask !! l = Some true.
Proof.
  unfold sample_labels.
  destruct (choice_distinct _ _ _ _) as [[ls g1]|e] eqn:Hc; [|done].
  intros [= <-] l Hl.
  apply choice_distinct_Ok in Hc as (_ & _ & Hin & _).
  apply Hin, mask_positions_spec in Hl as (i & -> & Hi). done.
Qed.

Lemma override_cluster_spec pre df c (g : G) df' g' ip_col :
  wf_frame df ->
  lookup_col "ip" (columns df) = Some ip_col ->
  (forall name, name ∈ overridden -> has_col df name) ->
  override_cluster pre df c g = Ok (df', g') ->
  unchanged_outside (isin ip_col (ips c)) overridden df df'
  /\ forall i, isin ip_col (ips c) !! i = Some true -> fraud_row pre c df' i.
Proof.
  intros Hwf Hip Hcols Hrun. unfold override_cluster in Hrun.
  lift_step Hrun as col Hget.
  unfold get_col in Hget. rewrite Hip in Hget. injection Hget as <-.
  set (mask := isin ip_col (ips c)) in *.
  destruct (mask_any mask) eqn:Hany; cbn [negb] in Hrun.
  2:{ apply ret_Ok in Hrun as [-> ->]. split; [apply unchanged_refl|].
      intros i Hi. by apply mask_any_false with (i := i) in Hany. }
  (* fraud_cluster_id, is_synthetic_fraud *)
  set (df1 := loc_set_scalar mask "fraud_cluster_id" (CInt (cluster_id c)) df) in *.
  pose proof (loc_set_scalar_update mask "fraud_cluster_id" (CInt (cluster_id c)) df
                ltac:(apply Hcols; in_cols)) as U1. fold df1 in U1.
  frame_of U1 F1 overridden.
  pose proof (col_update_masked _ _ _ _ _ Hwf U1) as M1.
  assert (wf_frame df1) as Hwf1 by (by apply F1).
  set (df2 := loc_set_scalar mask "is_synthetic_fraud" (CBool true) df1) in *.
  pose proof (loc_set_scalar_update mask "is_synthetic_fraud" (CBool true) df1
                ltac:(eapply unchanged_has_col; [exact F1|apply Hcols; in_cols])) as U2.
  fold df2 in U2.
  frame_of U2 F2 overridden. frame_of U2 F2' ["is_synthetic_fraud"].
  pose proof (col_update_masked _ _ _ _ _ Hwf1 U2) as M2.
  assert (wf_frame df2) as Hwf2 by (by apply F2).
  pose proof (unchanged_trans _ _ _ _ _ F1 F2) as F02.
  (* ad_id *)
  lift_step Hrun as targets Htargets. apply dict_get_Ok in Htargets.
  run_step Hrun as ads Hads. apply choice_Ok in Hads as [Hads_len Hads].
  lift_step Hrun as df3 Hdf3.
  pose proof (loc_set_update mask "ad_id" _ df2 df3
                ltac:(eapply unchanged_has_col; [exact F02|apply Hcols; in_cols]) Hdf3) as U3.
  frame_of U3 F3 overridden. frame_of U3 F3' ["ad_id"].
  pose proof (col_update_masked _ _ _ _ _ Hwf2 U3) as M3.
  assert (wf_frame df3) as Hwf3 by (by apply F3).
  pose proof (unchanged_trans _ _ _ _ _ F02 F3) as F03.
  (* device_fingerprint *)
  lift_step Hrun as fp Hfp. apply dict_get_Ok in Hfp.
  cbv beta zeta in Hrun.
  set (df4 := loc_set_scalar mask "device_fingerprint" (CStr fp) df3) in *.
  pose proof (loc_set_scalar_update mask "device_fingerprint" (CStr fp) df3
                ltac:(eapply unchanged_has_col; [exact F03|apply Hcols; in_cols])) as U4.
  fold df4 in U4.
  frame_of U4 F4 overridden. frame_of U4 F4' ["device_fingerprint"].
  pose proof (col_update_masked _ _ _ _ _ Hwf3 U4) as M4.
  assert (wf_frame df4) as Hwf4 by (by apply F4).
  pose proof (unchanged_trans _ _ _ _ _ F03 F4) as F04.
  (* email *)
  lift_step Hrun as pool Hpool. apply dict_get_Ok in Hpool.
  run_step Hrun as handles Hhandles. apply choice_Ok in Hhandles as [Hh_len Hhandles].
  run_step Hrun as doms Hdoms. apply choice_Ok in Hdoms as [Hd_len Hdoms].
  lift_step Hrun as df5 Hdf5.
  pose proof (loc_set_update mask "email" _ df4 df5
                ltac:(eapply unchanged_has_col; [exact F04|apply Hcols; in_cols]) Hdf5) as U5.
  frame_of U5 F5 overridden. frame_of U5 F5' ["email"].
  pose proof (col_update_masked _ _ _ _ _ Hwf4 U5) as M5.
  assert (wf_frame df5) as Hwf5 by (by apply F5).
  pose proof (unchanged_trans _ _ _ _ _ F04 F5) as F05.
  (* user_id *)
  run_step Hrun as base_users Hbase. clear Hbase.
  lift_step Hrun as uid_col Huid.
  run_step Hrun as uids Huids. clear Huids.
  lift_step Hrun as df6 Hdf6.
  pose proof (loc_set_update mask "user_id" _ df5 df6
                ltac:(eapply unchanged_has_col; [exact F05|apply Hcols; in_cols]) Hdf6) as U6.
  frame_of U6 F6 overridden. frame_of U6 F6' ["user_id"].
  assert (wf_frame df6) as Hwf6 by (by apply F6).
  pose proof (unchanged_trans _ _ _ _ _ F05 F6) as F06.
  (* country *)
  lift_step Hrun as sub_idx Hsub_idx.
  run_step Hrun as countries Hcountries. clear Hcountries.
  apply lift_Ok in Hrun as [Hdf7 ->].
  pose proof (loc_set_labels_update mask sub_idx "country" _ df6 df'
                ltac:(eapply unchanged_has_col; [exact F06|apply Hcols; in_cols])
                (sample_labels_Ok _ _ Hsub_idx) Hdf7) as U7.
  frame_of U7 F7 overridden. frame_of U7 F7' ["country"].
  pose proof (unchanged_trans _ _ _ _ _ F06 F7) as F07.
  split; [done|].
  assert (nrows df' = nrows df) as Hrows by apply F07.
  assert (length mask = nrows df) as Hmask.
  { unfold mask. rewrite isin_length. by apply (wf_lookup df "ip"). }
  intros i Hi.
  assert (i < nrows df)%nat as Hrow.
  { rewrite <- Hmask. by apply lookup_lt_Some in Hi. }
  unfold fraud_row. split_and!.
  - assert (masked_has mask "fraud_cluster_id" (fun w => w = CInt (cluster_id c)) df') as M.
    { carry F7'. carry F6'. carry F5'. carry F4'. carry F3'. carry F2'. exact M1. }
    destruct (M i Hi ltac:(lia)) as (v & Hv & ->). done.
  - assert (masked_has mask "is_synthetic_fraud" (fun w => w = CBool true) df') as M.
    { carry F7'. carry F6'. carry F5'. carry F4'. carry F3'. exact M2. }
    destruct (M i Hi ltac:(lia)) as (v & Hv & ->). done.
  - assert (masked_has mask "device_fingerprint" (fun w => w = CStr fp) df') as M.
    { carry F7'. carry F6'. carry F5'. exact M4. }
    destruct (M i Hi ltac:(lia)) as (v & Hv & ->). by exists fp.
  - assert (masked_has mask "email"
              (fun w => w ∈ map (fun hd => CStr (email_from_handle hd.1 hd.2))
                                (combine handles doms)) df') as M.
    { carry F7'. carry F6'. exact M5. }
    destruct (M i Hi ltac:(lia)) as (v & Hv & Hin).
    rewrite map_fmap in Hin. apply list_elem_of_fmap in Hin as ([h d] & -> & Hhd).
    apply list_elem_of_In in Hhd. pose proof (in_combine_l _ _ _ _ Hhd) as Hh.
    pose proof (in_combine_r _ _ _ _ Hhd) as Hd.
    exists pool, h, d. split_and!; [done| | |done].
    + by apply Hhandles, list_elem_of_In.
    + by apply Hdoms, list_elem_of_In.
  - assert (masked_has mask "ad_id" (fun w => w ∈ map CStr ads) df') as M.
    { carry F7'. carry F6'. carry F5'. carry F4'. exact M3. }
    destruct (M i Hi ltac:(lia)) as (v & Hv & Hin).
    rewrite map_fmap in Hin. apply list_elem_of_fmap in Hin as (a & -> & Ha).
    exists targets, a. split_and!; [done|by apply Hads|done].
Qed.

End Override.

(** ** The whole override loop *)

Section Loop.
Context {G : Type} `{RandomState G}.

Lemma fraud_row_transfer pre c df df' i :
  (forall name, cell df' name i = cell df name i) ->
  fraud_row pre c df i -> fraud_row pre c df' i.
Proof.
  intros Heq (Hid & Hflag & (fp & Hfp & Hcell) & (pool & h & d & Hp & Hh & Hd & Hmail)
              & (targets & ad & Ht & Had & Hcellad)).
  unfold fraud_row. rewrite !Heq. split_and!; [done|done|by exists fp| |].
  - by exists pool, h, d.
  - by exists targets, ad.
Qed.

Lemma isin_true col values i x :
  col !! i = Some x -> x ∈ values -> isin col values !! i = Some true.
Proof. intros Hx Hin. rewrite (isin_lookup _ _ _ x Hx). by rewrite bool_decide_eq_true_2. Qed.

Lemma isin_false col values i x :
  col !! i = Some x -> x ∉ values -> isin col values !! i <> Some true.
Proof. intros Hx Hin. rewrite (isin_lookup _ _ _ x Hx). by rewrite bool_decide_eq_false_2. Qed.

Lemma elem_of_concat_ips (cs : list Cluster) x :
  x ∈ concat (map ips cs) <-> exists c, c ∈ cs /\ x ∈ ips c.
Proof.
  induction cs as [|c cs IH]; simpl.
  - split; [by intros ?%elem_of_nil|]. intros (c & Hc & _). by apply elem_of_nil in Hc.
  - rewrite elem_of_app, IH. split.
    + intros [Hx|(c' & Hc' & Hx)]; [exists c|exists c']; split; try done.
      * apply elem_of_cons. by left.
      * apply elem_of_cons. by right.
    + intros (c' & Hc' & Hx). apply elem_of_cons in Hc' as [->|Hc']; [by left|].
      right. by exists c'.
Qed.

Lemma override_loop_spec pre cs :
  forall df (g : G) df' g' ip_col,
    wf_frame df ->
    lookup_col "ip" (columns df) = Some ip_col ->
    (forall name, name ∈ overridden -> has_col df name) ->
    NoDup (concat (map ips cs)) ->
    rand_foldM (override_cluster pre) df cs g = Ok (df', g') ->
    nrows df' = nrows df
    /\ col_names df' = col_names df
    /\ wf_frame df'
    /\ (forall name, name ∉ overridden ->
          lookup_col name (columns df') = lookup_col name (columns df))
    /\ (forall i x, ip_col !! i = Some x -> (forall c, c ∈ cs -> x ∉ ips c) ->
          forall name, cell df' name i = cell df name i)
    /\ (forall i x c, c ∈ cs -> ip_col !! i = Some x -> x ∈ ips c ->
          fraud_row pre c df' i).
Proof.
  induction cs as [|c cs IH]; intros df g df' g' ip_col Hwf Hip Hcols Hnd Hrun.
  - simpl in Hrun. apply ret_Ok in Hrun as [-> ->]. split_and!; try done.
    intros i x c Hc. by apply elem_of_nil in Hc.
  - simpl in Hrun. run_step Hrun as df1 Hstep.
    destruct (override_cluster_spec pre df c g df1 g0 ip_col Hwf Hip Hcols Hstep)
      as [(Hn1 & Hc1 & Hw1 & Ho1 & Hm1) Hrows1].
    simpl in Hnd. apply NoDup_app in Hnd as (_ & Hdisj & Hnd).
    assert (lookup_col "ip" (columns df1) = Some ip_col) as Hip1.
    { rewrite Ho1; [done|in_cols]. }
    assert (forall name, name ∈ overridden -> has_col df1 name) as Hcols1.
    { intros name Hname. eapply unchanged_has_col; [|by apply Hcols].
      by split_and!. }
    destruct (IH df1 g0 df' g' ip_col (Hw1 Hwf) Hip1 Hcols1 Hnd Hrun)
      as (Hn & Hc & Hw & Ho & Hout & Hin).
    split_and!; try congruence.
    + intros name Hname. rewrite Ho, Ho1; done.
    + intros i x Hx Hnone name. rewrite (Hout i x Hx).
      * apply Hm1. eapply isin_false; [done|]. apply Hnone, elem_of_cons. by left.
      * intros c' Hc'. apply Hnone, elem_of_cons. by right.
    + intros i x c' Hc' Hx Hxc. apply elem_of_cons in Hc' as [->|Hc'].
      * apply (fraud_row_transfer pre c df1).
        -- intros name. apply (Hout i x Hx). intros c' Hc' Hxc'.
           apply (Hdisj x Hxc). apply elem_of_concat_ips. by exists c'.
        -- apply Hrows1. by eapply isin_true.
      * by apply (Hin i x c').
Qed.

Lemma set_col_scalar_lookup name v df :
  lookup_col name (columns (set_col_scalar name v df)) = Some (repeat v (nrows df)).
Proof. apply lookup_assign_same. Qed.

Lemma set_col_scalar_other name name' v df :
  name' <> name ->
  lookup_col name' (columns (set_col_scalar name v df)) = lookup_col name' (columns df).
Proof. intros Hne. by apply lookup_assign_other. Qed.

Lemma set_col_scalar_wf name v df : wf_frame df -> wf_frame (set_col_scalar name v df).
Proof.
  intros Hwf. unfold wf_frame, set_col_scalar. simpl. apply Forall_assign; [done|].
  intros k. simpl. apply repeat_length.
Qed.

Lemma repeat_lookup {A} (v : A) n i : (i < n)%nat -> repeat v n !! i = Some v.
Proof.
  revert i. induction n as [|n IH]; intros i Hi; [lia|].
  destruct i as [|i]; simpl; [done|]. apply IH. lia.
Qed.

Lemma inject_fraud_spec pre cs df (g : G) df' g' ip_col :
  wf_frame df ->
  lookup_col "ip" (columns df) = Some ip_col ->
  (forall name, name ∈ ["ad_id"; "device_fingerprint"; "email"; "user_id"; "country"] ->
     has_col df name) ->
  NoDup (concat (map ips cs)) ->
  inject_fraud pre cs df g = Ok (df', g') ->
  nrows df' = nrows df
  /\ wf_frame df'
  /\ col_names df'
     = col_names (set_col_scalar "is_synthetic_fraud" (CBool false)
                    (set_col_scalar "fraud_cluster_id" (CInt 0) df))
  /\ (forall name, name ∉ overridden ->
        lookup_col name (columns df') = lookup_col name (columns df))
  /\ (forall i x, ip_col !! i = Some x -> (forall c, c ∈ cs -> x ∉ ips c) ->
        cell df' "fraud_cluster_id" i = Some (CInt 0)
        /\ cell df' "is_synthetic_fraud" i = Some (CBool false)
        /\ forall name, name ∉ ["fraud_cluster_id"; "is_synthetic_fraud"] ->
             cell df' name i = cell df name i)
  /\ (forall i x c, c ∈ cs -> ip_col !! i = Some x -> x ∈ ips c ->
        fraud_row pre c df' i).
Proof.
  intros Hwf Hip Hcols Hnd Hrun. unfold inject_fraud in Hrun.
  set (df1 := set_col_scalar "fraud_cluster_id" (CInt 0) df) in *.
  set (df2 := set_col_scalar "is_synthetic_fraud" (CBool false) df1) in *.
  assert (wf_frame df2) as Hwf2 by (by do 2 apply set_col_scalar_wf).
  assert (forall name, name ∉ ["fraud_cluster_id"; "is_synthetic_fraud"] ->
            lookup_col name (columns df2) = lookup_col name (columns df)) as Hsame.
  { intros name Hname. unfold df2, df1.
    rewrite !set_col_scalar_other; [done| |]; intros ->; apply Hname; in_cols. }
  assert (lookup_col "ip" (columns df2) = Some ip_col) as Hip2.
  { rewrite Hsame; [done|in_cols]. }
  assert (forall name, name ∈ overridden -> has_col df2 name) as Hcols2.
  { intros name Hname. unfold has_col.
    destruct (decide (name = "is_synthetic_fraud")) as [->|Hn1].
    { unfold df2. rewrite set_col_scalar_lookup. by eexists. }
    destruct (decide (name = "fraud_cluster_id")) as [->|Hn2].
    { unfold df2. rewrite set_col_scalar_other by done.
      unfold df1. rewrite set_col_scalar_lookup. by eexists. }
    rewrite Hsame.
    - apply Hcols. unfold overridden in Hname.
      repeat (apply elem_of_cons in Hname as [->|Hname]; [try done; in_cols|]).
      by apply elem_of_nil in Hname.
    - intros Hin. repeat (apply elem_of_cons in Hin as [->|Hin]; [done|]).
      by apply elem_of_nil in Hin. }
  destruct (override_loop_spec pre cs df2 g df' g' ip_col Hwf2 Hip2 Hcols2 Hnd Hrun)
    as (Hn & Hc & Hw & Ho & Hout & Hin).
  assert (length ip_col = nrows df) as Hlen by (by apply (wf_lookup df "ip")).
  split_and!; try done.
  - intros name Hname. rewrite Ho by done. apply Hsame.
    intros Hin'. apply Hname.
    repeat (apply elem_of_cons in Hin' as [->|Hin']; [in_cols|]).
    by apply elem_of_nil in Hin'.
  - intros i x Hx Hnone.
    assert (i < nrows df)%nat as Hi by (rewrite <- Hlen; by apply lookup_lt_Some in Hx).
    rewrite !(Hout i x Hx Hnone). split_and!.
    + unfold cell, df2. rewrite set_col_scalar_other by done.
      unfold df1. rewrite set_col_scalar_lookup. by apply repeat_lookup.
    + unfold cell, df2. rewrite set_col_scalar_lookup. by apply repeat_lookup.
    + intros name Hname. rewrite (Hout i x Hx Hnone). unfold cell. by rewrite Hsame.
Qed.

End Loop.

(** ** Sequences of column assignments *)

Lemma names_assign name v cols :
  map fst (assign_col name v cols) = add_name (map fst cols) name.
Proof.
  unfold add_name. destruct (decide (name ∈ map fst cols)) as [Hin|Hout].
  - apply names_assign_present. destruct (lookup_col name cols) eqn:Hl; [by eexists|].
    by apply lookup_col_None in Hl.
  - by apply names_assign_absent, lookup_col_None.
Qed.


Lemma assigns_one name vals df :
  assigns [name] df {| nrows := nrows df; columns := assign_col name vals (columns df) |}.
Proof. eapply assigns_cons, assigns_nil. Qed.

Lemma assigns_trans s1 s2 df df1 df2 :
  assigns s1 df df1 -> assigns s2 df1 df2 -> assigns (s1 ++ s2) df df2.
Proof.
  induction 1 as [|name vals seq df df1 _ IH]; simpl; [done|].
  intros H2. eapply assigns_cons. by apply IH.
Qed.

Lemma assigns_nrows seq df df' : assigns seq df df' -> nrows df' = nrows df.
Proof. induction 1 as [|name vals seq df df' _ IH]; [done|]. by rewrite IH. Qed.

Lemma assigns_names seq df df' :
  assigns seq df df' -> col_names df' = foldl add_name (col_names df) seq.
Proof.
  induction 1 as [|name vals seq df df' _ IH]; simpl; [done|].
  rewrite IH. unfold col_names at 1. simpl. by rewrite names_assign.
Qed.

Lemma assigns_other seq df df' name :
  assigns seq df df' -> name ∉ seq ->
  lookup_col name (columns df') = lookup_col name (columns df).
Proof.
  induction 1 as [|name' vals seq df df' _ IH]; [done|].
  intros [Hne Hn]%not_elem_of_cons. rewrite IH by done. simpl.
  by apply lookup_assign_other.
Qed.


Lemma add_names_present names seq :
  (forall name, name ∈ seq -> name ∈ names) -> foldl add_name names seq = names.
Proof.
  induction seq as [|n seq IH]; simpl; intros Hall; [done|].
  unfold add_name at 2. rewrite decide_True by (apply Hall, elem_of_cons; by left).
  apply IH. intros name Hname. apply Hall, elem_of_cons. by right.
Qed.


Lemma elem_of_add_names names seq name :
  name ∈ seq -> name ∈ foldl add_name names seq.
Proof.
  revert names. induction seq as [|n seq IH]; simpl; intros names Hin.
  - by apply elem_of_nil in Hin.
  - apply elem_of_cons in Hin as [->|Hin]; [|by apply IH].
    assert (n ∈ add_name names n) as Hadd.
    { unfold add_name. destruct (decide (n ∈ names)); [done|].
      apply elem_of_app. right. by apply list_elem_of_singleton. }
    clear IH. revert Hadd. generalize (add_name names n). clear names.
    induction seq as [|m seq IH]; simpl; intros names Hin; [done|].
    apply IH. unfold add_name. destruct (decide (m ∈ names)); [done|].
    apply elem_of_app. by left.
Qed.

Lemma has_col_names df name : has_col df name <-> name ∈ col_names df.
Proof.
  unfold has_col, col_names. split.
  - intros [c Hc]. by apply lookup_col_Some in Hc.
  - intros Hin. destruct (lookup_col name (columns df)) eqn:Hl; [by eexists|].
    by apply lookup_col_None in Hl.
Qed.

Lemma assigns_has_col seq df df' name :
  assigns seq df df' -> has_col df name \/ name ∈ seq -> has_col df' name.
Proof.
  intros Hseq Hor. apply has_col_names. rewrite (assigns_names _ _ _ Hseq).
  destruct Hor as [Hc|Hs]; [|by apply elem_of_add_names].
  apply has_col_names in Hc. revert Hc. generalize (col_names df).
  clear Hseq. induction seq as [|m seq IH]; simpl; intros names Hin; [done|].
  apply IH. unfold add_name. destruct (decide (m ∈ names)); [done|].
  apply elem_of_app. by left.
Qed.

(** ** The elementary assignments *)

Lemma set_col_Ok name vals df df' :
  set_col name vals df = Ok df' ->
  length vals = nrows df
  /\ df' = {| nrows := nrows df; columns := assign_col name vals (columns df) |}.
Proof.
  unfold set_col. destruct (Nat.eqb_spec (length vals) (nrows df)); [|done].
  by intros [= <-].
Qed.

Lemma set_col_total name vals df :
  length vals = nrows df -> exists df', set_col name vals df = Ok df'.
Proof. intros Hl. unfold set_col. rewrite (proj2 (Nat.eqb_eq _ _) Hl). by eexists. Qed.

Lemma set_col_assigns name vals df df' :
  set_col name vals df = Ok df' -> assigns [name] df df'.
Proof. intros [_ ->]%set_col_Ok. apply assigns_one. Qed.

Lemma set_col_wf name vals df df' :
  wf_frame df -> set_col name vals df = Ok df' -> wf_frame df'.
Proof.
  intros Hwf [Hlen ->]%set_col_Ok. unfold wf_frame. simpl.
  by apply Forall_assign.
Qed.

Lemma set_col_lookup name vals df df' :
  set_col name vals df = Ok df' -> lookup_col name (columns df') = Some vals.
Proof. intros [_ ->]%set_col_Ok. apply lookup_assign_same. Qed.

Lemma loc_set_assigns mask name vals df df' :
  loc_set mask name vals df = Ok df' -> assigns [name] df df'.
Proof.
  unfold loc_set. destruct (length vals =? mask_sum mask)%nat; [|done].
  intros [= <-]. apply assigns_one.
Qed.

Lemma loc_set_labels_assigns labels name vals df df' :
  loc_set_labels labels name vals df = Ok df' -> assigns [name] df df'.
Proof.
  unfold loc_set_labels. destruct (negb (forallb _ labels)); [done|].
  destruct (negb (length vals =? length labels)%nat); [done|].
  intros [= <-]. apply assigns_one.
Qed.

Lemma loc_set_scalar_assigns mask name v df :
  assigns [name] df (loc_set_scalar mask name v df).
Proof. apply assigns_one. Qed.

Lemma set_col_scalar_assigns name v df : assigns [name] df (set_col_scalar name v df).
Proof. apply assigns_one. Qed.

(** ** Frame of the override loop *)

Section Frame.
Context {G : Type} `{RandomState G}.

Lemma override_cluster_assigns pre df c (g : G) df' g' :
  override_cluster pre df c g = Ok (df', g') ->
  exists seq, (forall name, name ∈ seq -> name ∈ overridden) /\ assigns seq df df'.
Proof.
  intros Hrun. unfold override_cluster in Hrun.
  lift_step Hrun as col Hget.
  destruct (negb (mask_any (isin col (ips c)))).
  { apply ret_Ok in Hrun as [-> ->]. exists []. split; [|constructor].
    by intros name ?%elem_of_nil. }
  lift_step Hrun as targets Htargets.
  run_step Hrun as ads Hads.
  lift_step Hrun as df3 Hdf3. apply loc_set_assigns in Hdf3.
  lift_step Hrun as fp Hfp.
  lift_step Hrun as pool Hpool.
  run_step Hrun as handles Hhandles.
  run_step Hrun as doms Hdoms.
  lift_step Hrun as df5 Hdf5. apply loc_set_assigns in Hdf5.
  run_step Hrun as base_users Hbase.
  lift_step Hrun as uid_col Huid.
  run_step Hrun as uids Huids.
  lift_step Hrun as df6 Hdf6. apply loc_set_assigns in Hdf6.
  lift_step Hrun as sub_idx Hsub_idx.
  run_step Hrun as countries Hcountries.
  apply lift_Ok in Hrun as [Hdf7 ->]. apply loc_set_labels_assigns in Hdf7.
  exists overridden. split; [done|].
  change overridden with (["fraud_cluster_id"] ++ ["is_synthetic_fraud"] ++ ["ad_id"]
    ++ ["device_fingerprint"] ++ ["email"] ++ ["user_id"] ++ ["country"]).
  eapply assigns_trans; [apply loc_set_scalar_assigns|].
  eapply assigns_trans; [apply loc_set_scalar_assigns|].
  eapply assigns_trans; [exact Hdf3|].
  eapply assigns_trans; [apply loc_set_scalar_assigns|].
  eapply assigns_trans; [exact Hdf5|].
  eapply assigns_trans; [exact Hdf6|]. exact Hdf7.
Qed.

Lemma override_loop_assigns pre cs :
  forall df (g : G) df' g',
    rand_foldM (override_cluster pre) df cs g = Ok (df', g') ->
    exists seq, (forall name, name ∈ seq -> name ∈ overridden) /\ assigns seq df df'.
Proof.
  induction cs as [|c cs IH]; intros df g df' g' Hrun; simpl in Hrun.
  - apply ret_Ok in Hrun as [-> ->]. exists []. split; [|constructor].
    by intros name ?%elem_of_nil.
  - run_step Hrun as df1 Hstep.
    apply override_cluster_assigns in Hstep as (s1 & Hs1 & Ha1).
    apply IH in Hrun as (s2 & Hs2 & Ha2).
    exists (s1 ++ s2). split; [|by eapply assigns_trans].
    intros name [Hn|Hn]%elem_of_app; auto.
Qed.

Lemma inject_fraud_assigns pre cs df (g : G) df' g' :
  inject_fraud pre cs df g = Ok (df', g') ->
  exists seq, (forall name, name ∈ seq -> name ∈ overridden)
    /\ assigns (["fraud_cluster_id"; "is_synthetic_fraud"] ++ seq) df df'.
Proof.
  unfold inject_fraud. intros Hrun.
  apply override_loop_assigns in Hrun as (seq & Hseq & Ha).
  exists seq. split; [done|].
  change (["fraud_cluster_id"; "is_synthetic_fraud"] ++ seq)
    with (["fraud_cluster_id"] ++ ["is_synthetic_fraud"] ++ seq).
  eapply assigns_trans; [apply set_col_scalar_assigns|].
  eapply assigns_trans; [apply set_col_scalar_assigns|]. done.
Qed.

End Frame.

(** ** Loops over lists *)

Section Loops.
Context {G : Type} `{RandomState G}.

Lemma bind_run {A B} (c : Rand G A) (f : A -> Rand G B) g a g1 :
  c g = Ok (a, g1) -> (c ≫= f) g = f a g1.
Proof. intros Hc. unfold mbind, rand_bind. by rewrite Hc. Qed.

Lemma lift_run {A B} (r : result A) (f : A -> Rand G B) (g : G) a :
  r = Ok a -> (lift r ≫= f) g = f a g.
Proof. intros ->. done. Qed.

Lemma result_mapM_Ok {A B} (f : A -> result B) xs ys :
  result_mapM f xs = Ok ys -> length ys = length xs.
Proof.
  revert ys. induction xs as [|x xs IH]; simpl; intros ys.
  - by intros [= <-].
  - intros Hrun. apply result_bind_Ok in Hrun as (y & _ & Hrun).
    apply result_bind_Ok in Hrun as (ys' & Hys & Hrun).
    injection Hrun as <-. simpl. by rewrite (IH ys').
Qed.

Lemma result_mapM_total {A B} (f : A -> result B) xs :
  (forall x, x ∈ xs -> exists y, f x = Ok y) -> exists ys, result_mapM f xs = Ok ys.
Proof.
  induction xs as [|x xs IH]; simpl; intros Hf; [by eexists|].
  destruct (Hf x) as [y Hy]; [apply elem_of_cons; by left|].
  destruct IH as [ys Hys]; [intros x' Hx'; apply Hf, elem_of_cons; by right|].
  rewrite Hy. simpl. unfold mbind, result_bind. rewrite Hys. by eexists.
Qed.

Lemma rand_mapM_Ok {A B} (f : A -> Rand G B) xs g ys g' :
  rand_mapM f xs g = Ok (ys, g') -> length ys = length xs.
Proof.
  revert g ys g'. induction xs as [|x xs IH]; simpl; intros g ys g' Hrun.
  - by apply ret_Ok in Hrun as [-> _].
  - run_step Hrun as y Hy. run_step Hrun as ys' Hys.
    apply ret_Ok in Hrun as [-> _]. simpl. by rewrite (IH _ _ _ Hys).
Qed.

Lemma rand_mapM_total {A B} (f : A -> Rand G B) xs g :
  (forall x g, x ∈ xs -> exists y g', f x g = Ok (y, g')) ->
  exists ys g', rand_mapM f xs g = Ok (ys, g').
Proof.
  revert g. induction xs as [|x xs IH]; simpl; intros g Hf; [by eexists _, _|].
  destruct (Hf x g) as (y & g1 & Hy); [apply elem_of_cons; by left|].
  destruct (IH g1) as (ys & g2 & Hys); [intros x' g0 Hx'; apply Hf, elem_of_cons; by right|].
  rewrite (bind_run _ _ _ _ _ Hy), (bind_run _ _ _ _ _ Hys). by eexists _, _.
Qed.

Lemma rand_foldM_total {A B} (P : B -> Prop) (f : B -> A -> Rand G B) xs :
  (forall b x g, P b -> x ∈ xs -> exists b' g', f b x g = Ok (b', g') /\ P b') ->
  forall b g, P b -> exists b' g', rand_foldM f b xs g = Ok (b', g') /\ P b'.
Proof.
  induction xs as [|x xs IH]; simpl; intros Hf b g Hb; [by eexists _, _|].
  destruct (Hf b x g Hb) as (b1 & g1 & Hb1 & HP1); [apply elem_of_cons; by left|].
  rewrite (bind_run _ _ _ _ _ Hb1). apply IH; [|done].
  intros b0 x0 g0 Hb0 Hx0. apply Hf; [done|]. apply elem_of_cons. by right.
Qed.

End Loops.

(** ** The base enrichment *)

Section Base.
Context {G : Type} `{RandomState G}.

Lemma row_get_total df i name : has_col df name -> exists v, row_get df i name = Ok v.
Proof.
  intros [c Hc]. unfold row_get, get_col. rewrite Hc. by eexists.
Qed.

Lemma get_col_has df name : has_col df name -> exists c, get_col name df = Ok c.
Proof. intros [c Hc]. unfold get_col. rewrite Hc. by eexists. Qed.

Lemma get_col_Ok df name c :
  get_col name df = Ok c -> lookup_col name (columns df) = Some c.
Proof. unfold get_col. destruct (lookup_col name (columns df)); [|done]. by intros [= ->]. Qed.

Lemma base_enrichment_Ok df (g : G) df' g' :
  wf_frame df -> base_enrichment df g = Ok (df', g') ->
  assigns base_columns df df' /\ wf_frame df'.
Proof.
  intros Hwf Hrun. unfold base_enrichment in Hrun.
  run_step Hrun as ads Hads.
  lift_step Hrun as df1 Hdf1.
  lift_step Hrun as uids Huids.
  lift_step Hrun as df2 Hdf2.
  run_step Hrun as countries Hcountries.
  lift_step Hrun as df3 Hdf3.
  lift_step Hrun as fps Hfps.
  lift_step Hrun as df4 Hdf4.
  run_step Hrun as conns Hconns.
  lift_step Hrun as df5 Hdf5.
  lift_step Hrun as uid_col Huid_col.
  run_step Hrun as emails Hemails.
  apply lift_Ok in Hrun as [Hdf6 ->].
  split.
  - change base_columns with (["ad_id"] ++ ["user_id"] ++ ["country"]
      ++ ["device_fingerprint"] ++ ["connection_type"] ++ ["email"]).
    repeat (eapply assigns_trans; [eapply set_col_assigns; eassumption|]).
    eapply set_col_assigns; eassumption.
  - repeat (eapply set_col_wf; [|eassumption]). done.
Qed.

Lemma base_enrichment_total df (g : G) :
  wf_frame df ->
  (forall name, name ∈ ["ip"; "device"; "os"; "app"; "channel"] -> has_col df name) ->
  exists df' g', base_enrichment df g = Ok (df', g').
Proof.
  intros Hwf Hcols. unfold base_enrichment.
  destruct (choice_total "" ALL_ADS (nrows df) g) as (ads & g1 & Hads); [by left|].
  rewrite (bind_run _ _ _ _ _ Hads).
  pose proof (choice_Ok _ _ _ _ _ _ Hads) as [Hads_len _].
  destruct (set_col_total "ad_id" (map CStr ads) df) as [df1 Hdf1];
    [by rewrite length_map|].
  rewrite (lift_run _ _ _ _ Hdf1).
  pose proof (set_col_assigns _ _ _ _ Hdf1) as A1.
  assert (nrows df1 = nrows df) as N1 by (by apply assigns_nrows in A1).
  assert (forall name, name ∈ ["ip"; "device"; "os"; "app"; "channel"] -> has_col df1 name) as K1.
  { intros name Hname. eapply assigns_has_col; [exact A1|left; by apply Hcols]. }
  set (f1 := fun i : nat => _).
  destruct (result_mapM_total f1 (seq 0 (nrows df))) as [uids Huids].
  { intros i _. unfold f1.
    destruct (row_get_total df1 i "ip") as [v1 ->]; [apply K1; in_cols|].
    destruct (row_get_total df1 i "device") as [v2 ->]; [apply K1; in_cols|].
    destruct (row_get_total df1 i "os") as [v3 ->]; [apply K1; in_cols|].
    by eexists. }
  rewrite (lift_run _ _ _ _ Huids).
  apply result_mapM_Ok in Huids as Huids_len. rewrite length_seq in Huids_len.
  destruct (set_col_total "user_id" (map CStr uids) df1) as [df2 Hdf2];
    [rewrite length_map; lia|].
  rewrite (lift_run _ _ _ _ Hdf2).
  pose proof (set_col_assigns _ _ _ _ Hdf2) as A2.
  assert (nrows df2 = nrows df) as N2 by (apply assigns_nrows in A2; lia).
  assert (forall name, name ∈ ["ip"; "device"; "os"; "app"; "channel"] -> has_col df2 name) as K2.
  { intros name Hname. eapply assigns_has_col; [exact A2|left; by apply K1]. }
  destruct (choice_total "" COUNTRIES (nrows df) g1) as (cs & g2 & Hcs); [by left|].
  rewrite (bind_run _ _ _ _ _ Hcs).
  pose proof (choice_Ok _ _ _ _ _ _ Hcs) as [Hcs_len _].
  destruct (set_col_total "country" (map CStr cs) df2) as [df3 Hdf3];
    [rewrite length_map; lia|].
  rewrite (lift_run _ _ _ _ Hdf3).
  pose proof (set_col_assigns _ _ _ _ Hdf3) as A3.
  assert (nrows df3 = nrows df) as N3 by (apply assigns_nrows in A3; lia).
  assert (forall name, name ∈ ["ip"; "device"; "os"; "app"; "channel"] -> has_col df3 name) as K3.
  { intros name Hname. eapply assigns_has_col; [exact A3|left; by apply K2]. }
  set (f2 := fun i : nat => _).
  destruct (result_mapM_total f2 (seq 0 (nrows df))) as [fps Hfps].
  { intros i _. unfold f2.
    destruct (row_get_total df3 i "device") as [v1 ->]; [apply K3; in_cols|].
    destruct (row_get_total df3 i "os") as [v2 ->]; [apply K3; in_cols|].
    destruct (row_get_total df3 i "app") as [v3 ->]; [apply K3; in_cols|].
    destruct (row_get_total df3 i "channel") as [v4 ->]; [apply K3; in_cols|].
    by eexists. }
  rewrite (lift_run _ _ _ _ Hfps).
  apply result_mapM_Ok in Hfps as Hfps_len. rewrite length_seq in Hfps_len.
  destruct (set_col_total "device_fingerprint" (map CStr fps) df3) as [df4 Hdf4];
    [rewrite length_map; lia|].
  rewrite (lift_run _ _ _ _ Hdf4).
  pose proof (set_col_assigns _ _ _ _ Hdf4) as A4.
  assert (nrows df4 = nrows df) as N4 by (apply assigns_nrows in A4; lia).
  destruct (choice_total "" CONNECTION_TYPES (nrows df) g2) as (ct & g3 & Hct); [by left|].
  rewrite (bind_run _ _ _ _ _ Hct).
  pose proof (choice_Ok _ _ _ _ _ _ Hct) as [Hct_len _].
  destruct (set_col_total "connection_type" (map CStr ct) df4) as [df5 Hdf5];
    [rewrite length_map; lia|].
  rewrite (lift_run _ _ _ _ Hdf5).
  pose proof (set_col_assigns _ _ _ _ Hdf5) as A5.
  assert (nrows df5 = nrows df) as N5 by (apply assigns_nrows in A5; lia).
  assert (lookup_col "user_id" (columns df5) = Some (map CStr uids)) as Huid.
  { rewrite (assigns_other _ _ _ "user_id" A5) by in_cols.
    rewrite (assigns_other _ _ _ "user_id" A4) by in_cols.
    rewrite (assigns_other _ _ _ "user_id" A3) by in_cols.
    by apply set_col_lookup in Hdf2. }
  assert (get_col "user_id" df5 = Ok (map CStr uids)) as Hget.
  { unfold get_col. by rewrite Huid. }
  rewrite (lift_run _ _ _ _ Hget).
  set (f3 := fun uid : Cell => _).
  destruct (rand_mapM_total f3 (map CStr uids) g3) as (emails & g4 & Hemails).
  { intros uid g0 _. unfold f3.
    destruct (choice1_total "" domains g0) as (d & g0' & Hd); [done|].
    rewrite (bind_run _ _ _ _ _ Hd). by eexists _, _. }
  rewrite (bind_run _ _ _ _ _ Hemails).
  apply rand_mapM_Ok in Hemails as Hemails_len. rewrite length_map in Hemails_len.
  destruct (set_col_total "email" (map CStr emails) df5) as [df6 Hdf6];
    [rewrite length_map; lia|].
  exists df6, g4. unfold lift. by rewrite Hdf6.
Qed.

End Base.

(** ** Hub selection *)

Lemma unique_elem l x : x ∈ unique l <-> x ∈ l.
Proof.
  induction l as [|y l IH]; simpl; [done|].
  rewrite !elem_of_cons, list_elem_of_filter, IH.
  destruct (decide (x = y)) as [->|Hne]; [tauto|]. tauto.
Qed.

Lemma unique_NoDup l : NoDup (unique l).
Proof.
  induction l as [|y l IH]; simpl; [constructor|].
  constructor; [|by apply NoDup_filter].
  rewrite list_elem_of_filter. by intros [Hne _].
Qed.

Lemma remove_dups_NoDup_length {A} `{EqDecision A} (l : list A) :
  NoDup l -> length (remove_dups l) = length l.
Proof.
  induction 1 as [|x l Hx Hl IH]; simpl; [done|].
  destruct (decide_rel elem_of x l); [done|]. simpl. by rewrite IH.
Qed.

Section Hubs.
Context {G : Type} `{RandomState G}.
Variable it : SetIteration.

Lemma select_hubs_Ok df (g : G) hub g' :
  select_hubs it df g = Ok (hub, g') ->
  exists ip_col,
    lookup_col "ip" (columns df) = Some ip_col
    /\ NoDup hub
    /\ (forall x, x ∈ hub -> x ∈ ip_col)
    /\ Z.of_nat (length hub) = num_hub_ips (length (unique ip_col)).
Proof.
  intros Hrun. unfold select_hubs in Hrun.
  lift_step Hrun as ip_col Hip. apply get_col_Ok in Hip.
  run_step Hrun as drawn Hdrawn. apply ret_Ok in Hrun as [-> _].
  apply choice_distinct_Ok in Hdrawn as (Hk & Hlen & Hin & Hnd).
  specialize (Hnd (unique_NoDup _)).
  pose proof (list_of_cell_set_perm it drawn) as Hperm.
  exists ip_col. split_and!; [done| | |].
  - rewrite Hperm. apply NoDup_remove_dups.
  - intros x Hx. rewrite Hperm, elem_of_remove_dups in Hx.
    by apply (proj1 (unique_elem _ _)), Hin.
  - rewrite Hperm, remove_dups_NoDup_length by done. lia.
Qed.

Lemma select_hubs_total df (g : G) :
  wf_frame df -> has_col df "ip" -> (1 <= nrows df)%nat ->
  exists hub g', select_hubs it df g = Ok (hub, g').
Proof.
  intros Hwf [ip_col Hip] Hrows. unfold select_hubs.
  assert (get_col "ip" df = Ok ip_col) as Hget by (unfold get_col; by rewrite Hip).
  rewrite (lift_run _ _ _ _ Hget).
  assert (unique ip_col <> []) as Hne.
  { pose proof (wf_lookup df "ip" ip_col Hwf Hip) as Hlen.
    destruct ip_col as [|x r]; simpl in *; [lia|done]. }
  assert (1 <= length (unique ip_col))%nat as Hlen.
  { destruct (unique ip_col); simpl; [done|lia]. }
  pose proof (num_hub_ips_within _ Hlen) as Hk.
  destruct (choice_distinct_total CNaN (unique ip_col)
              (num_hub_ips (length (unique ip_col))) g) as (drawn & g1 & Hd);
    [lia|by left|].
  rewrite (bind_run _ _ _ _ _ Hd). by eexists _, _.
Qed.

End Hubs.

(** ** Pools, target ads and fingerprints *)

Section Dicts.
Context {G : Type} `{RandomState G}.
Variable it : SetIteration.

Lemma plus_variant_total h (g : G) : exists r g', plus_variant h g = Ok (r, g').
Proof.
  unfold plus_variant.
  destruct (randint_ok 1 9 g) as (k & g1 & Hk & _); [lia|].
  rewrite (bind_run _ _ _ _ _ Hk). by eexists _, _.
Qed.

Lemma dot_variant_total h (g : G) : exists r g', dot_variant h g = Ok (r, g').
Proof.
  unfold dot_variant. destruct (Py.contains "." h); simpl; [by eexists _, _|].
  destruct (Nat.ltb_spec (String.length h) 3); [by eexists _, _|].
  destruct (randint_ok 1 (Z.of_nat (String.length h) - 1) g) as (k & g1 & Hk & _); [lia|].
  rewrite (bind_run _ _ _ _ _ Hk). by eexists _, _.
Qed.

Lemma underscore_variant_total h (g : G) :
  exists r g', underscore_variant h g = Ok (r, g').
Proof.
  unfold underscore_variant. destruct (Py.contains "_" h); simpl; [by eexists _, _|].
  destruct (Nat.ltb_spec (String.length h) 3); [by eexists _, _|].
  destruct (randint_ok 1 (Z.of_nat (String.length h) - 1) g) as (k & g1 & Hk & _); [lia|].
  rewrite (bind_run _ _ _ _ _ Hk). by eexists _, _.
Qed.

Lemma random_handle_total base (g : G) :
  exists r g', random_handle base 999999 g = Ok (r, g').
Proof.
  unfold random_handle.
  destruct (randint_ok 0 999999 g) as (k & g1 & Hk & _); [lia|].
  rewrite (bind_run _ _ _ _ _ Hk). by eexists _, _.
Qed.

Lemma pool_step_total pool h (g : G) :
  exists pool' g', pool_step pool h g = Ok (pool', g')
    /\ length pool' = (length pool + 4)%nat.
Proof.
  unfold pool_step.
  destruct (plus_variant_total h g) as (p & g1 & Hp). rewrite (bind_run _ _ _ _ _ Hp).
  destruct (dot_variant_total h g1) as (d & g2 & Hd). rewrite (bind_run _ _ _ _ _ Hd).
  destruct (underscore_variant_total h g2) as (u & g3 & Hu).
  rewrite (bind_run _ _ _ _ _ Hu).
  eexists _, _. split; [done|]. rewrite length_app. simpl. lia.
Qed.

Lemma pool_loop_total hs :
  forall pool (g : G),
    exists pool' g', rand_foldM pool_step pool hs g = Ok (pool', g')
      /\ length pool' = (length pool + 4 * length hs)%nat.
Proof.
  induction hs as [|h hs IH]; intros pool g; simpl.
  - eexists _, _. split; [done|]. lia.
  - destruct (pool_step_total pool h g) as (p1 & g1 & Hp1 & Hl1).
    rewrite (bind_run _ _ _ _ _ Hp1).
    destruct (IH p1 g1) as (p2 & g2 & Hp2 & Hl2).
    exists p2, g2. split; [done|]. lia.
Qed.

Lemma build_email_pool_total root size (g : G) :
  exists pool g', build_email_pool it root size g = Ok (pool, g')
    /\ ((0 < size)%nat -> pool <> []).
Proof.
  unfold build_email_pool.
  destruct (pool_loop_total
              (map (fun i => root +:+ Py.fmt_0d 3 (Z.of_nat i)) (seq 0 size)) [] g)
    as (pool & g1 & Hpool & Hlen).
  change (fun pool h => _) with pool_step.
  rewrite (bind_run _ _ _ _ _ Hpool). eexists _, _. split; [done|].
  intros Hsize Hempty.
  pose proof (list_of_str_set_perm it pool) as Hperm. rewrite Hempty in Hperm.
  apply Permutation_nil_l in Hperm.
  rewrite length_map, length_seq in Hlen. simpl in Hlen.
  destruct pool as [|x pool]; [simpl in Hlen; lia|].
  assert (x ∈ remove_dups (x :: pool)) as Hx.
  { apply elem_of_remove_dups, elem_of_cons. by left. }
  rewrite <- Hperm in Hx. by apply elem_of_nil in Hx.
Qed.

(** A dictionary filled from the clusters, one entry per cluster id. *)
Lemma dict_loop_total {V} (Q : V -> Prop) (mk : Rand G V) cs :
  (forall g, exists v g', mk g = Ok (v, g') /\ Q v) ->
  forall (d : gmap Z V) (g : G),
    map_Forall (fun _ v => Q v) d ->
    exists d' g',
      rand_foldM (fun d c => v ← mk; mret (<[cluster_id c := v]> d)) d cs g = Ok (d', g')
      /\ map_Forall (fun _ v => Q v) d'
      /\ (forall k, is_Some (d !! k) -> is_Some (d' !! k))
      /\ (forall c, c ∈ cs -> is_Some (d' !! cluster_id c)).
Proof.
  intros Hmk. induction cs as [|c cs IH]; intros d g HQ; simpl.
  - eexists _, _. split_and!; [done|done|done|]. by intros c ?%elem_of_nil.
  - destruct (Hmk g) as (v & g1 & Hv & HQv).
    assert ((v ← mk; (mret (<[cluster_id c:=v]> d) : Rand G (gmap Z V))) g
            = Ok (<[cluster_id c:=v]> d, g1)) as Hstep.
    { by rewrite (bind_run _ _ _ _ _ Hv). }
    rewrite (bind_run _ _ _ _ _ Hstep).
    destruct (IH (<[cluster_id c:=v]> d) g1) as (d' & g2 & Hd' & HQ' & Hkeep & Hnew).
    { by apply map_Forall_insert_2. }
    exists d', g2. split_and!; [done|done| |].
    + intros k Hk. apply Hkeep.
      destruct (decide (cluster_id c = k)) as [->|Hne].
      * rewrite lookup_insert_eq. by eexists.
      * by rewrite lookup_insert_ne.
    + intros c' [->|Hc']%elem_of_cons; [|by apply Hnew].
      apply Hkeep. rewrite lookup_insert_eq. by eexists.
Qed.

Lemma dict_loop_Ok {V} (Q : V -> Prop) (mk : Rand G V) cs :
  (forall g v g', mk g = Ok (v, g') -> Q v) ->
  forall (d : gmap Z V) (g : G) d' g',
    map_Forall (fun _ v => Q v) d ->
    rand_foldM (fun d c => v ← mk; mret (<[cluster_id c := v]> d)) d cs g = Ok (d', g') ->
    map_Forall (fun _ v => Q v) d'.
Proof.
  intros Hmk. induction cs as [|c cs IH]; intros d g d' g' HQ Hrun; simpl in Hrun.
  - by apply ret_Ok in Hrun as [-> _].
  - run_step Hrun as d1 Hd1. run_step Hd1 as v Hv. apply ret_Ok in Hd1 as [-> ->].
    eapply IH; [|exact Hrun]. apply map_Forall_insert_2; [|done]. by eapply Hmk.
Qed.

Lemma mk_targets_Ok (g : G) v g' :
  mk_targets g = Ok (v, g') ->
  v <> [] /\ NoDup v /\ forall ad, ad ∈ v -> ad ∈ FRAUD_TARGET_ADS.
Proof.
  unfold mk_targets. intros Hrun. run_step Hrun as size Hsize.
  unfold randint in Hsize. simpl in Hsize.
  pose proof (rs_randint_range 1 4 g ltac:(lia)) as Hr.
  destruct (rs_randint 1 4 g) as [s g1]. injection Hsize as -> ->. simpl in Hr.
  apply choice_distinct_Ok in Hrun as (_ & Hlen & Hin & Hnd).
  split_and!; [|apply Hnd|done].
  - intros ->. simpl in Hlen. lia.
  - apply (bool_decide_unpack _). by vm_compute.
Qed.

Lemma mk_targets_total (g : G) : exists v g', mk_targets g = Ok (v, g').
Proof.
  unfold mk_targets.
  destruct (randint_ok 1 4 g) as (k & g1 & Hk & Hr); [lia|].
  rewrite (bind_run _ _ _ _ _ Hk).
  apply choice_distinct_total; [|by left]. simpl. lia.
Qed.

Lemma make_fingerprints_other cs (d : gmap Z string) k :
  k ∉ map cluster_id cs ->
  fold_left (fun d c => <[cluster_id c := cluster_fingerprint c]> d) cs d !! k = d !! k.
Proof.
  revert d. induction cs as [|c cs IH]; intros d Hk; simpl; [done|].
  simpl in Hk. apply not_elem_of_cons in Hk as [Hne Hk].
  rewrite IH by done. by rewrite lookup_insert_ne.
Qed.

Lemma make_fingerprints_lookup cs c :
  NoDup (map cluster_id cs) -> c ∈ cs ->
  make_fingerprints cs !! cluster_id c = Some (cluster_fingerprint c).
Proof.
  unfold make_fingerprints. generalize (∅ : gmap Z string).
  induction cs as [|c' cs IH]; intros d Hnd Hc; [by apply elem_of_nil in Hc|].
  simpl in *. apply NoDup_cons in Hnd as [Hfresh Hnd].
  apply elem_of_cons in Hc as [->|Hc]; [|by apply IH].
  rewrite make_fingerprints_other by done. apply lookup_insert_eq.
Qed.

Lemma ids_from_lower first cs c : ids_from first cs -> c ∈ cs -> first <= cluster_id c.
Proof.
  intros Hids Hc. apply list_elem_of_lookup in Hc as [i Hi].
  rewrite (Hids i c Hi). lia.
Qed.

Lemma ids_from_NoDup first cs : ids_from first cs -> NoDup (map cluster_id cs).
Proof.
  revert first. induction cs as [|c cs IH]; intros first Hids; simpl; [constructor|].
  assert (cluster_id c = first) as Hc by (rewrite (Hids 0%nat c eq_refl); lia).
  assert (ids_from (first + 1) cs) as Hrest.
  { intros i c' Hi. rewrite (Hids (S i) c' Hi). lia. }
  constructor; [|by eapply IH].
  intros Hin. rewrite map_fmap in Hin. apply list_elem_of_fmap in Hin as (c' & Heq & Hc').
  pose proof (ids_from_lower _ _ _ Hrest Hc'). lia.
Qed.

End Dicts.

(** ** The override loop runs to the end *)

Section Totality.
Context {G : Type} `{RandomState G}.
Variable it : SetIteration.

Lemma sample_labels_total mask :
  exists labels, sample_labels (G := G) mask = Ok labels.
Proof.
  unfold sample_labels.
  set (rows := mask_positions 0 mask).
  destruct (mul_int_within (Z.of_nat (length rows)) 5404319552844595 (-54))
    as [_ Hk]; [lia|lia|lia|by vm_compute|].
  destruct (choice_distinct_total 0%nat rows
              (Float.round (Float.mul_int (Z.of_nat (length rows)) Float.lit_0_30))
              (rs_seed SEED)) as (labels & g1 & Hl).
  - exact Hk.
  - destruct rows; [right; by vm_compute|by left].
  - rewrite Hl. by eexists.
Qed.

Lemma dict_get_run {V} (d : gmap Z V) k v : d !! k = Some v -> dict_get d k = Ok v.
Proof. intros Hk. unfold dict_get. by rewrite Hk. Qed.

Lemma override_cluster_total pre df c (g : G) :
  wf_frame df ->
  has_col df "ip" ->
  (forall name, name ∈ overridden -> has_col df name) ->
  prepared_for pre c ->
  exists df' g', override_cluster pre df c g = Ok (df', g').
Proof.
  intros Hwf [ip_col Hip] Hcols ((pool & Hpool & Hpool_ne) & (targets & Htargets & Ht_ne)
                                 & (fp & Hfp)).
  unfold override_cluster.
  assert (get_col "ip" df = Ok ip_col) as Hget by (unfold get_col; by rewrite Hip).
  rewrite (lift_run _ _ _ _ Hget).
  set (mask := isin ip_col (ips c)).
  destruct (mask_any mask) eqn:Hany; cbn [negb]; [|by eexists _, _].
  cbv zeta.
  set (df1 := loc_set_scalar mask "fraud_cluster_id" (CInt (cluster_id c)) df).
  set (df2 := loc_set_scalar mask "is_synthetic_fraud" (CBool true) df1).
  pose proof (loc_set_scalar_assigns mask "fraud_cluster_id" (CInt (cluster_id c)) df) as A1.
  pose proof (loc_set_scalar_assigns mask "is_synthetic_fraud" (CBool true) df1) as A2.
  fold df1 in A1. fold df2 in A2.
  rewrite (lift_run _ _ _ _ (dict_get_run _ _ _ Htargets)).
  destruct (choice_total "" targets (mask_sum mask) g) as (ads & g1 & Hads); [by left|].
  rewrite (bind_run _ _ _ _ _ Hads).
  apply choice_Ok in Hads as [Hads_len _].
  destruct (loc_set_total mask "ad_id" (map CStr ads) df2) as [df3 Hdf3];
    [by rewrite length_map|].
  rewrite (lift_run _ _ _ _ Hdf3).
  pose proof (loc_set_assigns _ _ _ _ _ Hdf3) as A3.
  rewrite (lift_run _ _ _ _ (dict_get_run _ _ _ Hfp)).
  set (df4 := loc_set_scalar mask "device_fingerprint" (CStr fp) df3).
  pose proof (loc_set_scalar_assigns mask "device_fingerprint" (CStr fp) df3) as A4.
  fold df4 in A4.
  rewrite (lift_run _ _ _ _ (dict_get_run _ _ _ Hpool)).
  destruct (choice_total "" pool (mask_sum mask) g1) as (handles & g2 & Hh); [by left|].
  rewrite (bind_run _ _ _ _ _ Hh). apply choice_Ok in Hh as [Hh_len _].
  destruct (choice_total "" fraud_domains (mask_sum mask) g2) as (doms & g3 & Hd);
    [by left|].
  rewrite (bind_run _ _ _ _ _ Hd). apply choice_Ok in Hd as [Hd_len _].
  destruct (loc_set_total mask "email"
              (map (fun hd => CStr (email_from_handle hd.1 hd.2)) (combine handles doms)) df4)
    as [df5 Hdf5]; [rewrite length_map, length_combine; lia|].
  rewrite (lift_run _ _ _ _ Hdf5).
  pose proof (loc_set_assigns _ _ _ _ _ Hdf5) as A5.
  destruct (rand_mapM_total (fun _ : nat => random_handle "u" 999999)
              (seq 0 (Nat.max 50 (mask_sum mask / 10))) g3) as (base_users & g4 & Hbase).
  { intros x g0 _. apply random_handle_total. }
  rewrite (bind_run _ _ _ _ _ Hbase).
  apply rand_mapM_Ok in Hbase as Hbase_len. rewrite length_seq in Hbase_len.
  assert (has_col df5 "user_id") as [uid_col Huid].
  { eapply assigns_has_col; [exact A5|left].
    eapply assigns_has_col; [exact A4|left].
    eapply assigns_has_col; [exact A3|left].
    eapply assigns_has_col; [exact A2|left].
    eapply assigns_has_col; [exact A1|left]. apply Hcols. in_cols. }
  assert (get_col "user_id" df5 = Ok uid_col) as Hget5 by (unfold get_col; by rewrite Huid).
  rewrite (lift_run _ _ _ _ Hget5).
  destruct (choice_total CNaN (map CStr base_users ++ mask_select mask uid_col)
              (mask_sum mask) g4) as (uids & g5 & Huids).
  { left. destruct base_users; [simpl in Hbase_len; lia|done]. }
  rewrite (bind_run _ _ _ _ _ Huids). apply choice_Ok in Huids as [Huids_len _].
  destruct (loc_set_total mask "user_id" uids df5) as [df6 Hdf6]; [done|].
  rewrite (lift_run _ _ _ _ Hdf6).
  pose proof (loc_set_assigns _ _ _ _ _ Hdf6) as A6.
  destruct (sample_labels_total mask) as [sub_idx Hsub].
  rewrite (lift_run _ _ _ _ Hsub).
  destruct (choice_total "" COUNTRIES (length sub_idx) g5) as (cs & g6 & Hcs); [by left|].
  rewrite (bind_run _ _ _ _ _ Hcs). apply choice_Ok in Hcs as [Hcs_len _].
  assert (nrows df6 = nrows df) as Hn6.
  { rewrite (assigns_nrows _ _ _ A6), (assigns_nrows _ _ _ A5), (assigns_nrows _ _ _ A4),
      (assigns_nrows _ _ _ A3), (assigns_nrows _ _ _ A2), (assigns_nrows _ _ _ A1). done. }
  assert (length mask = nrows df) as Hmask.
  { unfold mask. rewrite isin_length. by apply (wf_lookup df "ip"). }
  unfold lift, loc_set_labels.
  assert (forallb (fun i => (i <? nrows df6)%nat) sub_idx = true) as ->.
  { apply forallb_forall. intros l Hl. apply Nat.ltb_lt.
    apply list_elem_of_In, (sample_labels_Ok _ _ Hsub) in Hl.
    apply lookup_lt_Some in Hl. lia. }
  rewrite length_map, Hcs_len, Nat.eqb_refl. simpl. by eexists _, _.
Qed.

End Totality.

(** ** The whole run *)

Section Enrich.
Context {G : Type} `{RandomState G}.
Variable it : SetIteration.

Lemma rand_foldM_ext {A B} (f f' : B -> A -> Rand G B) xs :
  (forall b x g, f b x g = f' b x g) ->
  forall b g, rand_foldM f b xs g = rand_foldM f' b xs g.
Proof.
  intros Hext. induction xs as [|x xs IH]; intros b g; simpl; [done|].
  unfold mbind, rand_bind. rewrite Hext. destruct (f' b x g) as [[b' g']|e]; [|done].
  apply IH.
Qed.

Lemma make_target_ads_shape cs (g : G) :
  make_target_ads cs g
  = rand_foldM (fun d c => v ← mk_targets; mret (<[cluster_id c := v]> d)) ∅ cs g.
Proof.
  unfold make_target_ads. apply rand_foldM_ext. intros d c g0.
  unfold mk_targets, mbind, rand_bind.
  destruct (randint 1 4 g0) as [[size g1]|e]; [|done].
  by destruct (choice_distinct "" FRAUD_TARGET_ADS size g1) as [[ads g2]|e].
Qed.

Lemma build_clusters_Ok m M hub (g : G) cs g' :
  1 <= m <= M ->
  build_clusters m M hub g = Ok (cs, g') ->
  concat (map ips cs) = hub /\ ids_from 1 cs /\ sizes_within m M cs.
Proof.
  intros HmM Hrun. unfold build_clusters in Hrun.
  destruct (cluster_loop_spec m M hub HmM (length hub) 0 1 [] g)
    as (cs' & g1 & Hrun' & Hcat & Hids & Hsz); [lia|simpl; lia|].
  rewrite Hrun in Hrun'. simpl in Hrun'. injection Hrun' as -> ->.
  by rewrite drop_0 in Hcat.
Qed.

Lemma override_loop_total pre cs :
  forall df (g : G),
    wf_frame df -> has_col df "ip" ->
    (forall name, name ∈ overridden -> has_col df name) ->
    (forall c, c ∈ cs -> prepared_for pre c) ->
    exists df' g', rand_foldM (override_cluster pre) df cs g = Ok (df', g').
Proof.
  intros df g Hwf Hip Hcols Hpre.
  destruct (rand_foldM_total
              (fun df => wf_frame df /\ has_col df "ip"
                         /\ forall name, name ∈ overridden -> has_col df name)
              (override_cluster pre) cs) with (b := df) (g := g)
    as (df' & g' & Hrun & _); [|done|by exists df', g'].
  intros b c g0 (Hwfb & Hipb & Hcolsb) Hc.
  destruct (override_cluster_total pre b c g0 Hwfb Hipb Hcolsb (Hpre c Hc))
    as (b' & g1 & Hb').
  exists b', g1. split; [done|].
  destruct Hipb as [ip_col Hip_col].
  destruct (override_cluster_spec pre b c g0 b' g1 ip_col Hwfb Hip_col Hcolsb Hb')
    as [Hun _].
  split_and!.
  - by apply Hun.
  - eapply unchanged_has_col; [exact Hun|by exists ip_col].
  - intros name Hname. eapply unchanged_has_col; [exact Hun|by apply Hcolsb].
Qed.

Lemma base_has_cols df0 df :
  assigns base_columns df0 df ->
  forall name, name ∈ ["ad_id"; "device_fingerprint"; "email"; "user_id"; "country"] ->
    has_col df name.
Proof.
  intros Ha name Hname. eapply assigns_has_col; [exact Ha|right].
  unfold base_columns.
  repeat (apply elem_of_cons in Hname as [->|Hname]; [in_cols|]).
  by apply elem_of_nil in Hname.
Qed.

Lemma scalars_have_cols df :
  (forall name, name ∈ ["ad_id"; "device_fingerprint"; "email"; "user_id"; "country"] ->
     has_col df name) ->
  forall name, name ∈ overridden ->
    has_col (set_col_scalar "is_synthetic_fraud" (CBool false)
               (set_col_scalar "fraud_cluster_id" (CInt 0) df)) name.
Proof.
  intros Hcols name Hname.
  eapply assigns_has_col; [apply set_col_scalar_assigns|].
  destruct (decide (name = "is_synthetic_fraud")) as [->|Hn1]; [right; in_cols|left].
  eapply assigns_has_col; [apply set_col_scalar_assigns|].
  destruct (decide (name = "fraud_cluster_id")) as [->|Hn2]; [right; in_cols|left].
  apply Hcols. unfold overridden in Hname.
  repeat (apply elem_of_cons in Hname as [->|Hname]; [try done; in_cols|]).
  by apply elem_of_nil in Hname.
Qed.

Lemma enrich_Ok df0 (g : G) r g' :
  wf_frame df0 -> enrich it df0 g = Ok (r, g') ->
  run_input r = df0 /\ exists ip_col, run_facts r ip_col.
Proof.
  intros Hwf0 Hrun. unfold enrich in Hrun.
  run_step Hrun as df Hbase. apply base_enrichment_Ok in Hbase as [Abase Hwf]; [|done].
  run_step Hrun as hub Hhub.
  apply select_hubs_Ok in Hhub as (ip_col & Hip & Hnd & Hsub & Hcount).
  run_step Hrun as cs Hcs.
  apply build_clusters_Ok in Hcs as (Hcat & Hids & Hsz); [|by vm_compute].
  run_step Hrun as pools Hpools.
  run_step Hrun as targets Htargets.
  run_step Hrun as out Hout. apply ret_Ok in Hrun as [-> _]. simpl.
  split; [done|]. exists ip_col.
  rewrite make_target_ads_shape in Htargets.
  apply (dict_loop_Ok (fun v => v <> [] /\ NoDup v /\ forall ad, ad ∈ v -> ad ∈ FRAUD_TARGET_ADS))
    in Htargets; [|intros ga v gb; apply mk_targets_Ok|apply map_Forall_empty].
  pose proof (inject_fraud_assigns _ _ _ _ _ _ Hout) as (seq & Hseq & Ainj).
  apply inject_fraud_spec with (ip_col := ip_col) in Hout
    as (Hn & Hw & Hnames & Hother & Houtside & Hinside);
    [|done|done|by apply (base_has_cols df0)|by rewrite Hcat].
  assert (lookup_col "ip" (columns df0) = Some ip_col) as Hip0.
  { rewrite <- (assigns_other _ _ _ "ip" Abase); [done|in_cols]. }
  constructor; simpl; try done.
  - by rewrite Hn, (assigns_nrows _ _ _ Abase).
  - rewrite Hnames.
    rewrite (assigns_names _ _ _ (set_col_scalar_assigns _ _ _)).
    rewrite (assigns_names _ _ _ (set_col_scalar_assigns _ _ _)).
    rewrite (assigns_names _ _ _ Abase). done.
  - exists (base_columns ++ ["fraud_cluster_id"; "is_synthetic_fraud"] ++ seq).
    split; [|by eapply assigns_trans].
    intros name [Hn1|[Hn2|Hn3]%elem_of_app]%elem_of_app.
    + unfold new_columns. apply elem_of_app. by left.
    + unfold new_columns. apply elem_of_app. by right.
    + apply Hseq in Hn3. unfold overridden in Hn3.
      repeat (apply elem_of_cons in Hn3 as [->|Hn3]; [in_cols|]).
      by apply elem_of_nil in Hn3.
Qed.

Lemma enrich_total df0 (g : G) :
  valid_input df0 -> exists r g', enrich it df0 g = Ok (r, g').
Proof.
  intros (Hwf0 & Hrows & Hcols). unfold enrich.
  destruct (base_enrichment_total df0 g Hwf0 Hcols) as (df & g1 & Hbase).
  rewrite (bind_run _ _ _ _ _ Hbase).
  apply base_enrichment_Ok in Hbase as [Abase Hwf]; [|done].
  assert (has_col df "ip") as Hip.
  { eapply assigns_has_col; [exact Abase|left]. apply Hcols. in_cols. }
  destruct (select_hubs_total it df g1 Hwf Hip) as (hub & g2 & Hhub).
  { by rewrite (assigns_nrows _ _ _ Abase). }
  rewrite (bind_run _ _ _ _ _ Hhub).
  apply select_hubs_Ok in Hhub as (ip_col & Hip_col & Hnd & Hsub & Hcount).
  destruct (cluster_loop_spec CLUSTER_MIN_SIZE CLUSTER_MAX_SIZE hub ltac:(by vm_compute)
              (length hub) 0 1 [] g2) as (cs & g3 & Hcs & Hcat & Hids & Hsz);
    [lia|simpl; lia|].
  rewrite drop_0 in Hcat. simpl in Hcs.
  unfold build_clusters. rewrite (bind_run _ _ _ _ _ Hcs).
  destruct (dict_loop_total (fun v : list string => v <> [])
              (build_email_pool it "frauder" EMAIL_VARIANTS_PER_CLUSTER) cs)
    with (d := (∅ : gmap Z (list string))) (g := g3)
    as (pools & g4 & Hpools & HQpools & _ & Hpools_dom).
  { intros g0. destruct (build_email_pool_total it "frauder" EMAIL_VARIANTS_PER_CLUSTER g0)
      as (pool & g0' & Hp & Hne).
    exists pool, g0'. split; [done|]. apply Hne. unfold EMAIL_VARIANTS_PER_CLUSTER. lia. }
  { apply map_Forall_empty. }
  unfold make_email_pools. rewrite (bind_run _ _ _ _ _ Hpools).
  destruct (dict_loop_total (fun v : list string => v <> []) mk_targets cs)
    with (d := (∅ : gmap Z (list string))) (g := g4)
    as (targets & g5 & Htargets & HQtargets & _ & Htargets_dom).
  { intros g0. destruct (mk_targets_total g0) as (v & g0' & Hv).
    exists v, g0'. split; [done|]. by apply mk_targets_Ok in Hv as [Hne _]. }
  { apply map_Forall_empty. }
  rewrite <- make_target_ads_shape in Htargets.
  rewrite (bind_run _ _ _ _ _ Htargets).
  set (pre := {| cluster_email_pools := pools; cluster_target_ads := targets;
                 cluster_fingerprints := make_fingerprints cs |}).
  destruct (override_loop_total pre cs
              (set_col_scalar "is_synthetic_fraud" (CBool false)
                 (set_col_scalar "fraud_cluster_id" (CInt 0) df)) g5)
    as (out & g6 & Hout).
  - by do 2 apply set_col_scalar_wf.
  - eapply assigns_has_col; [apply set_col_scalar_assigns|left].
    eapply assigns_has_col; [apply set_col_scalar_assigns|left]. done.
  - apply scalars_have_cols. by apply (base_has_cols df0).
  - intros c Hc. split_and!.
    + destruct (Hpools_dom c Hc) as [pool Hpool]. exists pool. split; [done|].
      by apply (HQpools _ _ Hpool).
    + destruct (Htargets_dom c Hc) as [t Ht]. exists t. split; [done|].
      by apply (HQtargets _ _ Ht).
    + simpl. rewrite (make_fingerprints_lookup cs c); [by eexists| |done].
      by apply (ids_from_NoDup 1).
  - unfold inject_fraud. rewrite (bind_run _ _ _ _ _ Hout). by eexists _, _.
Qed.

End Enrich.

(** ** Rows of a finished run *)

Lemma run_row_ip r ip_col i :
  wf_frame (run_input r) -> run_facts r ip_col -> (i < nrows (run_output r))%nat ->
  exists x, ip_col !! i = Some x /\ cell (run_output r) "ip" i = Some x.
Proof.
  intros Hwf F Hi.
  pose proof (wf_lookup _ _ _ Hwf (rf_ip _ _ F)) as Hlen.
  rewrite (rf_rows _ _ F) in Hi.
  destruct (lookup_lt_is_Some_2 ip_col i ltac:(lia)) as [x Hx].
  exists x. split; [done|]. unfold cell.
  rewrite (rf_frame _ _ F) by in_cols.
  rewrite (assigns_other _ _ _ "ip" (rf_base _ _ F)) by in_cols.
  by rewrite (rf_ip _ _ F).
Qed.

Lemma run_row_ip_inv r ip_col i x :
  run_facts r ip_col -> cell (run_output r) "ip" i = Some x -> ip_col !! i = Some x.
Proof.
  intros F. unfold cell.
  rewrite (rf_frame _ _ F) by in_cols.
  rewrite (assigns_other _ _ _ "ip" (rf_base _ _ F)) by in_cols.
  by rewrite (rf_ip _ _ F).
Qed.

Lemma cell_row df name i v : wf_frame df -> cell df name i = Some v -> (i < nrows df)%nat.
Proof.
  intros Hwf. unfold cell. destruct (lookup_col name (columns df)) as [c|] eqn:Hc; [|done].
  intros Hv. apply lookup_lt_Some in Hv. by rewrite <- (wf_lookup df name c).
Qed.

Section RunProperties.
Context {G : Type} `{RandomState G}.
Variable it : SetIteration.

(** C2. In the output of a run, every row has [fraud_cluster_id > 0] exactly
    when [is_synthetic_fraud] is true; a row whose source IP belongs to the
    hub set of a cluster carries that cluster's id and the flag true; a row
    whose IP belongs to no cluster carries id 0 and the flag false. *)
Theorem fraud_labels_follow_clusters df0 (g : G) r g' i :
  wf_frame df0 ->
  enrich it df0 g = Ok (r, g') ->
  (i < nrows (run_output r))%nat ->
  exists x v b,
    cell (run_output r) "ip" i = Some x
    /\ cell (run_output r) "fraud_cluster_id" i = Some (CInt v)
    /\ cell (run_output r) "is_synthetic_fraud" i = Some (CBool b)
    /\ (0 < v <-> b = true)
    /\ (forall c, c ∈ run_clusters r -> x ∈ ips c -> v = cluster_id c /\ b = true)
    /\ ((forall c, c ∈ run_clusters r -> x ∉ ips c) -> v = 0 /\ b = false).
Proof.
  intros Hwf Hrun Hi.
  destruct (enrich_Ok it df0 g r g' Hwf Hrun) as [Hin [ip_col F]].
  rewrite <- Hin in Hwf.
  destruct (run_row_ip r ip_col i Hwf F Hi) as (x & Hx & Hcell).
  destruct (decide (x ∈ concat (map ips (run_clusters r)))) as [Hhub|Hout].
  - apply elem_of_concat_ips in Hhub as (c & Hc & Hxc).
    destruct (rf_inside _ _ F i x c Hc Hx Hxc) as (Hid & Hflag & _).
    exists x, (cluster_id c), true. split_and!; try done.
    + split; [done|]. intros _. pose proof (ids_from_lower 1 _ c (rf_ids _ _ F) Hc). lia.
    + intros c' Hc' Hxc'.
      destruct (rf_inside _ _ F i x c' Hc' Hx Hxc') as (Hid' & _).
      rewrite Hid in Hid'. by injection Hid' as ->.
    + intros Hnone. by destruct (Hnone c Hc).
  - assert (forall c, c ∈ run_clusters r -> x ∉ ips c) as Hnone.
    { intros c Hc Hxc. apply Hout, elem_of_concat_ips. by exists c. }
    destruct (rf_outside _ _ F i x Hx Hnone) as (Hid & Hflag & _).
    exists x, 0, false. split_and!; try done.
    intros c Hc Hxc. by destruct (Hnone c Hc).
Qed.

(** C4, as the code has it.  In the output of a run, every row with
    [fraud_cluster_id > 0] belongs to the cluster of that id, and its email
    is [handle@domain] with the handle in that cluster's email pool and the
    domain in the list of line 184; that list is not the baseline list
    ([mail.ru] stands where the baseline has [proton.me]). *)
Theorem fraud_email_from_cluster_pool df0 (g : G) r g' i v :
  wf_frame df0 ->
  enrich it df0 g = Ok (r, g') ->
  cell (run_output r) "fraud_cluster_id" i = Some (CInt v) ->
  0 < v ->
  (exists c pool handle domain,
     c ∈ run_clusters r /\ cluster_id c = v
     /\ cluster_email_pools (run_prepared r) !! v = Some pool
     /\ handle ∈ pool /\ domain ∈ fraud_domains
     /\ cell (run_output r) "email" i = Some (CStr (handle +:+ "@" +:+ domain)))
  /\ fraud_domains = ["gmail.com"; "outlook.com"; "mail.ru"; "yahoo.com"]
  /\ ("mail.ru" ∉ domains) /\ ("proton.me" ∉ fraud_domains).
Proof.
  intros Hwf Hrun Hid Hv.
  split; [|split_and!; [done|in_cols|in_cols]].
  destruct (enrich_Ok it df0 g r g' Hwf Hrun) as [Hin [ip_col F]].
  rewrite <- Hin in Hwf.
  pose proof (cell_row _ _ _ _ (rf_wf _ _ F) Hid) as Hi.
  destruct (run_row_ip r ip_col i Hwf F Hi) as (x & Hx & Hcell).
  destruct (decide (x ∈ concat (map ips (run_clusters r)))) as [Hhub|Hout].
  - apply elem_of_concat_ips in Hhub as (c & Hc & Hxc).
    destruct (rf_inside _ _ F i x c Hc Hx Hxc)
      as (Hid' & _ & _ & (pool & h & d & Hpool & Hh & Hd & Hmail) & _).
    rewrite Hid in Hid'. injection Hid' as ->.
    by exists c, pool, h, d.
  - assert (forall c, c ∈ run_clusters r -> x ∉ ips c) as Hnone.
    { intros c Hc Hxc. apply Hout, elem_of_concat_ips. by exists c. }
    destruct (rf_outside _ _ F i x Hx Hnone) as (Hid' & _).
    rewrite Hid in Hid'. injection Hid' as ->. lia.
Qed.

(** C6, as the code has it.  The fingerprint of a cluster is computed from
    the sequence of its hub IPs in the order the builder stored them: it is
    [cluster_fingerprint], the dictionary of the run holds it under the
    cluster's id, every row of the cluster carries it, and two clusters with
    the same sequence get the same fingerprint.  The IPs are joined in list
    order, unsorted: for integer IPs the text that is hashed determines the
    sequence, so another ordering is another text. *)
Theorem fingerprint_of_ip_sequence df0 (g : G) r g' c :
  wf_frame df0 ->
  enrich it df0 g = Ok (r, g') ->
  c ∈ run_clusters r ->
  cluster_fingerprints (run_prepared r) !! cluster_id c = Some (cluster_fingerprint c)
  /\ cluster_fingerprint c
     = "fp_" +:+ Py.fmt_0d 8
         (Hashlib.sha256_int (Py.join "|" (map str (ips c))) mod 10 ^ 8)
  /\ (forall i x, cell (run_output r) "ip" i = Some x -> x ∈ ips c ->
        cell (run_output r) "device_fingerprint" i = Some (CStr (cluster_fingerprint c)))
  /\ (forall c', ips c' = ips c -> cluster_fingerprint c' = cluster_fingerprint c)
  /\ (forall l l' : list Z,
        Py.join "|" (map str (map CInt l)) = Py.join "|" (map str (map CInt l')) ->
        l = l').
Proof.
  intros Hwf Hrun Hc.
  destruct (enrich_Ok it df0 g r g' Hwf Hrun) as [Hin [ip_col F]].
  assert (cluster_fingerprints (run_prepared r) !! cluster_id c
          = Some (cluster_fingerprint c)) as Hfp.
  { rewrite (rf_fingerprints _ _ F). apply make_fingerprints_lookup; [|done].
    apply (ids_from_NoDup 1), (rf_ids _ _ F). }
  split_and!; [done|done| | |].
  - intros i x Hcell Hxc. apply (run_row_ip_inv r ip_col) in Hcell; [|done].
    destruct (rf_inside _ _ F i x c Hc Hcell Hxc) as (_ & _ & (fp & Hfp' & Hrow) & _).
    rewrite Hfp in Hfp'. by injection Hfp' as <-.
  - intros c' Heq. unfold cluster_fingerprint. by rewrite Heq.
  - apply hash_input_determines_sequence.
Qed.

End RunProperties.

(** ** Inputs the script rejects *)

Lemma set_col_other name name' vals df df' :
  set_col name vals df = Ok df' -> name' <> name ->
  lookup_col name' (columns df') = lookup_col name' (columns df).
Proof. intros [_ ->]%set_col_Ok Hne. simpl. by apply lookup_assign_other. Qed.

Lemma row_get_missing df i name :
  ~ has_col df name -> row_get df i name = Raise (KeyError name).
Proof.
  intros Hno. unfold row_get, get_col.
  destruct (lookup_col name (columns df)) as [c|] eqn:Hc; [|done].
  destruct Hno. by exists c.
Qed.

Lemma result_mapM_first_raise {A B} (f : A -> result B) x xs e :
  f x = Raise e -> result_mapM f (x :: xs) = Raise e.
Proof. intros Hx. simpl. by rewrite Hx. Qed.

Lemma seq_first n : (1 <= n)%nat -> seq 0 n = 0%nat :: seq 1 (n - 1).
Proof. destruct n as [|n]; [lia|]. intros _. simpl. by rewrite Nat.sub_0_r. Qed.

Lemma has_col_same df df' name :
  lookup_col name (columns df') = lookup_col name (columns df) ->
  has_col df' name <-> has_col df name.
Proof. intros Heq. unfold has_col. by rewrite Heq. Qed.

Section Rejected.
Context {G : Type} `{RandomState G}.
Variable it : SetIteration.

Lemma bind_raise {A B} (c : Rand G A) (f : A -> Rand G B) (g : G) e :
  c g = Raise e -> (c ≫= f) g = Raise e.
Proof. intros Hc. unfold mbind, rand_bind. by rewrite Hc. Qed.

Lemma base_enrichment_missing df (g : G) before name after :
  (1 <= nrows df)%nat ->
  ["ip"; "device"; "os"; "app"; "channel"] = before ++ name :: after ->
  (forall n, n ∈ before -> has_col df n) -> ~ has_col df name ->
  base_enrichment df g = Raise (KeyError name).
Proof.
  intros Hrows Hsplit Hbefore Hmissing. unfold base_enrichment.
  destruct (choice_total "" ALL_ADS (nrows df) g) as (ads & g1 & Hads); [by left|].
  rewrite (bind_run _ _ _ _ _ Hads).
  pose proof (choice_Ok _ _ _ _ _ _ Hads) as [Hads_len _].
  destruct (set_col_total "ad_id" (map CStr ads) df) as [df1 Hdf1];
    [by rewrite length_map|].
  rewrite (lift_run _ _ _ _ Hdf1).
  assert (nrows df1 = nrows df) as N1 by (by apply set_col_Ok in Hdf1 as [_ ->]).
  assert (forall n, n <> "ad_id" -> has_col df1 n <-> has_col df n) as K1.
  { intros n Hn. apply has_col_same. by apply (set_col_other _ _ _ _ _ Hdf1). }
  set (f1 := fun i : nat => _).
  assert (name ∈ ["ip"; "device"; "os"]
          \/ (forall n, n ∈ ["ip"; "device"; "os"] -> has_col df n)) as [Hfirst|Hthree].
  { destruct before as [|b1 [|b2 [|b3 before]]]; simplify_eq/=;
      [left; in_cols|left; in_cols|left; in_cols|right].
    intros n Hn. apply Hbefore.
    repeat (apply elem_of_cons in Hn as [->|Hn]; [in_cols|]).
    by apply elem_of_nil in Hn. }
  - assert (result_mapM f1 (seq 0 (nrows df)) = Raise (KeyError name)) as Hu.
    { rewrite seq_first by done. apply result_mapM_first_raise. unfold f1.
      destruct before as [|b1 [|b2 [|b3 before]]]; simplify_eq/=.
      - rewrite (row_get_missing df1 0 "ip"); [done|]. by rewrite K1.
      - destruct (row_get_total df1 0 "ip") as [v1 ->].
        { rewrite K1 by done. apply Hbefore. in_cols. }
        simpl. rewrite (row_get_missing df1 0 "device"); [done|]. by rewrite K1.
      - destruct (row_get_total df1 0 "ip") as [v1 ->].
        { rewrite K1 by done. apply Hbefore. in_cols. }
        destruct (row_get_total df1 0 "device") as [v2 ->].
        { rewrite K1 by done. apply Hbefore. in_cols. }
        simpl. rewrite (row_get_missing df1 0 "os"); [done|]. by rewrite K1.
      - destruct before as [|b4 [|b5 before]]; simplify_eq/=.
        + exfalso. repeat (apply elem_of_cons in Hfirst as [?|Hfirst]; [done|]).
          by apply elem_of_nil in Hfirst.
        + exfalso. repeat (apply elem_of_cons in Hfirst as [?|Hfirst]; [done|]).
          by apply elem_of_nil in Hfirst.
        + destruct before; simplify_eq/=. }
    by rewrite Hu.
  - destruct (result_mapM_total f1 (seq 0 (nrows df))) as [uids Huids].
    { intros i _. unfold f1.
      destruct (row_get_total df1 i "ip") as [v1 ->];
        [rewrite K1 by done; apply Hthree; in_cols|].
      destruct (row_get_total df1 i "device") as [v2 ->];
        [rewrite K1 by done; apply Hthree; in_cols|].
      destruct (row_get_total df1 i "os") as [v3 ->];
        [rewrite K1 by done; apply Hthree; in_cols|].
      by eexists. }
    rewrite (lift_run _ _ _ _ Huids).
    apply result_mapM_Ok in Huids as Huids_len. rewrite length_seq in Huids_len.
    destruct (set_col_total "user_id" (map CStr uids) df1) as [df2 Hdf2];
      [rewrite length_map; lia|].
    rewrite (lift_run _ _ _ _ Hdf2).
    assert (nrows df2 = nrows df) as N2 by (apply set_col_Ok in Hdf2 as [_ ->]; simpl; lia).
    destruct (choice_total "" COUNTRIES (nrows df) g1) as (cs & g2 & Hcs); [by left|].
    rewrite (bind_run _ _ _ _ _ Hcs).
    pose proof (choice_Ok _ _ _ _ _ _ Hcs) as [Hcs_len _].
    destruct (set_col_total "country" (map CStr cs) df2) as [df3 Hdf3];
      [rewrite length_map; lia|].
    rewrite (lift_run _ _ _ _ Hdf3).
    assert (forall n, n ∈ ["ip"; "device"; "os"; "app"; "channel"] ->
              has_col df3 n <-> has_col df n) as K3.
    { intros n Hn. apply has_col_same.
      rewrite (set_col_other _ _ _ _ _ Hdf3), (set_col_other _ _ _ _ _ Hdf2),
        (set_col_other _ _ _ _ _ Hdf1); [done| | |];
        intros ->; repeat (apply elem_of_cons in Hn as [?|Hn]; [done|]);
        by apply elem_of_nil in Hn. }
    set (f2 := fun i : nat => _).
    assert (result_mapM f2 (seq 0 (nrows df)) = Raise (KeyError name)) as Hf.
    { rewrite seq_first by done. apply result_mapM_first_raise. unfold f2.
      destruct (row_get_total df3 0 "device") as [v1 ->];
        [rewrite K3 by in_cols; apply Hthree; in_cols|].
      destruct (row_get_total df3 0 "os") as [v2 ->];
        [rewrite K3 by in_cols; apply Hthree; in_cols|].
      destruct before as [|b1 [|b2 [|b3 [|b4 [|b5 before]]]]]; simplify_eq/=.
      - destruct Hmissing. apply Hthree. in_cols.
      - destruct Hmissing. apply Hthree. in_cols.
      - destruct Hmissing. apply Hthree. in_cols.
      - rewrite (row_get_missing df3 0 "app"); [done|]. by rewrite K3 by in_cols.
      - destruct (row_get_total df3 0 "app") as [v3 ->].
        { rewrite K3 by in_cols. apply Hbefore. in_cols. }
        simpl. rewrite (row_get_missing df3 0 "channel"); [done|].
        by rewrite K3 by in_cols.
      - destruct before; simplify_eq/=. }
    by rewrite Hf.
Qed.


(** The base enrichment runs to its end whenever the rows it reads have
    their five columns; a table without rows asks for none. *)
Lemma base_enrichment_runs df (g : G) :
  ((1 <= nrows df)%nat ->
     forall name, name ∈ ["ip"; "device"; "os"; "app"; "channel"] -> has_col df name) ->
  exists df' g', base_enrichment df g = Ok (df', g').
Proof.
  intros Hcols. unfold base_enrichment.
  destruct (choice_total "" ALL_ADS (nrows df) g) as (ads & g1 & Hads); [by left|].
  rewrite (bind_run _ _ _ _ _ Hads).
  pose proof (choice_Ok _ _ _ _ _ _ Hads) as [Hads_len _].
  destruct (set_col_total "ad_id" (map CStr ads) df) as [df1 Hdf1];
    [by rewrite length_map|].
  rewrite (lift_run _ _ _ _ Hdf1).
  pose proof (set_col_assigns _ _ _ _ Hdf1) as A1.
  assert (nrows df1 = nrows df) as N1 by (by apply assigns_nrows in A1).
  assert (forall i, i ∈ seq 0 (nrows df) -> (1 <= nrows df)%nat) as Hrow.
  { intros i Hi. apply elem_of_seq in Hi. lia. }
  set (f1 := fun i : nat => _).
  destruct (result_mapM_total f1 (seq 0 (nrows df))) as [uids Huids].
  { intros i Hi. unfold f1.
    assert (forall name, name ∈ ["ip"; "device"; "os"; "app"; "channel"] ->
              has_col df1 name) as K1.
    { intros name Hname. eapply assigns_has_col; [exact A1|left].
      by apply (Hcols (Hrow i Hi)). }
    destruct (row_get_total df1 i "ip") as [v1 ->]; [apply K1; in_cols|].
    destruct (row_get_total df1 i "device") as [v2 ->]; [apply K1; in_cols|].
    destruct (row_get_total df1 i "os") as [v3 ->]; [apply K1; in_cols|].
    by eexists. }
  rewrite (lift_run _ _ _ _ Huids).
  apply result_mapM_Ok in Huids as Huids_len. rewrite length_seq in Huids_len.
  destruct (set_col_total "user_id" (map CStr uids) df1) as [df2 Hdf2];
    [rewrite length_map; lia|].
  rewrite (lift_run _ _ _ _ Hdf2).
  pose proof (set_col_assigns _ _ _ _ Hdf2) as A2.
  assert (nrows df2 = nrows df) as N2 by (apply assigns_nrows in A2; lia).
  destruct (choice_total "" COUNTRIES (nrows df) g1) as (cs & g2 & Hcs); [by left|].
  rewrite (bind_run _ _ _ _ _ Hcs).
  pose proof (choice_Ok _ _ _ _ _ _ Hcs) as [Hcs_len _].
  destruct (set_col_total "country" (map CStr cs) df2) as [df3 Hdf3];
    [rewrite length_map; lia|].
  rewrite (lift_run _ _ _ _ Hdf3).
  pose proof (set_col_assigns _ _ _ _ Hdf3) as A3.
  assert (nrows df3 = nrows df) as N3 by (apply assigns_nrows in A3; lia).
  set (f2 := fun i : nat => _).
  destruct (result_mapM_total f2 (seq 0 (nrows df))) as [fps Hfps].
  { intros i Hi. unfold f2.
    assert (forall name, name ∈ ["ip"; "device"; "os"; "app"; "channel"] ->
              has_col df3 name) as K3.
    { intros name Hname.
      eapply assigns_has_col; [exact A3|left].
      eapply assigns_has_col; [exact A2|left].
      eapply assigns_has_col; [exact A1|left].
      by apply (Hcols (Hrow i Hi)). }
    destruct (row_get_total df3 i "device") as [v1 ->]; [apply K3; in_cols|].
    destruct (row_get_total df3 i "os") as [v2 ->]; [apply K3; in_cols|].
    destruct (row_get_total df3 i "app") as [v3 ->]; [apply K3; in_cols|].
    destruct (row_get_total df3 i "channel") as [v4 ->]; [apply K3; in_cols|].
    by eexists. }
  rewrite (lift_run _ _ _ _ Hfps).
  apply result_mapM_Ok in Hfps as Hfps_len. rewrite length_seq in Hfps_len.
  destruct (set_col_total "device_fingerprint" (map CStr fps) df3) as [df4 Hdf4];
    [rewrite length_map; lia|].
  rewrite (lift_run _ _ _ _ Hdf4).
  pose proof (set_col_assigns _ _ _ _ Hdf4) as A4.
  assert (nrows df4 = nrows df) as N4 by (apply assigns_nrows in A4; lia).
  destruct (choice_total "" CONNECTION_TYPES (nrows df) g2) as (ct & g3 & Hct); [by left|].
  rewrite (bind_run _ _ _ _ _ Hct).
  pose proof (choice_Ok _ _ _ _ _ _ Hct) as [Hct_len _].
  destruct (set_col_total "connection_type" (map CStr ct) df4) as [df5 Hdf5];
    [rewrite length_map; lia|].
  rewrite (lift_run _ _ _ _ Hdf5).
  pose proof (set_col_assigns _ _ _ _ Hdf5) as A5.
  assert (nrows df5 = nrows df) as N5 by (apply assigns_nrows in A5; lia).
  assert (lookup_col "user_id" (columns df5) = Some (map CStr uids)) as Huid.
  { rewrite (assigns_other _ _ _ "user_id" A5) by in_cols.
    rewrite (assigns_other _ _ _ "user_id" A4) by in_cols.
    rewrite (assigns_other _ _ _ "user_id" A3) by in_cols.
    by apply set_col_lookup in Hdf2. }
  assert (get_col "user_id" df5 = Ok (map CStr uids)) as Hget.
  { unfold get_col. by rewrite Huid. }
  rewrite (lift_run _ _ _ _ Hget).
  set (f3 := fun uid : Cell => _).
  destruct (rand_mapM_total f3 (map CStr uids) g3) as (emails & g4 & Hemails).
  { intros uid g0 _. unfold f3.
    destruct (choice1_total "" domains g0) as (d & g0' & Hd); [done|].
    rewrite (bind_run _ _ _ _ _ Hd). by eexists _, _. }
  rewrite (bind_run _ _ _ _ _ Hemails).
  apply rand_mapM_Ok in Hemails as Hemails_len. rewrite length_map in Hemails_len.
  destruct (set_col_total "email" (map CStr emails) df5) as [df6 Hdf6];
    [rewrite length_map; lia|].
  exists df6, g4. unfold lift. by rewrite Hdf6.
Qed.

Lemma enrich_missing df (g : G) before name after :
  (1 <= nrows df)%nat ->
  ["ip"; "device"; "os"; "app"; "channel"] = before ++ name :: after ->
  (forall n, n ∈ before -> has_col df n) -> ~ has_col df name ->
  enrich it df g = Raise (KeyError name).
Proof.
  intros Hrows Hsplit Hbefore Hmissing. unfold enrich.
  apply bind_raise. by eapply base_enrichment_missing.
Qed.

Lemma enrich_empty df (g : G) :
  wf_frame df -> nrows df = 0%nat ->
  (has_col df "ip" -> exists msg, enrich it df g = Raise (ValueError msg))
  /\ (~ has_col df "ip" -> enrich it df g = Raise (KeyError "ip")).
Proof.
  intros Hwf Hrows.
  destruct (base_enrichment_runs df g) as (df' & g1 & Hbase); [lia|].
  unfold enrich. rewrite (bind_run _ _ _ _ _ Hbase).
  apply base_enrichment_Ok in Hbase as [Abase Hwf']; [|done].
  pose proof (assigns_other _ _ _ "ip" Abase ltac:(in_cols)) as Hip.
  unfold select_hubs, get_col. rewrite Hip. split.
  - intros [ip_col Hcol]. rewrite Hcol.
    pose proof (wf_lookup df "ip" ip_col Hwf Hcol) as Hlen. rewrite Hrows in Hlen.
    destruct ip_col; [|done]. by eexists.
  - intros Hno. destruct (lookup_col "ip" (columns df)) as [c|] eqn:Hc; [|done].
    destruct Hno. by exists c.
Qed.

(** The inputs on which a run succeeds are the valid ones. *)
Lemma enrich_succeeds_iff df (g : G) :
  wf_frame df -> (exists r g', enrich it df g = Ok (r, g')) <-> valid_input df.
Proof.
  intros Hwf. split; [|apply enrich_total].
  intros (r & g' & Hrun). split; [done|].
  destruct (decide (nrows df = 0%nat)) as [Hzero|Hpos].
  { destruct (enrich_empty df g Hwf Hzero) as [Hval Hkey].
    destruct (lookup_col "ip" (columns df)) as [c|] eqn:Hc.
    - destruct Hval as [msg Hmsg]; [by exists c|]. congruence.
    - rewrite Hkey in Hrun; [done|]. intros [c' Hc']. congruence. }
  split; [lia|].
  assert (forall before name after,
            ["ip"; "device"; "os"; "app"; "channel"] = before ++ name :: after ->
            (forall n, n ∈ before -> has_col df n) -> has_col df name) as Hstep.
  { intros before name after Hsplit Hbefore.
    destruct (lookup_col name (columns df)) as [c|] eqn:Hc; [by exists c|].
    rewrite (enrich_missing df g before name after) in Hrun; [done|lia|done|done|].
    intros [c' Hc']. congruence. }
  assert (has_col df "ip") as H1.
  { apply (Hstep [] "ip" ["device"; "os"; "app"; "channel"]); [done|].
    by intros n ?%elem_of_nil. }
  assert (has_col df "device") as H2.
  { apply (Hstep ["ip"] "device" ["os"; "app"; "channel"]); [done|].
    intros n Hn. repeat (apply elem_of_cons in Hn as [->|Hn]; [done|]).
    by apply elem_of_nil in Hn. }
  assert (has_col df "os") as H3.
  { apply (Hstep ["ip"; "device"] "os" ["app"; "channel"]); [done|].
    intros n Hn. repeat (apply elem_of_cons in Hn as [->|Hn]; [done|]).
    by apply elem_of_nil in Hn. }
  assert (has_col df "app") as H4.
  { apply (Hstep ["ip"; "device"; "os"] "app" ["channel"]); [done|].
    intros n Hn. repeat (apply elem_of_cons in Hn as [->|Hn]; [done|]).
    by apply elem_of_nil in Hn. }
  assert (has_col df "channel") as H5.
  { apply (Hstep ["ip"; "device"; "os"; "app"] "channel" []); [done|].
    intros n Hn. repeat (apply elem_of_cons in Hn as [->|Hn]; [done|]).
    by apply elem_of_nil in Hn. }
  intros name Hname. repeat (apply elem_of_cons in Hname as [->|Hname]; [done|]).
  by apply elem_of_nil in Hname.
Qed.

End Rejected.

(** ** Writing tables *)


(** ** The script as a whole *)

(** The column [fraud_cluster_id] of a finished run holds integers, so the
    comparison of line 205 is defined on every row. *)
Lemma run_cluster_ids r ip_col :
  wf_frame (run_input r) -> run_facts r ip_col ->
  exists ids fraud,
    get_col "fraud_cluster_id" (run_output r) = Ok ids
    /\ series_gt0 "fraud_cluster_id" (run_output r) = Ok fraud.
Proof.
  intros Hwf F.
  assert (has_col (run_output r) "fraud_cluster_id") as [ids Hids].
  { apply has_col_names. rewrite (rf_names _ _ F). apply elem_of_add_names. in_cols. }
  exists ids. unfold series_gt0, get_col. rewrite Hids. simpl.
  destruct (result_mapM_total gt0 ids) as [fraud Hfraud]; [|by exists fraud].
  intros v [i Hv]%list_elem_of_lookup_1.
  assert (i < nrows (run_output r))%nat as Hi.
  { rewrite <- (wf_lookup _ _ _ (rf_wf _ _ F) Hids). by apply lookup_lt_Some in Hv. }
  destruct (run_row_ip r ip_col i Hwf F Hi) as (x & Hx & _).
  assert (exists n, cell (run_output r) "fraud_cluster_id" i = Some (CInt n)) as [n Hn].
  { destruct (decide (Exists (fun c => x ∈ ips c) (run_clusters r))) as [Hin|Hout].
    - apply Exists_exists in Hin as (c & Hc & Hxc).
      destruct (rf_inside _ _ F i x c Hc Hx Hxc) as (Hid & _). by eexists.
    - destruct (rf_outside _ _ F i x Hx) as (Hid & _); [|by eexists].
      intros c Hc Hxc. apply Hout, Exists_exists. by exists c. }
  unfold cell in Hn. rewrite Hids, Hv in Hn. injection Hn as ->. by eexists.
Qed.

Lemma run_emails r ip_col :
  run_facts r ip_col -> exists emails, get_col "email" (run_output r) = Ok emails.
Proof.
  intros F.
  assert (has_col (run_output r) "email") as [emails Hemails].
  { apply has_col_names. rewrite (rf_names _ _ F). apply elem_of_add_names. in_cols. }
  exists emails. unfold get_col. by rewrite Hemails.
Qed.

Section MainProperties.
Context {G : Type} `{RandomState G} `{CsvReader}.
Variable it : SetIteration.
Variable env : Env.

(** The summary of a finished run touches no file, and fails only where
    the standard output refuses a message. *)
Lemma summary_of_run r ip_col w :
  wf_frame (run_input r) -> run_facts r ip_col ->
  exists w' res,
    summary env (run_output r) w = (w', res)
    /\ files w' = files w
    /\ (res = Ok tt \/ exists m e, stdout env m = Some e /\ res = Raise e)
    /\ ((forall m, stdout env m = None) -> res = Ok tt).
Proof.
  intros Hwf F.
  destruct (run_cluster_ids r ip_col Hwf F) as (ids & fraud & Hids & Hfraud).
  destruct (run_emails r ip_col F) as (emails & Hemails).
  unfold summary, mbind, io_bind, compute, print. rewrite Hfraud, Hids, Hemails. simpl.
  repeat match goal with
         | |- context [stdout env ?m] =>
             let E := fresh "E" in
             destruct (stdout env m) eqn:E; simpl;
             [eexists _, _; split_and!;
                [done|done|right; by eexists _, _|intros Hall; by rewrite Hall in E]|]
         end.
  eexists _, _. split_and!; [done|done|by left|done].
Qed.

(** The statements of the script in turn, each with the exception that
    ends the run there. *)
Lemma main_steps input_csv w :
  main it env input_csv w =
  match stdout env (MsgReading input_csv) with
  | Some e => (w, Raise e)
  | None =>
      let w1 := {| files := files w; printed := printed w ++ [MsgReading input_csv] |} in
      match read_csv input_csv (files w) with
      | Raise e => (w1, Raise e)
      | Ok df0 =>
          match stdout env (MsgRows (nrows df0)) with
          | Some e => (w1, Raise e)
          | None =>
              let w2 := {| files := files w;
                           printed := printed w1 ++ [MsgRows (nrows df0)] |} in
              match enrich it df0 (rs_seed SEED) with
              | Raise e => (w2, Raise e)
              | Ok (r, _) =>
                  match files w !! DATA with
                  | Some _ => (w2, Raise (FileExistsError DATA))
                  | None =>
                      match disk env with
                      | Fails None => (w2, Raise OSError)
                      | Fails (Some f) =>
                          ({| files := <[OUTPUT_CSV := f]> (files w);
                              printed := printed w2 |}, Raise OSError)
                      | Sound =>
                          let w3 := {| files := <[OUTPUT_CSV := CsvFile (to_csv (run_output r))]>
                                                  (files w);
                                       printed := printed w2 |} in
                          match stdout env (MsgSaved OUTPUT_CSV) with
                          | Some e => (w3, Raise e)
                          | None =>
                              match summary env (run_output r)
                                      {| files := files w3;
                                         printed := printed w3 ++ [MsgSaved OUTPUT_CSV] |} with
                              | (w4, Ok _) => (w4, Ok r)
                              | (w4, Raise e) => (w4, Raise e)
                              end
                          end
                      end
                  end
              end
          end
      end
  end.
Proof.
  unfold main, mbind, io_bind, print, reading, compute, mkdir, write_csv. simpl.
  destruct (stdout env (MsgReading input_csv)); [done|]. simpl.
  destruct (read_csv input_csv (files w)) as [df0|e]; [|done].
  destruct (stdout env (MsgRows (nrows df0))); [done|]. simpl.
  destruct (enrich it df0 (rs_seed SEED)) as [[r g']|e]; [|done].
  destruct (files w !! DATA); [done|].
  destruct (disk env) as [|[f|]]; [|done|done].
  destruct (stdout env (MsgSaved OUTPUT_CSV)); [done|]. simpl.
  destruct (summary env (run_output r) _) as [w4 [[]|e]]; done.
Qed.

(** Once the table is read and enriched, the first two messages printed
    and the directory there, a disk that takes the write holds the output
    file, whatever the end of the run. *)
Lemma main_written input_csv w df0 r g' :
  read_csv input_csv (files w) = Ok df0 ->
  enrich it df0 (rs_seed SEED) = Ok (r, g') ->
  stdout env (MsgReading input_csv) = None ->
  stdout env (MsgRows (nrows df0)) = None ->
  files w !! DATA = None ->
  disk env = Sound ->
  exists w' res,
    main it env input_csv w = (w', res)
    /\ files w' = <[OUTPUT_CSV := CsvFile (to_csv (run_output r))]> (files w)
    /\ (res = Ok r \/ exists m e, stdout env m = Some e /\ res = Raise e)
    /\ ((forall m, stdout env m = None) -> res = Ok r).
Proof.
  intros Hread Hrun Hp1 Hp2 Hdir Hdisk.
  assert (wf_frame df0) as Hwf.
  { unfold read_csv in Hread. destruct (files w !! input_csv) as [[c|e]|]; [|done|done].
    by apply (parse_wf c). }
  destruct (enrich_Ok it df0 _ r g' Hwf Hrun) as [Hin [ip_col F]].
  rewrite main_steps. cbv zeta. rewrite Hp1, Hread, Hp2, Hrun, Hdir, Hdisk.
  destruct (stdout env (MsgSaved OUTPUT_CSV)) eqn:E3.
  { eexists _, _. split_and!; [done|done|right; by eexists _, _|].
    intros Hall. by rewrite Hall in E3. }
  match goal with |- context [summary env _ ?w0] =>
    destruct (summary_of_run r ip_col w0) as (w4 & res4 & Hsum & Hfiles & Hres & Hall);
      [by rewrite Hin|done|]
  end.
  rewrite Hsum. destruct Hres as [->|(m & e & Hm & ->)].
  - eexists _, _. split_and!; [done|done|by left|done].
  - eexists _, _. split_and!; [done|done|right; by eexists _, _|].
    intros Hno. by rewrite Hno in Hm.
Qed.

(** What a run leaves behind, whatever its end: the files as they were, or
    the files with the output path written. *)
Lemma main_outcome input_csv w w' res :
  main it env input_csv w = (w', res) ->
  (files w' = files w /\ exists e, res = Raise e)
  \/ exists df0 r g',
       read_csv input_csv (files w) = Ok df0
       /\ enrich it df0 (rs_seed SEED) = Ok (r, g')
       /\ files w !! DATA = None
       /\ ((disk env = Sound
            /\ files w' = <[OUTPUT_CSV := CsvFile (to_csv (run_output r))]> (files w)
            /\ (res = Ok r \/ exists m e, stdout env m = Some e /\ res = Raise e)
            /\ ((forall m, stdout env m = None) -> res = Ok r))
           \/ (exists f, disk env = Fails (Some f)
                 /\ files w' = <[OUTPUT_CSV := f]> (files w)
                 /\ res = Raise OSError)).
Proof.
  intros Hmain. pose proof Hmain as Hsteps. rewrite main_steps in Hsteps. cbv zeta in Hsteps.
  destruct (stdout env (MsgReading input_csv)) eqn:E1;
    [injection Hsteps as <- <-; left; split; [done|by eexists]|].
  destruct (read_csv input_csv (files w)) as [df0|e] eqn:Hread;
    [|injection Hsteps as <- <-; left; split; [done|by eexists]].
  destruct (stdout env (MsgRows (nrows df0))) eqn:E2;
    [injection Hsteps as <- <-; left; split; [done|by eexists]|].
  destruct (enrich it df0 (rs_seed SEED)) as [[r g']|e] eqn:Hrun;
    [|injection Hsteps as <- <-; left; split; [done|by eexists]].
  destruct (files w !! DATA) eqn:Hdir;
    [injection Hsteps as <- <-; left; split; [done|by eexists]|].
  destruct (disk env) as [|[f|]] eqn:Hdisk.
  - destruct (main_written input_csv w df0 r g' Hread Hrun E1 E2 Hdir Hdisk)
      as (w'' & res' & Hmain' & Hfiles & Hres & Hall).
    rewrite Hmain in Hmain'. injection Hmain' as <- <-.
    right. exists df0, r, g'. split_and!; try done. by left.
  - injection Hsteps as <- <-. right. exists df0, r, g'. split_and!; try done.
    right. by exists f.
  - injection Hsteps as <- <-. left. split; [done|by eexists].
Qed.


(** C8, as the code has it.  A run that fails before line 201 writes
    nothing: the files are as they were when the input file is absent
    ([FileNotFoundError], once line 83 has printed) or is one pandas cannot
    read (the exception of pandas), when the table has no row or lacks one
    of [ip], [device], [os], [app], [channel], when a file stands at the
    path of the data directory, and when the disk refuses to open the
    output file.  A run that fails later does leave an output file: what
    the disk took of it when the write of line 201 breaks off, and the
    whole of it when one of the prints of lines 202-210 is refused, which
    is the only way a run fails once the file is written.  No failing run
    touches any other path. *)
Theorem failed_run_writes_at_most_output input_csv (w w' : World) res :
  main it env input_csv w = (w', res) ->
  (files w !! input_csv = None ->
     files w' = files w
     /\ (exists e, res = Raise e)
     /\ (stdout env (MsgReading input_csv) = None ->
          res = Raise (FileNotFoundError input_csv)))
  /\ (forall e0, files w !! input_csv = Some (Unreadable e0) ->
     files w' = files w
     /\ (exists e, res = Raise e)
     /\ (stdout env (MsgReading input_csv) = None -> res = Raise e0))
  /\ (forall c e0, files w !! input_csv = Some (CsvFile c) -> parse c = Raise e0 ->
     files w' = files w
     /\ (exists e, res = Raise e)
     /\ (stdout env (MsgReading input_csv) = None -> res = Raise e0))
  /\ (forall c df0, files w !! input_csv = Some (CsvFile c) -> parse c = Ok df0 ->
     nrows df0 = 0%nat
     \/ (exists name, name ∈ ["ip"; "device"; "os"; "app"; "channel"]
                      /\ ~ has_col df0 name) ->
     files w' = files w /\ exists e, res = Raise e)
  /\ (is_Some (files w !! DATA) \/ disk env = Fails None ->
     files w' = files w /\ exists e, res = Raise e)
  /\ (forall e, res = Raise e ->
     (forall path, path <> OUTPUT_CSV -> files w' !! path = files w !! path)
     /\ (files w' = files w
         \/ exists df0 r g',
              read_csv input_csv (files w) = Ok df0
              /\ enrich it df0 (rs_seed SEED) = Ok (r, g')
              /\ ((disk env = Sound
                   /\ files w' = <[OUTPUT_CSV := CsvFile (to_csv (run_output r))]> (files w)
                   /\ exists m, stdout env m = Some e)
                  \/ (exists f, disk env = Fails (Some f)
                        /\ e = OSError
                        /\ files w' = <[OUTPUT_CSV := f]> (files w))))).
Proof.
  intros Hmain.
  pose proof (main_outcome input_csv w w' res Hmain) as Hout.
  pose proof Hmain as Hsteps. rewrite main_steps in Hsteps. cbv zeta in Hsteps.
  assert (forall e0, read_csv input_csv (files w) = Raise e0 ->
            files w' = files w
            /\ (exists e, res = Raise e)
            /\ (stdout env (MsgReading input_csv) = None -> res = Raise e0)) as Hunread.
  { intros e0 Hread. rewrite Hread in Hsteps.
    destruct (stdout env (MsgReading input_csv)); injection Hsteps as <- <-;
      (split_and!; [done|by eexists|done]). }
  split_and!.
  - intros Hfile. apply Hunread. unfold read_csv. by rewrite Hfile.
  - intros e0 Hfile. apply Hunread. unfold read_csv. by rewrite Hfile.
  - intros c e0 Hfile Hparse. apply Hunread. unfold read_csv. by rewrite Hfile.
  - intros c df0 Hfile Hparse Hbad.
    destruct Hout as [Hsame|(df0' & r & g' & Hread & Hrun & _)]; [done|]. exfalso.
    unfold read_csv in Hread. rewrite Hfile, Hparse in Hread. injection Hread as <-.
    pose proof (parse_wf c df0 Hparse) as Hwf.
    assert (valid_input df0) as (_ & Hrows & Hcols).
    { apply (enrich_succeeds_iff it df0 (rs_seed SEED) Hwf). by exists r, g'. }
    destruct Hbad as [Hzero|(name & Hname & Hno)]; [lia|]. by apply Hno, Hcols.
  - intros Hbad.
    destruct Hout as [Hsame|(df0 & r & g' & _ & _ & Hdir & Hend)]; [done|]. exfalso.
    destruct Hbad as [[f Hf]|Hdisk]; [congruence|].
    destruct Hend as [(Hsound & _)|(f & Hf & _)]; congruence.
  - intros e ->.
    destruct Hout as [[Hsame _]|(df0 & r & g' & Hread & Hrun & _ & Hend)].
    { split; [|by left]. intros path _. by rewrite Hsame. }
    destruct Hend as [(Hsound & Hfiles & Hres & _)|(f & Hf & Hfiles & Hres)].
    + split; [intros path Hpath; by rewrite Hfiles, lookup_insert_ne|].
      right. exists df0, r, g'. split_and!; [done|done|]. left. split_and!; [done|done|].
      destruct Hres as [?|(m & e' & Hm & [= ->])]; [done|]. by exists m.
    + split; [intros path Hpath; by rewrite Hfiles, lookup_insert_ne|].
      right. exists df0, r, g'. split_and!; [done|done|]. right. exists f.
      by injection Hres as ->.
Qed.

End MainProperties.

Section StageProperties.
Context {G : Type} `{RandomState G}.
Variable it : SetIteration.

(** C9. The override loop changes only the columns [fraud_cluster_id],
    [is_synthetic_fraud], [ad_id], [device_fingerprint], [email], [user_id]
    and [country]: every other column is the same list of cells before and
    after, for every row, in particular the eight input columns and
    [connection_type]; no row is added or dropped. *)
Theorem override_keeps_other_columns pre cs df (g : G) df' g' :
  inject_fraud pre cs df g = Ok (df', g') ->
  nrows df' = nrows df
  /\ (forall name, name ∉ overridden ->
        lookup_col name (columns df') = lookup_col name (columns df))
  /\ (forall name, name ∈ kept_columns ->
        lookup_col name (columns df') = lookup_col name (columns df)).
Proof.
  intros Hrun.
  destruct (inject_fraud_assigns pre cs df g df' g' Hrun) as (seq & Hseq & Aseq).
  assert (forall name, name ∉ overridden ->
            lookup_col name (columns df') = lookup_col name (columns df)) as Hframe.
  { intros name Hname. apply (assigns_other _ _ _ name Aseq).
    intros [Hin|Hin]%elem_of_app; apply Hname; [|by apply Hseq].
    repeat (apply elem_of_cons in Hin as [->|Hin]; [in_cols|]).
    by apply elem_of_nil in Hin. }
  split_and!; [by apply assigns_nrows in Aseq|done|].
  intros name Hname. apply Hframe. unfold kept_columns in Hname.
  repeat (apply elem_of_cons in Hname as [->|Hname]; [in_cols|]).
  by apply elem_of_nil in Hname.
Qed.

(** C5, as the code has it.  On a table with at least one row the hub
    selector returns [max(1, int(n * 0.05))] distinct IPs of the [ip] column,
    [n] being the number of distinct IPs: the product is truncated, not
    rounded, which below [2^52] rows is [max(1, n / 20)]. *)
Theorem hub_selection_truncates df (g : G) :
  wf_frame df -> has_col df "ip" -> (1 <= nrows df)%nat ->
  exists hub g' ip_col,
    select_hubs it df g = Ok (hub, g')
    /\ lookup_col "ip" (columns df) = Some ip_col
    /\ NoDup hub
    /\ (forall x, x ∈ hub -> x ∈ unique ip_col)
    /\ Z.of_nat (length hub) = num_hub_ips (length (unique ip_col))
    /\ (Z.of_nat (length (unique ip_col)) < 2 ^ 52 ->
          Z.of_nat (length hub) = Z.max 1 (Z.of_nat (length (unique ip_col)) / 20)).
Proof.
  intros Hwf Hip Hrows.
  destruct (select_hubs_total it df g Hwf Hip Hrows) as (hub & g' & Hrun).
  destruct (select_hubs_Ok it df g hub g' Hrun) as (ip_col & Hcol & Hnd & Hsub & Hcount).
  exists hub, g', ip_col. split_and!; try done.
  - intros x Hx. by apply unique_elem, Hsub.
  - intros Hsmall. by rewrite Hcount, num_hub_ips_exact.
Qed.

(** C3. For a size range [1 <= m <= M] and a list of distinct hub IPs the
    builder returns clusters whose blocks, read in order, are the list: they
    are pairwise disjoint and cover exactly the hub IPs; the ids are 1, 2, ...
    in order; every block but the last has between [m] and [M] IPs, and the
    last block has at least one and may have fewer than [m]. *)
Theorem build_clusters_partitions m M hub (g : G) :
  1 <= m <= M -> NoDup hub ->
  exists cs g',
    build_clusters m M hub g = Ok (cs, g')
    /\ concat (map ips cs) = hub
    /\ pairwise_disjoint cs
    /\ (forall x, x ∈ hub <-> exists c, c ∈ cs /\ x ∈ ips c)
    /\ ids_from 1 cs
    /\ sizes_within m M cs.
Proof.
  intros HmM Hnd.
  destruct (cluster_loop_spec m M hub HmM (length hub) 0 1 [] g)
    as (cs & g' & Hrun & Hcat & Hids & Hsz); [lia|simpl; lia|].
  rewrite drop_0 in Hcat. simpl in Hrun.
  exists cs, g'. split_and!; try done.
  - rewrite <- Hcat in Hnd. clear -Hnd.
    intros i j c1 c2 Hi Hj Hij x Hx1 Hx2.
    revert i j Hi Hj Hij. induction cs as [|c cs IH]; intros i j Hi Hj Hij; [done|].
    simpl in Hnd. apply NoDup_app in Hnd as (_ & Hdisj & Hnd).
    destruct i as [|i], j as [|j]; simpl in *; try done.
    + injection Hi as ->. apply (Hdisj x Hx1), elem_of_concat_ips.
      exists c2. split; [|done]. by eapply list_elem_of_lookup_2.
    + injection Hj as ->. apply (Hdisj x Hx2), elem_of_concat_ips.
      exists c1. split; [|done]. by eapply list_elem_of_lookup_2.
    + apply (IH Hnd i j); [done|done|lia].
  - intros x. rewrite <- Hcat. apply elem_of_concat_ips.
Qed.

End StageProperties.

(** ** Decimal texts *)

Lemma spelled_with_nil alphabet : spelled_with alphabet EmptyString.
Proof. by intros c. Qed.

Lemma spelled_with_cons alphabet c s :
  Py.contains c alphabet = true -> spelled_with alphabet s ->
  spelled_with alphabet (String c s).
Proof.
  intros Hc Hs d. simpl. destruct (Ascii.eqb_spec d c) as [->|_]; [done|apply Hs].
Qed.

Lemma spelled_with_app alphabet a b :
  spelled_with alphabet a -> spelled_with alphabet b -> spelled_with alphabet (a +:+ b).
Proof.
  intros Ha Hb c. rewrite contains_app. intros [H|H]%orb_true_iff; [by apply Ha|by apply Hb].
Qed.

Lemma spelled_with_absent alphabet s c :
  spelled_with alphabet s -> Py.contains c alphabet = false -> Py.contains c s = false.
Proof.
  intros Hs Hc. destruct (Py.contains c s) eqn:E; [|done].
  apply Hs in E. congruence.
Qed.

Lemma uint_text_decimal d : spelled_with decimal_digits (NilEmpty.string_of_uint d).
Proof.
  induction d; simpl; [apply spelled_with_nil|..]; by apply spelled_with_cons.
Qed.

Lemma uint_text_length d :
  String.length (NilEmpty.string_of_uint d) = nb_digits d.
Proof. induction d; simpl; congruence. Qed.

Lemma zeros_text m d :
  NilEmpty.string_of_uint (Nat.iter m D0 d)
  = string_of_list_ascii (repeat "0"%char m) +:+ NilEmpty.string_of_uint d.
Proof. induction m as [|m IH]; simpl; [done|]. by rewrite IH. Qed.

Lemma zeros_value m d : Pos.of_uint (Nat.iter m D0 d) = Pos.of_uint d.
Proof. induction m as [|m IH]; simpl; [done|]. exact IH. Qed.

(** [str(n)] for [0 <= n] is the text of the normal decimal form. *)
Lemma str_int_nonneg n :
  0 <= n -> Py.str_int n = NilEmpty.string_of_uint (N.to_uint (Z.to_N n))
            /\ N.to_uint (Z.to_N n) <> Nil.
Proof.
  intros Hn. unfold Py.str_int. destruct n as [|p|p]; [done| |lia]. simpl.
  pose proof (Unsigned.to_uint_nonnil p) as Hp.
  split; [|done]. unfold NilZero.string_of_uint. by destruct (Pos.to_uint p).
Qed.

(** [f"{n:0wd}"] is the text of a numeral of value [n] that has [w] digits
    or is the normal form of [n]. *)
Lemma fmt_0d_numeral w n :
  0 <= n ->
  exists d, Py.fmt_0d w n = NilEmpty.string_of_uint d
    /\ N.of_uint d = Z.to_N n
    /\ nb_digits d = Nat.max w (nb_digits (N.to_uint (Z.to_N n))).
Proof.
  intros Hn. destruct (str_int_nonneg n Hn) as [Hstr Hnil].
  set (u := N.to_uint (Z.to_N n)) in *.
  exists (Nat.iter (w - nb_digits u) D0 u).
  unfold Py.fmt_0d. rewrite (proj2 (Z.ltb_ge _ _) Hn).
  unfold Py.zfill. rewrite Hstr, uint_text_length, zeros_text.
  split_and!; [done| |].
  - unfold N.of_uint. rewrite zeros_value. apply DecimalN.Unsigned.of_to.
  - rewrite nb_digits_iter_D0. lia.
Qed.

Lemma fmt_0d_decimal w n : 0 <= n -> spelled_with decimal_digits (Py.fmt_0d w n).
Proof.
  intros Hn. destruct (fmt_0d_numeral w n Hn) as (d & -> & _). apply uint_text_decimal.
Qed.

Lemma fmt_0d_inj w n n' :
  0 <= n -> 0 <= n' -> Py.fmt_0d w n = Py.fmt_0d w n' -> n = n'.
Proof.
  intros Hn Hn' Heq.
  destruct (fmt_0d_numeral w n Hn) as (d & Hd & Hv & _).
  destruct (fmt_0d_numeral w n' Hn') as (d' & Hd' & Hv' & _).
  rewrite Hd, Hd' in Heq.
  assert (Some d = Some d') as [= ->].
  { rewrite <- (NilEmpty.usu d), <- (NilEmpty.usu d'). by rewrite Heq. }
  rewrite Hv in Hv'. lia.
Qed.

Lemma fmt_0d_min_length w n : 0 <= n -> (w <= String.length (Py.fmt_0d w n))%nat.
Proof.
  intros Hn. destruct (fmt_0d_numeral w n Hn) as (d & -> & _ & Hl).
  rewrite uint_text_length. lia.
Qed.

(** A number below [10^k] is written with at most [k] digits. *)
Lemma numeral_of_width k : forall n : N,
  (n < 10 ^ N.of_nat k)%N -> exists d, nb_digits d = k /\ Unsigned.of_lu d = n.
Proof.
  induction k as [|k IH]; intros n Hn.
  - exists Nil. simpl in *. split; [done|]. lia.
  - rewrite Nat2N.inj_succ, N.pow_succ_r' in Hn.
    destruct (IH (n / 10)%N) as (d & Hd & Hv).
    { apply N.Div0.div_lt_upper_bound. lia. }
    pose proof (N.div_mod n 10 ltac:(done)) as Hdm.
    pose proof (N.mod_lt n 10 ltac:(done)) as Hlt.
    set (r := (n mod 10)%N) in *.
    assert (r = 0 \/ r = 1 \/ r = 2 \/ r = 3 \/ r = 4 \/ r = 5 \/ r = 6 \/ r = 7
            \/ r = 8 \/ r = 9)%N as Hr by lia.
    destruct Hr as [Hr|[Hr|[Hr|[Hr|[Hr|[Hr|[Hr|[Hr|[Hr|Hr]]]]]]]]].
    + exists (D0 d). simpl. split; [congruence|]. rewrite Hv. lia.
    + exists (D1 d). simpl. split; [congruence|]. rewrite Hv. lia.
    + exists (D2 d). simpl. split; [congruence|]. rewrite Hv. lia.
    + exists (D3 d). simpl. split; [congruence|]. rewrite Hv. lia.
    + exists (D4 d). simpl. split; [congruence|]. rewrite Hv. lia.
    + exists (D5 d). simpl. split; [congruence|]. rewrite Hv. lia.
    + exists (D6 d). simpl. split; [congruence|]. rewrite Hv. lia.
    + exists (D7 d). simpl. split; [congruence|]. rewrite Hv. lia.
    + exists (D8 d). simpl. split; [congruence|]. rewrite Hv. lia.
    + exists (D9 d). simpl. split; [congruence|]. rewrite Hv. lia.
Qed.

Lemma digits_below k n :
  (1 <= k)%nat -> 0 <= n < 10 ^ Z.of_nat k ->
  (nb_digits (N.to_uint (Z.to_N n)) <= k)%nat.
Proof.
  intros Hk Hn.
  destruct (numeral_of_width k (Z.to_N n)) as (d & Hd & Hv).
  { apply N2Z.inj_lt. rewrite Z2N.id by lia. rewrite N2Z.inj_pow, nat_N_Z. simpl. lia. }
  rewrite <- Hv, <- Unsigned.of_lu_rev.
  change (Pos.of_uint (Decimal.rev d)) with (N.of_uint (Decimal.rev d)).
  rewrite DecimalN.Unsigned.to_of.
  etrans; [apply nb_digits_unorm|by rewrite nb_digits_rev, Hd].
  intros Hnil. apply (f_equal nb_digits) in Hnil. rewrite nb_digits_rev in Hnil.
  simpl in Hnil. lia.
Qed.

Lemma fmt_0d_length k n :
  (1 <= k)%nat -> 0 <= n < 10 ^ Z.of_nat k -> String.length (Py.fmt_0d k n) = k.
Proof.
  intros Hk Hn. destruct (fmt_0d_numeral k n ltac:(lia)) as (d & -> & _ & Hl).
  rewrite uint_text_length, Hl. pose proof (digits_below k n Hk Hn). lia.
Qed.

Lemma fmt_0d_wider k n :
  (1 <= k)%nat -> 0 <= n < 10 ^ Z.of_nat k ->
  Py.fmt_0d (S k) n = String "0" (Py.fmt_0d k n).
Proof.
  intros Hk Hn. destruct (str_int_nonneg n ltac:(lia)) as [Hstr _].
  pose proof (digits_below k n Hk Hn) as Hle.
  unfold Py.fmt_0d. rewrite (proj2 (Z.ltb_ge _ _) (proj1 Hn)).
  unfold Py.zfill. rewrite Hstr, uint_text_length.
  replace (S k - _)%nat with (S (k - nb_digits (N.to_uint (Z.to_N n)))) by lia.
  done.
Qed.

(** X15. [f"{n:0kd}"] of a number [0 <= n < 10^k] has exactly [k]
    characters, all of them decimal digits, and two numbers that are
    printed alike are equal. *)
Theorem zero_padded_decimal k n n' :
  (1 <= k)%nat -> 0 <= n < 10 ^ Z.of_nat k -> 0 <= n' ->
  String.length (Py.fmt_0d k n) = k
  /\ (forall c, Py.contains c (Py.fmt_0d k n) = true -> Py.contains c decimal_digits = true)
  /\ (Py.fmt_0d k n = Py.fmt_0d k n' -> n = n').
Proof.
  intros Hk Hn Hn'. split_and!.
  - by apply fmt_0d_length.
  - apply fmt_0d_decimal. lia.
  - apply fmt_0d_inj; lia.
Qed.

(** X15 on the number 42 printed with six digits. *)
Lemma zero_padded_decimal_on_42 :
  String.length (Py.fmt_0d 6 42) = 6%nat
  /\ (forall c, Py.contains c (Py.fmt_0d 6 42) = true -> Py.contains c decimal_digits = true)
  /\ (Py.fmt_0d 6 42 = Py.fmt_0d 6 7 -> 42 = 7).
Proof. apply (zero_padded_decimal 6 42 7); [lia|simpl; lia|lia]. Defined.

(** ** Shapes of the generated identifiers *)

Lemma stable_hash_range vals m : 0 < m -> 0 <= stable_hash_to_int vals m < m.
Proof. intros Hm. unfold stable_hash_to_int. by apply Z.mod_pos_bound. Qed.

Lemma last_chars_app (a b : string) :
  Py.last_chars (String.length b) (a +:+ b) = b.
Proof.
  unfold Py.last_chars. rewrite string_app_length.
  replace (String.length a + String.length b - String.length b)%nat
    with (String.length a) by lia.
  induction a as [|c a IH]; [by destruct b|]. exact IH.
Qed.

(** X1. A generated user id is [U0] followed by the six decimal digits
    of the hash of its three fields taken modulo a million: it has eight
    characters, and its last six, which the baseline email takes up, are
    those digits. *)
Theorem user_id_shape ip device os_ :
  exists h,
    h = stable_hash_to_int [ip; device; os_] 1000000
    /\ 0 <= h < 1000000
    /\ gen_user_id ip device os_ = "U0" +:+ Py.fmt_0d 6 h
    /\ String.length (gen_user_id ip device os_) = 8%nat
    /\ spelled_with decimal_digits (Py.fmt_0d 6 h)
    /\ Py.last_chars 6 (gen_user_id ip device os_) = Py.fmt_0d 6 h.
Proof.
  exists (stable_hash_to_int [ip; device; os_] 1000000). split; [done|].
  set (h := stable_hash_to_int [ip; device; os_] 1000000). pose proof (stable_hash_range [ip; device; os_] 1000000 ltac:(done)) as Hh.
  fold h in Hh.
  assert (gen_user_id ip device os_ = "U0" +:+ Py.fmt_0d 6 h) as Hid.
  { unfold gen_user_id. fold h. by rewrite (fmt_0d_wider 6 h) by (simpl; lia). }
  pose proof (fmt_0d_length 6 h ltac:(lia) ltac:(simpl; lia)) as Hlen.
  split_and!; [lia|lia|done| | |].
  - rewrite Hid, string_app_length, Hlen. done.
  - apply fmt_0d_decimal. lia.
  - rewrite Hid. rewrite <- Hlen at 1. apply last_chars_app.
Qed.

Lemma hex_digit_hex n : Py.contains (Py.hex_digit n) hex_digits = true.
Proof.
  unfold Py.hex_digit.
  destruct n as [|p|p]; [done| |done].
  do 4 (destruct p as [p|p|]; try done).
Qed.

Lemma hex_of_bytes_hex bs : spelled_with hex_digits (Py.hex_of_bytes bs).
Proof.
  induction bs as [|b bs IH]; simpl; [apply spelled_with_nil|].
  apply spelled_with_cons; [apply hex_digit_hex|].
  apply spelled_with_cons; [apply hex_digit_hex|done].
Qed.

Lemma hex_of_bytes_prefix k bs :
  Py.prefix (2 * k) (Py.hex_of_bytes bs) = Py.hex_of_bytes (firstn k bs).
Proof.
  revert bs. induction k as [|k IH]; intros [|b bs]; simpl; try done.
  replace (k + S (k + 0))%nat with (S (2 * k)) by lia. simpl.
  do 2 f_equal. apply IH.
Qed.

Lemma hex_of_bytes_length bs :
  String.length (Py.hex_of_bytes bs) = (2 * length bs)%nat.
Proof. induction bs as [|b bs IH]; simpl; [done|]. rewrite IH. lia. Qed.

Lemma md5_step_length block st i :
  length st = 4%nat -> length (Hashlib.MD5.step block st i) = 4%nat.
Proof.
  destruct st as [|a [|b [|c [|d [|e st]]]]]; try done. intros _.
  unfold Hashlib.MD5.step.
  by destruct (i <? 16)%nat, (i <? 32)%nat, (i <? 48)%nat.
Qed.

Lemma md5_compress_length h block :
  length h = 4%nat -> length (Hashlib.MD5.compress h block) = 4%nat.
Proof.
  intros Hh. unfold Hashlib.MD5.compress. rewrite length_map, length_combine.
  assert (forall steps st, length st = 4%nat ->
            length (fold_left (Hashlib.MD5.step block) steps st) = 4%nat) as Hfold.
  { induction steps as [|i steps IH]; intros st Hst; simpl; [done|].
    apply IH. by apply md5_step_length. }
  rewrite (Hfold _ _ Hh). lia.
Qed.

Lemma md5_digest_length msg : length (Hashlib.MD5.digest msg) = 16%nat.
Proof.
  unfold Hashlib.MD5.digest.
  set (bl := Hashlib.blocks _ _).
  assert (forall bs h, length h = 4%nat ->
            length (fold_left Hashlib.MD5.compress bs h) = 4%nat) as Hfold.
  { induction bs as [|b bs IH]; intros h Hh; simpl; [done|].
    apply IH. by apply md5_compress_length. }
  specialize (Hfold bl Hashlib.MD5.init eq_refl).
  destruct (fold_left _ bl _) as [|a [|b [|c [|d [|e st]]]]]; try done.
Qed.

(** X2. A device fingerprint is the first sixteen hex digits of the MD5
    digest of the four fields joined by dashes: sixteen characters, all
    lower-case hex digits. *)
Theorem fingerprint_shape device os_ app channel :
  String.length (gen_fingerprint device os_ app channel) = 16%nat
  /\ spelled_with hex_digits (gen_fingerprint device os_ app channel)
  /\ gen_fingerprint device os_ app channel
     = Py.hex_of_bytes (firstn 8 (Hashlib.MD5.digest (Py.encode
         (str device +:+ "-" +:+ str os_ +:+ "-" +:+ str app +:+ "-" +:+ str channel)))).
Proof.
  unfold gen_fingerprint, Hashlib.md5_hexdigest.
  set (bs := Hashlib.MD5.digest _).
  pose proof (hex_of_bytes_prefix 8 bs) as Hp. change (2 * 8)%nat with 16%nat in Hp.
  rewrite Hp.
  split_and!; [|apply hex_of_bytes_hex|done].
  rewrite hex_of_bytes_length, length_take.
  unfold bs. rewrite md5_digest_length. done.
Qed.

(** X3. The fingerprint shared by a cluster is [fp_] followed by eight
    decimal digits: eleven characters, so never the sixteen of a device
    fingerprint. *)
Theorem cluster_fingerprint_shape c :
  exists h,
    h = stable_hash_to_int (ips c) (10 ^ 8)
    /\ 0 <= h < 10 ^ 8
    /\ cluster_fingerprint c = "fp_" +:+ Py.fmt_0d 8 h
    /\ String.length (cluster_fingerprint c) = 11%nat
    /\ spelled_with decimal_digits (Py.fmt_0d 8 h).
Proof.
  exists (stable_hash_to_int (ips c) (10 ^ 8)). split; [done|].
  set (h := stable_hash_to_int (ips c) (10 ^ 8)). pose proof (stable_hash_range (ips c) (10 ^ 8) ltac:(done)) as Hh.
  fold h in Hh. split_and!; [lia|lia|done| |].
  - unfold cluster_fingerprint. fold h.
    rewrite string_app_length, (fmt_0d_length 8 h); [done|lia|done].
  - apply fmt_0d_decimal. lia.
Qed.

(** Two texts without the character [c] that agree up to the first [c]
    are equal. *)
Lemma split_at_char c (a b r1 r2 : string) :
  Py.contains c a = false -> Py.contains c b = false ->
  a +:+ String c r1 = b +:+ String c r2 -> a = b /\ r1 = r2.
Proof.
  revert b. induction a as [|x a IH]; intros [|y b] Ha Hb; rewrite ?append_cons, ?append_nil.
  - by intros [= ->].
  - intros [= <- _]. by rewrite contains_cons, Ascii.eqb_refl in Hb.
  - intros [= -> _]. by rewrite contains_cons, Ascii.eqb_refl in Ha.
  - intros [= -> Hrest]. rewrite contains_cons in Ha, Hb.
    destruct (Ascii.eqb c y); [done|].
    destruct (IH b Ha Hb Hrest) as [-> ->]. done.
Qed.

Lemma append_assoc (a b c : string) : (a +:+ b) +:+ c = a +:+ (b +:+ c).
Proof. induction a as [|x a IH]; str_simpl; [done|]. by rewrite IH. Qed.

Lemma append_inv_head (a b c : string) : a +:+ b = a +:+ c -> b = c.
Proof. induction a as [|x a IH]; str_simpl; [done|]. intros [= Heq]. by apply IH. Qed.

Lemma prefix_app (a b : string) : Py.prefix (String.length a) (a +:+ b) = a.
Proof.
  induction a as [|c a IH]; [by destruct b|]. rewrite append_cons. simpl. by rewrite IH.
Qed.

(** X4. An email address built from a handle without [@] gives back
    its handle and its domain: two such addresses are equal only if both
    parts are. *)
Theorem email_determines_handle_and_domain h d h' d' :
  Py.contains "@" h = false -> Py.contains "@" h' = false ->
  email_from_handle h d = email_from_handle h' d' -> h = h' /\ d = d'.
Proof.
  intros Hh Hh'. unfold email_from_handle.
  change ("@" +:+ ?r) with (String "@" r). by apply split_at_char.
Qed.

Lemma email_at_count h d :
  Py.count "@" (email_from_handle h d) = S (Py.count "@" h + Py.count "@" d).
Proof.
  unfold email_from_handle. rewrite count_app.
  change ("@" +:+ d) with (String "@" d). simpl. lia.
Qed.

Lemma str_int_small k :
  1 <= k <= 8 -> String.length (Py.str_int k) = 1%nat
                 /\ spelled_with "12345678" (Py.str_int k).
Proof.
  intros Hk.
  assert (k = 1 \/ k = 2 \/ k = 3 \/ k = 4 \/ k = 5 \/ k = 6 \/ k = 7 \/ k = 8) as Hc by lia.
  destruct Hc as [->|[->|[->|[->|[->|[->|[->| ->]]]]]]]; (split; [done|]);
    (apply spelled_with_cons; [done|apply spelled_with_nil]).
Qed.

Section Handles.
Context {G : Type} `{RandomState G}.

(** X5. The plus variant of a handle always succeeds and is the handle
    followed by [+promo] and one digit from 1 to 8 (the upper bound 9 of
    [randint] is excluded): seven characters more, the handle as prefix. *)
Theorem plus_variant_appends_promo handle (g : G) :
  exists k g',
    plus_variant handle g = Ok (handle +:+ "+promo" +:+ Py.str_int k, g')
    /\ 1 <= k <= 8
    /\ String.length (Py.str_int k) = 1%nat
    /\ String.length (handle +:+ "+promo" +:+ Py.str_int k)
       = (String.length handle + 7)%nat
    /\ Py.prefix (String.length handle) (handle +:+ "+promo" +:+ Py.str_int k) = handle.
Proof.
  destruct (randint_ok 1 9 g ltac:(done)) as (k & g' & Hr & Hk).
  exists k, g'. unfold plus_variant, mbind, rand_bind. rewrite Hr.
  destruct (str_int_small k ltac:(lia)) as [Hlen _].
  split_and!; [done|lia|lia|done| |].
  - rewrite !string_app_length, Hlen. simpl. lia.
  - apply prefix_app.
Qed.

(** X6. A random handle is its base followed by exactly six decimal
    digits, of a number below the span, for a span from 1 to a million; a
    span of zero or less raises [ValueError]. *)
Theorem random_handle_shape base span (g : G) :
  (0 < span <= 1000000 ->
     exists k g',
       random_handle base span g = Ok (base +:+ Py.fmt_0d 6 k, g')
       /\ 0 <= k < span
       /\ String.length (Py.fmt_0d 6 k) = 6%nat
       /\ spelled_with decimal_digits (Py.fmt_0d 6 k))
  /\ (span <= 0 -> random_handle base span g = Raise (ValueError "low >= high")).
Proof.
  split.
  - intros Hspan. destruct (randint_ok 0 span g ltac:(lia)) as (k & g' & Hr & Hk).
    exists k, g'. unfold random_handle, mbind, rand_bind. rewrite Hr.
    split_and!; [done|lia|lia| |].
    + apply fmt_0d_length; [lia|simpl; lia].
    + apply fmt_0d_decimal. lia.
  - intros Hspan. unfold random_handle, mbind, rand_bind, randint.
    by rewrite (proj2 (Z.ltb_ge _ _) Hspan).
Qed.

End Handles.

(** X4 on a baseline email of the sample run. *)
Lemma email_parts_on_sample :
  "user306863" = "user306863" /\ "yahoo.com" = "yahoo.com".
Proof.
  apply (email_determines_handle_and_domain "user306863" "yahoo.com" "user306863" "yahoo.com");
    reflexivity.
Defined.

(** X6 on the call of line 189. *)
Lemma random_handle_on_sample :
  (0 < 999999 <= 1000000 ->
     exists k g',
       random_handle "u" 999999 (7 : Z) = Ok ("u" +:+ Py.fmt_0d 6 k, g')
       /\ 0 <= k < 999999
       /\ String.length (Py.fmt_0d 6 k) = 6%nat
       /\ spelled_with decimal_digits (Py.fmt_0d 6 k))
  /\ (999999 <= 0 -> random_handle "u" 999999 (7 : Z) = Raise (ValueError "low >= high")).
Proof. exact (random_handle_shape "u" 999999 (7 : Z)). Defined.

(** ** The email pool *)

Lemma inserted_contains c x h r :
  inserted_once c h r -> Py.contains x r = Py.contains x h || Ascii.eqb x c.
Proof.
  intros (pos & _ & -> & _).
  rewrite <- (prefix_suffix pos h) at 3.
  rewrite !contains_app. simpl.
  destruct (Py.contains x (Py.prefix pos h)), (Ascii.eqb x c),
    (Py.contains x (Py.suffix pos h)); done.
Qed.

Lemma promo_contains x h k :
  1 <= k <= 8 ->
  Py.contains x (h +:+ "+promo" +:+ Py.str_int k)
  = Py.contains x h || Py.contains x ("+promo" +:+ Py.str_int k).
Proof. intros _. apply contains_app. Qed.

Lemma promo_marks k :
  1 <= k <= 8 ->
  Py.contains "." ("+promo" +:+ Py.str_int k) = false
  /\ Py.contains "_" ("+promo" +:+ Py.str_int k) = false
  /\ Py.contains "+" ("+promo" +:+ Py.str_int k) = true.
Proof.
  intros Hk.
  assert (k = 1 \/ k = 2 \/ k = 3 \/ k = 4 \/ k = 5 \/ k = 6 \/ k = 7 \/ k = 8) as Hc by lia.
  by destruct Hc as [->|[->|[->|[->|[->|[->|[->| ->]]]]]]].
Qed.

(** What tells the four entries apart: which of the three marks they hold. *)
Lemma variant_marks h e :
  plain_handle h -> variant_of h e ->
  (e = h /\ Py.contains "." e = false /\ Py.contains "_" e = false
     /\ Py.contains "+" e = false)
  \/ ((exists k, 1 <= k <= 8 /\ e = h +:+ "+promo" +:+ Py.str_int k)
      /\ Py.contains "." e = false /\ Py.contains "_" e = false
      /\ Py.contains "+" e = true)
  \/ (inserted_once "." h e /\ Py.contains "." e = true /\ Py.contains "_" e = false
      /\ Py.contains "+" e = false)
  \/ (inserted_once "_" h e /\ Py.contains "." e = false /\ Py.contains "_" e = true
      /\ Py.contains "+" e = false).
Proof.
  intros (Hd & Hu & Hp & _) [->|[(k & Hk & ->)|[Hi|Hi]]].
  - by left.
  - right. left. split; [by exists k|].
    destruct (promo_marks k Hk) as (M1 & M2 & M3).
    rewrite !promo_contains, Hd, Hu, Hp, M1, M2, M3 by done. done.
  - right. right. left. split; [done|].
    rewrite !(inserted_contains _ _ _ _ Hi), Hd, Hu, Hp. done.
  - right. right. right. split; [done|].
    rewrite !(inserted_contains _ _ _ _ Hi), Hd, Hu, Hp. done.
Qed.

Lemma variant_of_inj h h' e :
  plain_handle h -> plain_handle h' -> variant_of h e -> variant_of h' e -> h = h'.
Proof.
  intros Hh Hh' V V'.
  destruct (variant_marks h e Hh V)
    as [(E & D & U & P)|[((k & Hk & E) & D & U & P)|[(I & D & U & P)|(I & D & U & P)]]];
  destruct (variant_marks h' e Hh' V')
    as [(E' & D' & U' & P')|[((k' & Hk' & E') & D' & U' & P')
        |[(I' & D' & U' & P')|(I' & D' & U' & P')]]];
  try congruence.
  - rewrite E in E'. change ("+promo" +:+ ?r) with (String "+" ("promo" +:+ r)) in E'.
    destruct Hh as (_ & _ & Hp & _), Hh' as (_ & _ & Hp' & _).
    by apply split_at_char in E' as [-> _].
  - destruct I as (_ & _ & _ & _ & _ & _ & _ & R).
    destruct I' as (_ & _ & _ & _ & _ & _ & _ & R'). congruence.
  - destruct I as (_ & _ & _ & _ & _ & _ & _ & R).
    destruct I' as (_ & _ & _ & _ & _ & _ & _ & R'). congruence.
Qed.

Lemma variants_NoDup h p d u :
  plain_handle h ->
  (exists k, 1 <= k <= 8 /\ p = h +:+ "+promo" +:+ Py.str_int k) ->
  inserted_once "." h d -> inserted_once "_" h u ->
  NoDup [h; p; d; u].
Proof.
  intros (Hd & Hu & Hp & Hl) (k & Hk & Ep) Vd Vu.
  destruct (promo_marks k Hk) as (M1 & M2 & M3).
  assert (Py.contains "+" p = true) as Pp.
  { by rewrite Ep, promo_contains, Hp, M3. }
  assert (Py.contains "." p = false) as Dp.
  { by rewrite Ep, promo_contains, Hd, M1. }
  assert (Py.contains "_" p = false) as Up.
  { by rewrite Ep, promo_contains, Hu, M2. }
  pose proof (inserted_contains _ "." _ _ Vd) as Dd. rewrite Hd in Dd.
  pose proof (inserted_contains _ "." _ _ Vu) as Du. rewrite Hd in Du.
  pose proof (inserted_contains _ "_" _ _ Vu) as Uu. rewrite Hu in Uu.
  simpl in Dd, Du, Uu. clear Ep.
  repeat constructor.
  - intros Hin.
    repeat (apply elem_of_cons in Hin as [E|Hin]); [| | |by apply elem_of_nil in Hin];
      congruence.
  - intros Hin.
    repeat (apply elem_of_cons in Hin as [E|Hin]); [| |by apply elem_of_nil in Hin];
      congruence.
  - intros Hin.
    repeat (apply elem_of_cons in Hin as [E|Hin]); [|by apply elem_of_nil in Hin];
      congruence.
  - intros Hin. by apply elem_of_nil in Hin.
Qed.

Section Pool.
Context {G : Type} `{RandomState G}.
Variable it : SetIteration.

Lemma dot_variant_inserts h (g : G) :
  Py.contains "." h = false -> (3 <= String.length h)%nat ->
  exists r g', dot_variant h g = Ok (r, g') /\ inserted_once "." h r.
Proof.
  intros Habs Hlen. unfold dot_variant. rewrite Habs. simpl.
  rewrite (proj2 (Nat.ltb_ge _ _) Hlen).
  destruct (randint_ok 1 (Z.of_nat (String.length h) - 1) g) as (pos & g' & Hr & Hpos); [lia|].
  rewrite (bind_run _ _ _ _ _ Hr). eexists _, g'. split; [done|].
  apply insert_interior; [done|lia].
Qed.

Lemma underscore_variant_inserts h (g : G) :
  Py.contains "_" h = false -> (3 <= String.length h)%nat ->
  exists r g', underscore_variant h g = Ok (r, g') /\ inserted_once "_" h r.
Proof.
  intros Habs Hlen. unfold underscore_variant. rewrite Habs. simpl.
  rewrite (proj2 (Nat.ltb_ge _ _) Hlen).
  destruct (randint_ok 1 (Z.of_nat (String.length h) - 1) g) as (pos & g' & Hr & Hpos); [lia|].
  rewrite (bind_run _ _ _ _ _ Hr). eexists _, g'. split; [done|].
  apply insert_interior; [done|lia].
Qed.

Lemma plus_variant_promo h (g : G) :
  exists k g', plus_variant h g = Ok (h +:+ "+promo" +:+ Py.str_int k, g') /\ 1 <= k <= 8.
Proof.
  destruct (randint_ok 1 9 g ltac:(done)) as (k & g' & Hr & Hk).
  exists k, g'. unfold plus_variant. rewrite (bind_run _ _ _ _ _ Hr). split; [done|lia].
Qed.

Lemma pool_step_spec pool h (g : G) :
  plain_handle h ->
  exists p d u g',
    pool_step pool h g = Ok (pool ++ [h; p; d; u], g')
    /\ (exists k, 1 <= k <= 8 /\ p = h +:+ "+promo" +:+ Py.str_int k)
    /\ inserted_once "." h d /\ inserted_once "_" h u.
Proof.
  intros (Hd & Hu & Hp & Hl). unfold pool_step.
  destruct (plus_variant_promo h g) as (k & g1 & Hplus & Hk).
  rewrite (bind_run _ _ _ _ _ Hplus).
  destruct (dot_variant_inserts h g1 Hd Hl) as (d & g2 & Hrun_d & Id).
  rewrite (bind_run _ _ _ _ _ Hrun_d).
  destruct (underscore_variant_inserts h g2 Hu Hl) as (u & g3 & Hrun_u & Iu).
  rewrite (bind_run _ _ _ _ _ Hrun_u).
  exists (h +:+ "+promo" +:+ Py.str_int k), d, u, g3.
  split_and!; [done|by exists k|done|done].
Qed.

Lemma pool_loop_spec hs :
  Forall plain_handle hs -> NoDup hs ->
  forall pool (g : G),
    exists added g',
      rand_foldM pool_step pool hs g = Ok (pool ++ added, g')
      /\ length added = (4 * length hs)%nat
      /\ NoDup added
      /\ (forall h, h ∈ hs -> h ∈ added)
      /\ (forall e, e ∈ added -> exists h, h ∈ hs /\ variant_of h e).
Proof.
  induction hs as [|h hs IH]; intros Hplain Hnd pool g.
  - exists [], g. simpl. rewrite app_nil_r.
    split_and!; [done|done|constructor| |]; by intros ? ?%elem_of_nil.
  - apply Forall_cons in Hplain as [Hh Hplain]. apply NoDup_cons in Hnd as [Hfresh Hnd].
    destruct (pool_step_spec pool h g Hh) as (p & d & u & g1 & Hstep & Vp & Vd & Vu).
    destruct (IH Hplain Hnd (pool ++ [h; p; d; u]) g1)
      as (added & g2 & Hrest & Hlen & Hndr & Hbase & Hvar).
    exists ([h; p; d; u] ++ added), g2. cbn [rand_foldM].
    rewrite (bind_run _ _ _ _ _ Hstep), Hrest.
    assert (forall e, e ∈ [h; p; d; u] -> variant_of h e) as Hquad.
    { intros e He. unfold variant_of.
      repeat (apply elem_of_cons in He as [->|He]); [| | | |by apply elem_of_nil in He];
        tauto. }
    split_and!.
    + by rewrite <- app_assoc.
    + rewrite length_app, Hlen. simpl. lia.
    + apply NoDup_app. split_and!; [by apply variants_NoDup| |done].
      intros e He Hin. destruct (Hvar e Hin) as (h' & Hh' & V').
      assert (h = h') as <-.
      { apply (variant_of_inj h h' e); [done| |by apply Hquad|done].
        rewrite Forall_forall in Hplain. by apply Hplain. }
      done.
    + intros h' [->|Hh']%elem_of_cons.
      * apply elem_of_app. left. apply elem_of_cons. by left.
      * apply elem_of_app. right. by apply Hbase.
    + intros e [He|He]%elem_of_app.
      * exists h. split; [apply elem_of_cons; by left|by apply Hquad].
      * destruct (Hvar e He) as (h' & Hh' & V'). exists h'.
        split; [apply elem_of_cons; by right|done].
Qed.

Lemma base_handles_plain root size :
  Py.contains "." root = false -> Py.contains "_" root = false ->
  Py.contains "+" root = false ->
  Forall plain_handle (map (fun i => root +:+ Py.fmt_0d 3 (Z.of_nat i)) (seq 0 size))
  /\ NoDup (map (fun i => root +:+ Py.fmt_0d 3 (Z.of_nat i)) (seq 0 size)).
Proof.
  intros Hd Hu Hp. split.
  - apply Forall_forall. intros h Hh.
    apply list_elem_of_In, in_map_iff in Hh as (i & <- & _).
    pose proof (fmt_0d_decimal 3 (Z.of_nat i) ltac:(lia)) as Hdec.
    unfold plain_handle. rewrite !contains_app, Hd, Hu, Hp.
    rewrite !(spelled_with_absent _ _ _ Hdec) by done.
    split_and!; try done.
    rewrite string_app_length.
    pose proof (fmt_0d_min_length 3 (Z.of_nat i) ltac:(lia)). lia.
  - rewrite map_fmap. apply NoDup_fmap_2; [|apply NoDup_seq].
    intros i j Heq. apply append_inv_head, fmt_0d_inj in Heq; lia.
Qed.

Lemma build_email_pool_spec root size (g : G) :
  Py.contains "." root = false -> Py.contains "_" root = false ->
  Py.contains "+" root = false ->
  exists pool g',
    build_email_pool it root size g = Ok (pool, g')
    /\ NoDup pool
    /\ length pool = (4 * size)%nat
    /\ (forall i, (i < size)%nat -> root +:+ Py.fmt_0d 3 (Z.of_nat i) ∈ pool)
    /\ (forall e, e ∈ pool ->
          exists i, (i < size)%nat /\ variant_of (root +:+ Py.fmt_0d 3 (Z.of_nat i)) e).
Proof.
  intros Hd Hu Hp.
  destruct (base_handles_plain root size Hd Hu Hp) as [Hplain Hnd].
  destruct (pool_loop_spec _ Hplain Hnd [] g) as (added & g' & Hrun & Hlen & Hnda & Hbase & Hvar).
  exists (list_of_str_set it added), g'.
  unfold build_email_pool. change (fun pool h => _) with pool_step.
  rewrite (bind_run _ _ _ _ _ Hrun).
  pose proof (list_of_str_set_perm it added) as Hperm.
  rewrite length_map, length_seq in Hlen.
  split_and!.
  - done.
  - rewrite Hperm. apply NoDup_remove_dups.
  - rewrite Hperm, remove_dups_NoDup_length by done. done.
  - intros i Hi. rewrite Hperm. apply elem_of_remove_dups, Hbase.
    apply list_elem_of_In, in_map_iff. exists i. split; [done|].
    apply in_seq. lia.
  - intros e He. rewrite Hperm, elem_of_remove_dups in He.
    destruct (Hvar e He) as (h & Hh & V).
    apply list_elem_of_In, in_map_iff in Hh as (i & <- & Hi). apply in_seq in Hi.
    exists i. split; [lia|done].
Qed.

(** X7. For a root without dot, underscore or plus sign the pool
    builder succeeds and returns, in some order, [4 * size] distinct
    handles: the base handles [root000], [root001], ... and for each its
    plus, dot and underscore variants, and nothing else. *)
Theorem email_pool_contents root size (g : G) :
  Py.contains "." root = false -> Py.contains "_" root = false ->
  Py.contains "+" root = false ->
  exists pool g',
    build_email_pool it root size g = Ok (pool, g')
    /\ NoDup pool
    /\ length pool = (4 * size)%nat
    /\ (forall i, (i < size)%nat -> root +:+ Py.fmt_0d 3 (Z.of_nat i) ∈ pool)
    /\ (forall e, e ∈ pool ->
          exists i, (i < size)%nat /\ variant_of (root +:+ Py.fmt_0d 3 (Z.of_nat i)) e).
Proof. apply build_email_pool_spec. Qed.

End Pool.

(** X7 on the default root and pool size. *)
Lemma email_pool_of_frauder :
  exists pool g',
    build_email_pool kept_order "frauder" 30 (7 : Z) = Ok (pool, g')
    /\ NoDup pool
    /\ length pool = (4 * 30)%nat
    /\ (forall i, (i < 30)%nat -> "frauder" +:+ Py.fmt_0d 3 (Z.of_nat i) ∈ pool)
    /\ (forall e, e ∈ pool ->
          exists i, (i < 30)%nat /\ variant_of ("frauder" +:+ Py.fmt_0d 3 (Z.of_nat i)) e).
Proof. apply (email_pool_contents kept_order "frauder" 30 (7 : Z)); reflexivity. Defined.

(** ** Stages of a run *)

Section Stages.
Context {G : Type} `{RandomState G}.
Variable it : SetIteration.

Lemma enrich_stages df0 (g : G) r g' :
  enrich it df0 g = Ok (r, g') ->
  run_input r = df0
  /\ exists g1 g2 g3 g4 g5,
      base_enrichment df0 g = Ok (run_baseline r, g1)
      /\ select_hubs it (run_baseline r) g1 = Ok (run_hub_ips_list r, g2)
      /\ build_clusters CLUSTER_MIN_SIZE CLUSTER_MAX_SIZE (run_hub_ips_list r) g2
         = Ok (run_clusters r, g3)
      /\ make_email_pools it (run_clusters r) g3
         = Ok (cluster_email_pools (run_prepared r), g4)
      /\ make_target_ads (run_clusters r) g4
         = Ok (cluster_target_ads (run_prepared r), g5)
      /\ cluster_fingerprints (run_prepared r) = make_fingerprints (run_clusters r)
      /\ inject_fraud (run_prepared r) (run_clusters r) (run_baseline r) g5
         = Ok (run_output r, g').
Proof.
  intros Hrun. unfold enrich in Hrun.
  run_step Hrun as df Hbase.
  run_step Hrun as hub Hhub.
  run_step Hrun as cs Hcs.
  run_step Hrun as pools Hpools.
  run_step Hrun as targets Htargets.
  run_step Hrun as out Hout.
  apply ret_Ok in Hrun as [-> ->]. simpl.
  split; [done|]. by eexists _, _, _, _, _.
Qed.

End Stages.

(** ** Rows of the base enrichment *)

Lemma result_mapM_lookup {A B} (f : A -> result B) xs ys i x :
  result_mapM f xs = Ok ys -> xs !! i = Some x ->
  exists y, ys !! i = Some y /\ f x = Ok y.
Proof.
  revert ys i. induction xs as [|x' xs IH]; simpl; intros ys i Hrun Hx; [done|].
  apply result_bind_Ok in Hrun as (y & Hy & Hrun).
  apply result_bind_Ok in Hrun as (ys' & Hys & Hrun). injection Hrun as <-.
  destruct i as [|i]; simpl in *.
  - injection Hx as ->. by exists y.
  - by apply (IH ys').
Qed.

Lemma row_get_Ok df i name v :
  wf_frame df -> (i < nrows df)%nat -> row_get df i name = Ok v -> cell df name i = Some v.
Proof.
  intros Hwf Hi. unfold row_get, get_col, cell.
  destruct (lookup_col name (columns df)) as [c|] eqn:Hc; [|done].
  simpl. intros [= <-].
  pose proof (wf_lookup _ _ _ Hwf Hc) as Hlen.
  destruct (nth_lookup_or_length c i CNaN) as [Hn|Hn]; [done|lia].
Qed.

Lemma cell_lookup df name c i :
  lookup_col name (columns df) = Some c -> cell df name i = c !! i.
Proof. intros Hc. unfold cell. by rewrite Hc. Qed.

Lemma cell_same df df' name i :
  lookup_col name (columns df') = lookup_col name (columns df) ->
  cell df' name i = cell df name i.
Proof. intros Hc. unfold cell. by rewrite Hc. Qed.

Section BaseRows.
Context {G : Type} `{RandomState G}.

Lemma rand_mapM_lookup {A B} (f : A -> Rand G B) xs (g : G) ys g' i x :
  rand_mapM f xs g = Ok (ys, g') -> xs !! i = Some x ->
  exists y ga gb, ys !! i = Some y /\ f x ga = Ok (y, gb).
Proof.
  revert g ys g' i. induction xs as [|x' xs IH]; simpl; intros g ys g' i Hrun Hx; [done|].
  run_step Hrun as y Hy. run_step Hrun as ys' Hys. apply ret_Ok in Hrun as [-> _].
  destruct i as [|i]; simpl in *.
  - injection Hx as ->. by eexists _, _, _.
  - by eapply IH.
Qed.

Lemma choice_lookup {A} (d : A) (a : list A) k (g : G) xs g' i :
  choice d a k g = Ok (xs, g') -> (i < k)%nat -> exists x, xs !! i = Some x /\ x ∈ a.
Proof.
  intros [Hlen Hin]%choice_Ok Hi.
  destruct (lookup_lt_is_Some_2 xs i ltac:(lia)) as [x Hx].
  exists x. split; [done|]. by apply Hin, list_elem_of_lookup_2 with i.
Qed.

Lemma base_enrichment_rows df (g : G) df' g' i :
  wf_frame df -> base_enrichment df g = Ok (df', g') -> (i < nrows df)%nat ->
  baseline_row df df' i.
Proof.
  intros Hwf Hrun Hi. unfold base_enrichment in Hrun.
  run_step Hrun as ads Hads.
  lift_step Hrun as df1 Hdf1.
  lift_step Hrun as uids Huids.
  lift_step Hrun as df2 Hdf2.
  run_step Hrun as countries Hcountries.
  lift_step Hrun as df3 Hdf3.
  lift_step Hrun as fps Hfps.
  lift_step Hrun as df4 Hdf4.
  run_step Hrun as conns Hconns.
  lift_step Hrun as df5 Hdf5.
  lift_step Hrun as uid_col Huid_col.
  run_step Hrun as emails Hemails.
  apply lift_Ok in Hrun as [Hdf6 ->].
  pose proof (set_col_wf _ _ _ _ Hwf Hdf1) as W1.
  pose proof (set_col_wf _ _ _ _ W1 Hdf2) as W2.
  pose proof (set_col_wf _ _ _ _ W2 Hdf3) as W3.
  assert (nrows df1 = nrows df) as N1 by (by apply set_col_Ok in Hdf1 as [_ ->]).
  assert (nrows df2 = nrows df1) as N2 by (by apply set_col_Ok in Hdf2 as [_ ->]).
  assert (nrows df3 = nrows df2) as N3 by (by apply set_col_Ok in Hdf3 as [_ ->]).
  assert (seq 0 (nrows df) !! i = Some i) as Hseq by (by apply lookup_seq_lt).
  (* the draws *)
  destruct (choice_lookup _ _ _ _ _ _ i Hads Hi) as (ad & Had & Had_in).
  destruct (choice_lookup _ _ _ _ _ _ i Hcountries Hi) as (country & Hcountry & Hcountry_in).
  destruct (choice_lookup _ _ _ _ _ _ i Hconns Hi) as (conn & Hconn & Hconn_in).
  (* the user id *)
  destruct (result_mapM_lookup _ _ _ _ _ Huids Hseq) as (uid & Huid & Hf).
  apply result_bind_Ok in Hf as (ip & Hip & Hf).
  apply result_bind_Ok in Hf as (device & Hdevice & Hf).
  apply result_bind_Ok in Hf as (os_ & Hos & Hf). injection Hf as <-.
  assert (i < nrows df1)%nat as Hi1 by lia.
  apply (row_get_Ok _ _ _ _ W1 Hi1) in Hip, Hdevice, Hos.
  rewrite (cell_same df df1) in Hip, Hdevice, Hos
    by (by apply (set_col_other _ _ _ _ _ Hdf1)).
  (* the fingerprint *)
  destruct (result_mapM_lookup _ _ _ _ _ Hfps Hseq) as (fp & Hfp & Hf).
  apply result_bind_Ok in Hf as (device' & Hdevice' & Hf).
  apply result_bind_Ok in Hf as (os' & Hos' & Hf).
  apply result_bind_Ok in Hf as (app & Happ & Hf).
  apply result_bind_Ok in Hf as (channel & Hchannel & Hf). injection Hf as <-.
  assert (i < nrows df3)%nat as Hi3 by lia.
  apply (row_get_Ok _ _ _ _ W3 Hi3) in Hdevice', Hos', Happ, Hchannel.
  rewrite (cell_same df2 df3) in Hdevice', Hos', Happ, Hchannel
    by (by apply (set_col_other _ _ _ _ _ Hdf3)).
  rewrite (cell_same df1 df2) in Hdevice', Hos', Happ, Hchannel
    by (by apply (set_col_other _ _ _ _ _ Hdf2)).
  rewrite (cell_same df df1) in Hdevice', Hos', Happ, Hchannel
    by (by apply (set_col_other _ _ _ _ _ Hdf1)).
  rewrite Hdevice in Hdevice'. injection Hdevice' as <-.
  rewrite Hos in Hos'. injection Hos' as <-.
  (* the email *)
  apply get_col_Ok in Huid_col.
  rewrite (set_col_other _ _ _ _ _ Hdf5), (set_col_other _ _ _ _ _ Hdf4),
    (set_col_other _ _ _ _ _ Hdf3), (set_col_lookup _ _ _ _ Hdf2) in Huid_col by done.
  injection Huid_col as <-.
  assert (map CStr uids !! i = Some (CStr (gen_user_id ip device os_))) as Huid'.
  { by rewrite map_fmap, list_lookup_fmap, Huid. }
  destruct (rand_mapM_lookup _ _ _ _ _ _ _ Hemails Huid')
    as (email & ga & gb & Hemail & Hf).
  run_step Hf as domain Hdomain. apply ret_Ok in Hf as [-> _].
  apply choice1_Ok in Hdomain.
  exists ip, device, os_, app, channel, ad, country, conn, domain.
  split_and!; try done.
  - rewrite (cell_lookup _ _ (map CStr ads)).
    + by rewrite map_fmap, list_lookup_fmap, Had.
    + rewrite (set_col_other _ _ _ _ _ Hdf6), (set_col_other _ _ _ _ _ Hdf5),
        (set_col_other _ _ _ _ _ Hdf4), (set_col_other _ _ _ _ _ Hdf3),
        (set_col_other _ _ _ _ _ Hdf2) by done.
      by apply set_col_lookup in Hdf1.
  - rewrite (cell_lookup _ _ (map CStr uids)); [done|].
    rewrite (set_col_other _ _ _ _ _ Hdf6), (set_col_other _ _ _ _ _ Hdf5),
      (set_col_other _ _ _ _ _ Hdf4), (set_col_other _ _ _ _ _ Hdf3) by done.
    by apply set_col_lookup in Hdf2.
  - rewrite (cell_lookup _ _ (map CStr countries)).
    + by rewrite map_fmap, list_lookup_fmap, Hcountry.
    + rewrite (set_col_other _ _ _ _ _ Hdf6), (set_col_other _ _ _ _ _ Hdf5),
        (set_col_other _ _ _ _ _ Hdf4) by done.
      by apply set_col_lookup in Hdf3.
  - rewrite (cell_lookup _ _ (map CStr fps)).
    + by rewrite map_fmap, list_lookup_fmap, Hfp.
    + rewrite (set_col_other _ _ _ _ _ Hdf6), (set_col_other _ _ _ _ _ Hdf5) by done.
      by apply set_col_lookup in Hdf4.
  - rewrite (cell_lookup _ _ (map CStr conns)).
    + by rewrite map_fmap, list_lookup_fmap, Hconn.
    + rewrite (set_col_other _ _ _ _ _ Hdf6) by done.
      by apply set_col_lookup in Hdf5.
  - rewrite (cell_lookup _ _ (map CStr emails)).
    + by rewrite map_fmap, list_lookup_fmap, Hemail.
    + by apply set_col_lookup in Hdf6.
Qed.

End BaseRows.

(** ** Rotated user ids and countries *)

Lemma mask_select_elem mask col v :
  v ∈ mask_select mask col -> exists j, mask !! j = Some true /\ col !! j = Some v.
Proof.
  revert col. induction mask as [|b m IH]; intros [|x c]; simpl;
    try (by intros ?%elem_of_nil).
  intros [Hv|Hv]%elem_of_app.
  - destruct b; [|by apply elem_of_nil in Hv].
    apply list_elem_of_singleton in Hv as ->. by exists 0%nat.
  - destruct (IH c Hv) as (j & Hj & Hc). by exists (S j).
Qed.

Lemma isin_true_inv col values i :
  isin col values !! i = Some true -> exists x, col !! i = Some x /\ x ∈ values.
Proof.
  unfold isin. rewrite map_fmap, list_lookup_fmap.
  destruct (col !! i) as [x|]; [|done]. simpl. intros [= Hx].
  exists x. split; [done|]. by apply bool_decide_eq_true in Hx.
Qed.

Lemma label_assign_values labels vals col i v :
  label_assign labels vals col !! i = Some v -> col !! i = Some v \/ v ∈ vals.
Proof.
  revert vals col. induction labels as [|l ls IH]; intros [|w ws] col; simpl; try tauto.
  intros Hv. destruct (IH ws _ Hv) as [Hc|Hin]; [|right; apply elem_of_cons; by right].
  destruct (decide (l = i)) as [->|Hne].
  - destruct (decide (i < length col)%nat) as [Hlt|Hge].
    + rewrite list_lookup_insert_eq in Hc by done. injection Hc as ->.
      right. apply elem_of_cons. by left.
    + rewrite list_insert_ge in Hc by lia. by left.
  - rewrite list_lookup_insert_ne in Hc by done. by left.
Qed.

Section Rotation.
Context {G : Type} `{RandomState G}.

Lemma rand_mapM_elem {A B} (f : A -> Rand G B) xs (g : G) ys g' y :
  rand_mapM f xs g = Ok (ys, g') -> y ∈ ys ->
  exists x ga gb, x ∈ xs /\ f x ga = Ok (y, gb).
Proof.
  intros Hrun Hy. pose proof (rand_mapM_Ok _ _ _ _ _ Hrun) as Hlen.
  apply list_elem_of_lookup in Hy as [i Hi].
  destruct (lookup_lt_is_Some_2 xs i) as [x Hx].
  { rewrite <- Hlen. by apply lookup_lt_Some in Hi. }
  destruct (rand_mapM_lookup _ _ _ _ _ _ _ Hrun Hx) as (y' & ga & gb & Hy' & Hf).
  rewrite Hi in Hy'. injection Hy' as <-.
  exists x, ga, gb. split; [by apply list_elem_of_lookup_2 with i|done].
Qed.

Lemma random_handle_Ok base span (g : G) r g' :
  random_handle base span g = Ok (r, g') ->
  exists k, 0 <= k < span /\ r = base +:+ Py.fmt_0d 6 k.
Proof.
  unfold random_handle. intros Hrun. run_step Hrun as k Hk.
  apply ret_Ok in Hrun as [-> _]. exists k. split; [|done].
  unfold randint in Hk. destruct (Z.ltb_spec 0 span) as [Hlt|]; [|done].
  pose proof (rs_randint_range 0 span g Hlt) as Hr.
  destruct (rs_randint 0 span g) as [k' g1]. injection Hk as -> _. done.
Qed.

Lemma override_cluster_rotates pre df c (g : G) df' g' ip_col :
  wf_frame df ->
  lookup_col "ip" (columns df) = Some ip_col ->
  has_col df "user_id" -> has_col df "country" ->
  override_cluster pre df c g = Ok (df', g') ->
  forall i, isin ip_col (ips c) !! i = Some true -> rotated_row c ip_col df df' i.
Proof.
  intros Hwf Hip [old_uid Hold_uid] [old_country Hold_country] Hrun.
  unfold override_cluster in Hrun.
  lift_step Hrun as col Hget.
  unfold get_col in Hget. rewrite Hip in Hget. injection Hget as <-.
  set (mask := isin ip_col (ips c)) in *.
  destruct (mask_any mask) eqn:Hany; cbn [negb] in Hrun.
  2:{ intros i Hi. by apply mask_any_false with (i := i) in Hany. }
  set (df1 := loc_set_scalar mask "fraud_cluster_id" (CInt (cluster_id c)) df) in *.
  set (df2 := loc_set_scalar mask "is_synthetic_fraud" (CBool true) df1) in *.
  lift_step Hrun as targets Htargets.
  run_step Hrun as ads Hads.
  lift_step Hrun as df3 Hdf3.
  lift_step Hrun as fp Hfp. cbv beta zeta in Hrun.
  set (df4 := loc_set_scalar mask "device_fingerprint" (CStr fp) df3) in *.
  lift_step Hrun as pool Hpool.
  run_step Hrun as handles Hhandles.
  run_step Hrun as doms Hdoms.
  lift_step Hrun as df5 Hdf5.
  run_step Hrun as base_users Hbase.
  lift_step Hrun as uid_col Huid.
  run_step Hrun as uids Huids.
  lift_step Hrun as df6 Hdf6.
  lift_step Hrun as sub_idx Hsub.
  run_step Hrun as countries Hcountries.
  apply lift_Ok in Hrun as [Hdf7 ->].
  assert (assigns ["fraud_cluster_id"; "is_synthetic_fraud"; "ad_id";
                   "device_fingerprint"; "email"] df df5) as A05.
  { change (assigns (["fraud_cluster_id"] ++ ["is_synthetic_fraud"] ++ ["ad_id"]
                     ++ ["device_fingerprint"] ++ ["email"]) df df5).
    eapply assigns_trans; [apply loc_set_scalar_assigns|].
    eapply assigns_trans; [apply loc_set_scalar_assigns|].
    eapply assigns_trans; [eapply loc_set_assigns; exact Hdf3|].
    eapply assigns_trans; [apply loc_set_scalar_assigns|].
    eapply loc_set_assigns; exact Hdf5. }
  assert (nrows df5 = nrows df) as N5 by (by apply assigns_nrows in A05).
  apply get_col_Ok in Huid.
  rewrite (assigns_other _ _ _ "user_id" A05), Hold_uid in Huid by in_cols.
  injection Huid as <-.
  assert (lookup_col "country" (columns df5) = Some old_country) as Hc5.
  { by rewrite (assigns_other _ _ _ "country" A05) by in_cols. }
  assert (lookup_col "user_id" (columns df5) = Some old_uid) as Hu5.
  { by rewrite (assigns_other _ _ _ "user_id" A05) by in_cols. }
  (* user_id *)
  unfold loc_set in Hdf6. rewrite Hu5 in Hdf6. simpl in Hdf6.
  destruct (Nat.eqb_spec (length uids) (mask_sum mask)) as [Hlen_uids|]; [|done].
  injection Hdf6 as <-.
  (* country *)
  unfold loc_set_labels in Hdf7. simpl in Hdf7.
  destruct (negb (forallb _ sub_idx)); [done|].
  destruct (negb (length (map CStr countries) =? length sub_idx)%nat); [done|].
  rewrite lookup_assign_other, Hc5 in Hdf7 by done. simpl in Hdf7.
  injection Hdf7 as <-.
  intros i Hi.
  assert (i < length old_uid)%nat as Hrow.
  { rewrite (wf_lookup df "user_id" old_uid Hwf Hold_uid).
    rewrite <- (wf_lookup df "ip" ip_col Hwf Hip), <- (isin_length ip_col (ips c)).
    by apply lookup_lt_Some in Hi. }
  split.
  - destruct (mask_assign_inside mask uids old_uid i Hi Hrow ltac:(lia)) as (v & Hv & Hin).
    exists v. split.
    { unfold cell. simpl. rewrite lookup_assign_other by done.
      by rewrite lookup_assign_same. }
    apply choice_Ok in Huids as [_ Huids]. apply Huids in Hin.
    apply elem_of_app in Hin as [Hin|Hin].
    + left. rewrite map_fmap in Hin. apply list_elem_of_fmap in Hin as (u & -> & Hu).
      destruct (rand_mapM_elem _ _ _ _ _ _ Hbase Hu) as (x & ga & gb & _ & Hf).
      apply random_handle_Ok in Hf as (k & Hk & ->). by exists k.
    + right. apply mask_select_elem in Hin as (j & Hj & Hcell).
      apply isin_true_inv in Hj as (x & Hx & Hxc).
      exists j, x. split_and!; [done|done|]. unfold cell. by rewrite Hold_uid.
  - assert (i < length old_country)%nat as Hrow'.
    { rewrite (wf_lookup df "country" old_country Hwf Hold_country).
      by rewrite <- (wf_lookup df "user_id" old_uid Hwf Hold_uid). }
    destruct (lookup_lt_is_Some_2 (label_assign sub_idx (map CStr countries) old_country) i)
      as [v Hv]; [by rewrite label_assign_length|].
    exists v. split.
    { unfold cell. simpl. by rewrite lookup_assign_same. }
    apply label_assign_values in Hv as [Hv|Hv].
    + left. unfold cell. by rewrite Hold_country.
    + right. rewrite map_fmap in Hv. apply list_elem_of_fmap in Hv as (s & -> & Hs).
      exists s. split; [|done]. apply choice_Ok in Hcountries as [_ Hc]. by apply Hc.
Qed.

End Rotation.

Lemma rotated_row_before c ip_col before before' after i :
  (forall j x, ip_col !! j = Some x -> x ∈ ips c ->
     cell before' "user_id" j = cell before "user_id" j) ->
  cell before' "country" i = cell before "country" i ->
  rotated_row c ip_col before after i -> rotated_row c ip_col before' after i.
Proof.
  intros Hu Hc [(v & Hv & Hsrc) (w & Hw & Hold)]. split.
  - exists v. split; [done|]. destruct Hsrc as [Hfresh|(j & x & Hj & Hx & Hcell)]; [by left|].
    right. exists j, x. split_and!; [done|done|]. by rewrite (Hu j x).
  - exists w. split; [done|]. destruct Hold as [Hold|Hnew]; [left|by right].
    by rewrite Hc.
Qed.

Lemma rotated_row_after c ip_col before after after' i :
  (forall name, cell after' name i = cell after name i) ->
  rotated_row c ip_col before after i -> rotated_row c ip_col before after' i.
Proof.
  intros Heq [(v & Hv & Hsrc) (w & Hw & Hold)]. split.
  - exists v. by rewrite Heq.
  - exists w. by rewrite Heq.
Qed.

Section RotationLoop.
Context {G : Type} `{RandomState G}.

Lemma override_loop_rotates pre cs :
  forall df (g : G) df' g' ip_col,
    wf_frame df ->
    lookup_col "ip" (columns df) = Some ip_col ->
    (forall name, name ∈ overridden -> has_col df name) ->
    NoDup (concat (map ips cs)) ->
    rand_foldM (override_cluster pre) df cs g = Ok (df', g') ->
    forall i x c, c ∈ cs -> ip_col !! i = Some x -> x ∈ ips c ->
      rotated_row c ip_col df df' i.
Proof.
  induction cs as [|c cs IH]; intros df g df' g' ip_col Hwf Hip Hcols Hnd Hrun.
  { intros i x c Hc. by apply elem_of_nil in Hc. }
  simpl in Hrun. run_step Hrun as df1 Hstep.
  destruct (override_cluster_spec pre df c _ df1 _ ip_col Hwf Hip Hcols Hstep)
    as [(Hn1 & Hc1 & Hw1 & Ho1 & Hm1) _].
  pose proof (override_cluster_rotates pre df c _ df1 _ ip_col Hwf Hip
                ltac:(apply Hcols; in_cols) ltac:(apply Hcols; in_cols) Hstep) as Hrot.
  simpl in Hnd. apply NoDup_app in Hnd as (_ & Hdisj & Hnd).
  assert (lookup_col "ip" (columns df1) = Some ip_col) as Hip1.
  { rewrite Ho1; [done|in_cols]. }
  assert (forall name, name ∈ overridden -> has_col df1 name) as Hcols1.
  { intros name Hname. eapply unchanged_has_col; [|by apply Hcols]. by split_and!. }
  destruct (override_loop_spec pre cs df1 _ df' g' ip_col (Hw1 Hwf) Hip1 Hcols1 Hnd Hrun)
    as (_ & _ & _ & _ & Hout & _).
  intros i x c' Hc' Hx Hxc. apply elem_of_cons in Hc' as [->|Hc'].
  - apply (rotated_row_after c ip_col df df1).
    + intros name. apply (Hout i x Hx). intros c' Hc' Hxc'.
      apply (Hdisj x Hxc). apply elem_of_concat_ips. by exists c'.
    + apply Hrot. by eapply isin_true.
  - assert (forall j y, ip_col !! j = Some y -> y ∈ ips c' ->
              forall name, cell df1 name j = cell df name j) as Hkeep.
    { intros j y Hj Hy name. apply Hm1. eapply isin_false; [done|].
      intros Hyc. apply (Hdisj y Hyc). apply elem_of_concat_ips. by exists c'. }
    apply (rotated_row_before c' ip_col df1).
    + intros j y Hj Hy. symmetry. by apply (Hkeep j y).
    + symmetry. by apply (Hkeep i x).
    + by apply (IH df1 _ df' g' ip_col (Hw1 Hwf) Hip1 Hcols1 Hnd Hrun i x c').
Qed.

Lemma inject_fraud_rotates pre cs df (g : G) df' g' ip_col :
  wf_frame df ->
  lookup_col "ip" (columns df) = Some ip_col ->
  (forall name, name ∈ ["ad_id"; "device_fingerprint"; "email"; "user_id"; "country"] ->
     has_col df name) ->
  NoDup (concat (map ips cs)) ->
  inject_fraud pre cs df g = Ok (df', g') ->
  forall i x c, c ∈ cs -> ip_col !! i = Some x -> x ∈ ips c ->
    rotated_row c ip_col df df' i.
Proof.
  intros Hwf Hip Hcols Hnd Hrun i x c Hc Hx Hxc. unfold inject_fraud in Hrun.
  set (df2 := set_col_scalar "is_synthetic_fraud" (CBool false)
                (set_col_scalar "fraud_cluster_id" (CInt 0) df)) in *.
  assert (forall name, name ∉ ["fraud_cluster_id"; "is_synthetic_fraud"] ->
            lookup_col name (columns df2) = lookup_col name (columns df)) as Hsame.
  { intros name Hname. unfold df2.
    rewrite !set_col_scalar_other; [done| |]; intros ->; apply Hname; in_cols. }
  apply (rotated_row_before c ip_col df2).
  - intros j y _ _. apply cell_same. symmetry. apply Hsame. in_cols.
  - apply cell_same. symmetry. apply Hsame. in_cols.
  - apply (override_loop_rotates pre cs df2 g df' g' ip_col) with (x := x); try done.
    + by do 2 apply set_col_scalar_wf.
    + rewrite Hsame; [done|in_cols].
    + by apply scalars_have_cols.
Qed.

End RotationLoop.

(** ** Rows of the output, by kind *)

Lemma baseline_row_transfer df0 df df' i :
  (forall name, name ∈ base_columns -> cell df' name i = cell df name i) ->
  baseline_row df0 df i -> baseline_row df0 df' i.
Proof.
  intros Heq (ip & device & os_ & app & channel & ad & country & conn & domain & Hrow).
  exists ip, device, os_, app, channel, ad, country, conn, domain.
  rewrite !Heq by in_cols. exact Hrow.
Qed.

Section RunRows.
Context {G : Type} `{RandomState G}.
Variable it : SetIteration.

(** A row of the output is a row of a cluster or of none. *)
Lemma run_row_kind df0 (g : G) r g' i :
  wf_frame df0 -> enrich it df0 g = Ok (r, g') -> (i < nrows (run_output r))%nat ->
  exists ip_col x,
    run_facts r ip_col /\ ip_col !! i = Some x
    /\ baseline_row df0 (run_baseline r) i
    /\ ((forall c, c ∈ run_clusters r -> x ∉ ips c)
        \/ exists c, c ∈ run_clusters r /\ x ∈ ips c
             /\ rotated_row c ip_col (run_baseline r) (run_output r) i).
Proof.
  intros Hwf Hrun Hi.
  destruct (enrich_Ok it df0 g r g' Hwf Hrun) as [Hin [ip_col F]].
  destruct (enrich_stages it df0 g r g' Hrun)
    as (_ & g1 & g2 & g3 & g4 & g5 & Hbase & _ & _ & _ & _ & _ & Hinject).
  assert (i < nrows df0)%nat as Hi0 by (by rewrite <- Hin, <- (rf_rows _ _ F)).
  pose proof (base_enrichment_rows df0 g _ g1 i Hwf Hbase Hi0) as Hrow.
  rewrite <- Hin in Hwf.
  destruct (run_row_ip r ip_col i Hwf F Hi) as (x & Hx & _).
  exists ip_col, x. split_and!; [done|done|done|].
  destruct (decide (x ∈ concat (map ips (run_clusters r)))) as [Hhub|Hout].
  - right. apply elem_of_concat_ips in Hhub as (c & Hc & Hxc).
    exists c. split_and!; [done|done|].
    apply (inject_fraud_rotates _ _ _ _ _ _ ip_col (rf_base_wf _ _ F)) with (x := x)
      (i := i) (c := c) in Hinject; try done.
    + rewrite (assigns_other _ _ _ "ip" (rf_base _ _ F)) by in_cols. apply (rf_ip _ _ F).
    + apply (base_has_cols (run_input r)), (rf_base _ _ F).
    + rewrite (rf_blocks _ _ F). apply (rf_hub_NoDup _ _ F).
  - left. intros c Hc Hxc. apply Hout, elem_of_concat_ips. by exists c.
Qed.

Lemma legit_row_baseline df0 (g : G) r g' i :
  wf_frame df0 -> enrich it df0 g = Ok (r, g') ->
  cell (run_output r) "fraud_cluster_id" i = Some (CInt 0) ->
  baseline_row df0 (run_output r) i.
Proof.
  intros Hwf Hrun Hid.
  destruct (enrich_Ok it df0 g r g' Hwf Hrun) as [_ [ip_col0 F0]].
  pose proof (cell_row _ _ _ _ (rf_wf _ _ F0) Hid) as Hi.
  destruct (run_row_kind df0 g r g' i Hwf Hrun Hi)
    as (ip_col & x & F & Hx & Hrow & [Hnone|(c & Hc & Hxc & _)]).
  - destruct (rf_outside _ _ F i x Hx Hnone) as (_ & _ & Hsame).
    apply (baseline_row_transfer df0 (run_baseline r)); [|done].
    intros name Hname. apply Hsame. unfold base_columns in Hname.
    repeat (apply elem_of_cons in Hname as [->|Hname]; [in_cols|]).
    by apply elem_of_nil in Hname.
  - destruct (rf_inside _ _ F i x c Hc Hx Hxc) as (Hid' & _).
    rewrite Hid in Hid'. injection Hid' as Hzero.
    pose proof (ids_from_lower 1 _ c (rf_ids _ _ F) Hc). lia.
Qed.

Lemma fraud_row_sources df0 (g : G) r g' i v :
  wf_frame df0 -> enrich it df0 g = Ok (r, g') ->
  cell (run_output r) "fraud_cluster_id" i = Some (CInt v) -> 0 < v ->
  exists c,
    c ∈ run_clusters r /\ cluster_id c = v
    /\ (exists uid, cell (run_output r) "user_id" i = Some (CStr uid)
          /\ ((exists k, 0 <= k < 999999 /\ uid = "u" +:+ Py.fmt_0d 6 k)
              \/ (exists j ip device os_,
                    cell df0 "ip" j = Some ip /\ ip ∈ ips c
                    /\ cell df0 "device" j = Some device /\ cell df0 "os" j = Some os_
                    /\ uid = gen_user_id ip device os_)))
    /\ (exists country,
          cell (run_output r) "country" i = Some (CStr country) /\ country ∈ COUNTRIES)
    /\ (exists ad, cell (run_output r) "ad_id" i = Some (CStr ad) /\ ad ∈ FRAUD_TARGET_ADS).
Proof.
  intros Hwf Hrun Hid Hv.
  destruct (enrich_Ok it df0 g r g' Hwf Hrun) as [Hin [ip_col0 F0]].
  destruct (enrich_stages it df0 g r g' Hrun)
    as (_ & g1 & g2 & g3 & g4 & g5 & Hbase & _).
  pose proof (cell_row _ _ _ _ (rf_wf _ _ F0) Hid) as Hi.
  destruct (run_row_kind df0 g r g' i Hwf Hrun Hi)
    as (ip_col & x & F & Hx & Hrow & [Hnone|(c & Hc & Hxc & Hrot)]).
  { destruct (rf_outside _ _ F i x Hx Hnone) as (Hid' & _).
    rewrite Hid in Hid'. injection Hid' as ->. lia. }
  destruct (rf_inside _ _ F i x c Hc Hx Hxc)
    as (Hid' & _ & _ & _ & (targets & ad & Ht & Had & Hcell_ad)).
  rewrite Hid in Hid'. injection Hid' as ->.
  exists c. split_and!; [done|done| | |].
  - destruct Hrot as [(w & Hw & Hsrc) _].
    destruct Hsrc as [(k & Hk & ->)|(j & y & Hj & Hy & Hcell)].
    + exists ("u" +:+ Py.fmt_0d 6 k). split; [done|]. left. by exists k.
    + assert (j < nrows df0)%nat as Hj0.
      { assert (wf_frame (run_input r)) as Hwf_in by (by rewrite Hin).
        rewrite <- Hin, <- (wf_lookup _ "ip" ip_col Hwf_in (rf_ip _ _ F)).
        by apply lookup_lt_Some in Hj. }
      destruct (base_enrichment_rows df0 g _ g1 j Hwf Hbase Hj0)
        as (ip & device & os_ & app & channel & ad' & country & conn & domain
            & Hip & Hdev & Hos & _ & _ & _ & _ & Huid & _).
      rewrite Hcell in Huid. injection Huid as ->.
      exists (gen_user_id ip device os_). split; [done|]. right.
      exists j, ip, device, os_. split_and!; try done.
      unfold cell in Hip. rewrite <- Hin, (rf_ip _ _ F), Hj in Hip. by injection Hip as <-.
  - destruct Hrot as [_ (w & Hw & [Hold|(s & Hs & ->)])].
    + destruct Hrow as (ip & device & os_ & app & channel & ad' & country & conn & domain
            & _ & _ & _ & _ & _ & _ & _ & _ & Hc_in & Hcountry & _).
      rewrite Hold in Hcountry. injection Hcountry as ->. by exists country.
    + by exists s.
  - exists ad. split; [done|].
    by apply (rf_targets _ _ F _ _ Ht).
Qed.

(** X8. A row the run leaves outside every cluster ([fraud_cluster_id]
    0) has the values of the base enrichment: the user id and the device
    fingerprint computed from its own input fields, the email [user] plus
    the last six characters of that user id at one of the four baseline
    domains, an ad of [ALL_ADS], a country and a connection type of the
    lists. *)
Theorem legitimate_rows_keep_baseline df0 (g : G) r g' i :
  wf_frame df0 -> enrich it df0 g = Ok (r, g') ->
  cell (run_output r) "fraud_cluster_id" i = Some (CInt 0) ->
  baseline_row df0 (run_output r) i.
Proof. apply legit_row_baseline. Qed.

(** X9. A row of a fraud cluster ([fraud_cluster_id] [v > 0]) belongs to
    the cluster of that id; its user id is a fresh [u] plus six digits of a
    number below 999999, or the generated user id of an input row of the
    same cluster; its country is one of [COUNTRIES] and its ad one of the
    five [FRAUD_TARGET_ADS]. *)
Theorem fraud_rows_draw_from_cluster df0 (g : G) r g' i v :
  wf_frame df0 -> enrich it df0 g = Ok (r, g') ->
  cell (run_output r) "fraud_cluster_id" i = Some (CInt v) -> 0 < v ->
  exists c,
    c ∈ run_clusters r /\ cluster_id c = v
    /\ (exists uid, cell (run_output r) "user_id" i = Some (CStr uid)
          /\ ((exists k, 0 <= k < 999999 /\ uid = "u" +:+ Py.fmt_0d 6 k)
              \/ (exists j ip device os_,
                    cell df0 "ip" j = Some ip /\ ip ∈ ips c
                    /\ cell df0 "device" j = Some device /\ cell df0 "os" j = Some os_
                    /\ uid = gen_user_id ip device os_)))
    /\ (exists country,
          cell (run_output r) "country" i = Some (CStr country) /\ country ∈ COUNTRIES)
    /\ (exists ad, cell (run_output r) "ad_id" i = Some (CStr ad) /\ ad ∈ FRAUD_TARGET_ADS).
Proof. apply fraud_row_sources. Qed.

(** X10. In every row of the output, fraud or not, the ad is one of the
    twenty [ALL_ADS], the country one of [COUNTRIES] and the connection
    type one of [CONNECTION_TYPES]. *)
Theorem run_values_bounded df0 (g : G) r g' i :
  wf_frame df0 -> enrich it df0 g = Ok (r, g') -> (i < nrows (run_output r))%nat ->
  exists ad country conn,
    cell (run_output r) "ad_id" i = Some (CStr ad) /\ ad ∈ ALL_ADS
    /\ cell (run_output r) "country" i = Some (CStr country) /\ country ∈ COUNTRIES
    /\ cell (run_output r) "connection_type" i = Some (CStr conn)
    /\ conn ∈ CONNECTION_TYPES.
Proof.
  intros Hwf Hrun Hi.
  destruct (run_row_kind df0 g r g' i Hwf Hrun Hi)
    as (ip_col & x & F & Hx & Hrow & Hkind).
  assert (exists conn, cell (run_output r) "connection_type" i = Some (CStr conn)
                       /\ conn ∈ CONNECTION_TYPES) as (conn & Hconn & Hconn_in).
  { destruct Hrow as (ip & device & os_ & app & channel & ad' & country & conn & domain
            & _ & _ & _ & _ & _ & _ & _ & _ & _ & _ & _ & Hc_in & Hc & _).
    exists conn. split; [|done]. unfold cell.
    rewrite (rf_frame _ _ F) by in_cols. exact Hc. }
  destruct Hkind as [Hnone|(c & Hc & Hxc & _)].
  - destruct (rf_outside _ _ F i x Hx Hnone) as (Hid & _).
    destruct (legit_row_baseline df0 g r g' i Hwf Hrun Hid)
      as (ip & device & os_ & app & channel & ad & country & conn' & domain
          & _ & _ & _ & _ & _ & Had_in & Had & _ & Hco_in & Hco & _).
    by exists ad, country, conn.
  - destruct (rf_inside _ _ F i x c Hc Hx Hxc) as (Hid & _).
    destruct (fraud_row_sources df0 g r g' i (cluster_id c) Hwf Hrun Hid)
      as (c' & _ & _ & _ & (country & Hco & Hco_in) & (ad & Had & Had_in)).
    { pose proof (ids_from_lower 1 _ c (rf_ids _ _ F) Hc). lia. }
    exists ad, country, conn. split_and!; try done.
    revert Had_in. generalize ad. apply Forall_forall.
    apply (bool_decide_unpack _). by vm_compute.
Qed.

End RunRows.

(** X8 on the second row of the sample run, the one outside the cluster. *)
Lemma legitimate_row_on_sample : baseline_row sample_frame (run_output sample_run) 1.
Proof.
  eapply (legitimate_rows_keep_baseline kept_order sample_frame (rs_seed SEED) sample_run).
  - unfold wf_frame. simpl. repeat constructor.
  - vm_compute. reflexivity.
  - vm_compute. reflexivity.
Defined.

(** X9 on the first row of the sample run, a row of cluster 1. *)
Lemma fraud_row_on_sample :
  exists c,
    c ∈ run_clusters sample_run /\ cluster_id c = 1
    /\ (exists uid, cell (run_output sample_run) "user_id" 0 = Some (CStr uid)
          /\ ((exists k, 0 <= k < 999999 /\ uid = "u" +:+ Py.fmt_0d 6 k)
              \/ (exists j ip device os_,
                    cell sample_frame "ip" j = Some ip /\ ip ∈ ips c
                    /\ cell sample_frame "device" j = Some device
                    /\ cell sample_frame "os" j = Some os_
                    /\ uid = gen_user_id ip device os_)))
    /\ (exists country,
          cell (run_output sample_run) "country" 0 = Some (CStr country)
          /\ country ∈ COUNTRIES)
    /\ (exists ad, cell (run_output sample_run) "ad_id" 0 = Some (CStr ad)
                   /\ ad ∈ FRAUD_TARGET_ADS).
Proof.
  eapply (fraud_rows_draw_from_cluster kept_order sample_frame (rs_seed SEED) sample_run).
  - unfold wf_frame. simpl. repeat constructor.
  - vm_compute. reflexivity.
  - vm_compute. reflexivity.
  - lia.
Defined.

(** X10 on the third row of the sample run. *)
Lemma run_values_on_sample :
  exists ad country conn,
    cell (run_output sample_run) "ad_id" 2 = Some (CStr ad) /\ ad ∈ ALL_ADS
    /\ cell (run_output sample_run) "country" 2 = Some (CStr country)
    /\ country ∈ COUNTRIES
    /\ cell (run_output sample_run) "connection_type" 2 = Some (CStr conn)
    /\ conn ∈ CONNECTION_TYPES.
Proof.
  eapply (run_values_bounded kept_order sample_frame (rs_seed SEED) sample_run).
  - unfold wf_frame. simpl. repeat constructor.
  - vm_compute. reflexivity.
  - simpl. lia.
Defined.

(** ** The dictionaries of a run *)

Section RunDicts.
Context {G : Type} `{RandomState G}.
Variable it : SetIteration.





(** X12. Every cluster of a run marks at least one row, so the
    [continue] of line 170 is never taken: some row has an IP of the
    cluster, bears its id and is flagged as synthetic fraud. *)
Theorem cluster_has_row df0 (g : G) r g' c :
  wf_frame df0 -> enrich it df0 g = Ok (r, g') -> c ∈ run_clusters r ->
  exists i x,
    cell (run_output r) "ip" i = Some x /\ x ∈ ips c
    /\ cell (run_output r) "fraud_cluster_id" i = Some (CInt (cluster_id c))
    /\ cell (run_output r) "is_synthetic_fraud" i = Some (CBool true).
Proof.
  intros Hwf Hrun Hc.
  destruct (enrich_Ok it df0 g r g' Hwf Hrun) as [Hin [ip_col F]].
  pose proof Hc as Hc'. apply list_elem_of_lookup in Hc' as [n Hn].
  destruct (rf_sizes _ _ F n c Hn) as [[Hpos _] _].
  assert (exists x, x ∈ ips c) as [x Hxc].
  { destruct (ips c) as [|x rest]; [simpl in Hpos; lia|].
    exists x. apply elem_of_cons. by left. }
  assert (x ∈ ip_col) as Hx.
  { apply (rf_hub_sub _ _ F). rewrite <- (rf_blocks _ _ F).
    apply elem_of_concat_ips. by exists c. }
  apply list_elem_of_lookup in Hx as [i Hi].
  destruct (rf_inside _ _ F i x c Hc Hi Hxc) as (Hid & Hflag & _).
  exists i, x. split_and!; try done.
  unfold cell. rewrite (rf_frame _ _ F) by in_cols.
  rewrite (assigns_other _ _ _ "ip" (rf_base _ _ F)) by in_cols.
  by rewrite (rf_ip _ _ F).
Qed.

End RunDicts.


(** X12 on the one cluster of the sample run. *)
Lemma cluster_row_on_sample :
  exists i x,
    cell (run_output sample_run) "ip" i = Some x /\ x ∈ [CInt 10]
    /\ cell (run_output sample_run) "fraud_cluster_id" i = Some (CInt 1)
    /\ cell (run_output sample_run) "is_synthetic_fraud" i = Some (CBool true).
Proof.
  eapply (cluster_has_row kept_order sample_frame (rs_seed SEED) sample_run _
            {| cluster_id := 1; ips := [CInt 10] |}).
  - unfold wf_frame. simpl. repeat constructor.
  - vm_compute. reflexivity.
  - simpl. apply elem_of_cons. by left.
Defined.

(** ** The number of clusters *)




(** ** The inputs on which the enrichment runs *)

Section Accepted.
Context {G : Type} `{RandomState G}.
Variable it : SetIteration.

(** X14. On a table with one cell per row in every column the
    enrichment succeeds exactly when the table has at least one row and the
    columns [ip], [device], [os], [app] and [channel].  Without rows it
    fails at the hub selection: with [KeyError] on [ip] when that column is
    missing, with the [ValueError] of the draw otherwise.  With rows it
    fails with [KeyError] on the first of the five columns that is
    missing, in the order in which lines 96 and 105 read them. *)
Theorem enrichment_runs_iff_valid df (g : G) :
  wf_frame df ->
  ((exists r g', enrich it df g = Ok (r, g')) <-> valid_input df)
  /\ (nrows df = 0%nat -> has_col df "ip" ->
        exists msg, enrich it df g = Raise (ValueError msg))
  /\ (nrows df = 0%nat -> ~ has_col df "ip" -> enrich it df g = Raise (KeyError "ip"))
  /\ (forall before name after,
        (1 <= nrows df)%nat ->
        ["ip"; "device"; "os"; "app"; "channel"] = before ++ name :: after ->
        (forall n, n ∈ before -> has_col df n) -> ~ has_col df name ->
        enrich it df g = Raise (KeyError name)).
Proof.
  intros Hwf. split_and!.
  - by apply enrich_succeeds_iff.
  - intros Hzero. by apply enrich_empty.
  - intros Hzero. by apply enrich_empty.
  - intros before name after. apply enrich_missing.
Qed.

End Accepted.

(** X14 on the sample table. *)
Lemma enrichment_runs_on_sample :
  ((exists r g', enrich kept_order sample_frame (rs_seed SEED) = Ok (r, g'))
     <-> valid_input sample_frame)
  /\ (nrows sample_frame = 0%nat -> has_col sample_frame "ip" ->
        exists msg, enrich kept_order sample_frame (rs_seed SEED) = Raise (ValueError msg))
  /\ (nrows sample_frame = 0%nat -> ~ has_col sample_frame "ip" ->
        enrich kept_order sample_frame (rs_seed SEED) = Raise (KeyError "ip"))
  /\ (forall before name after,
        (1 <= nrows sample_frame)%nat ->
        ["ip"; "device"; "os"; "app"; "channel"] = before ++ name :: after ->
        (forall n, n ∈ before -> has_col sample_frame n) -> ~ has_col sample_frame name ->
        enrich kept_order sample_frame (rs_seed SEED) = Raise (KeyError name)).
Proof.
  apply (enrichment_runs_iff_valid kept_order sample_frame (rs_seed SEED)).
  unfold wf_frame. simpl. repeat constructor.
Defined.

(** ** The summary of a run *)






Section Report.
Context {G : Type} `{RandomState G} `{CsvReader}.
Variable it : SetIteration.
Variable env : Env.



End Report.


(** ** The claims on the sample table *)

(** C1: with the same seed and the same input file, two runs that differ
    only in the order in which Python enumerates the set of pool handles
    end well and write different output files; the first fraud row already
    has a different email. *)
Theorem output_depends_on_set_order :
  exists w1 w2 out1 out2,
    main kept_order terminal "in.csv" sample_world = (w1, Ok sample_run)
    /\ files w1 = <[OUTPUT_CSV := CsvFile out1]> sample_files
    /\ main reverse_order terminal "in.csv" sample_world = (w2, Ok sample_run_reversed)
    /\ files w2 = <[OUTPUT_CSV := CsvFile out2]> sample_files
    /\ out1 <> out2
    /\ cell (run_output sample_run) "email" 0 = Some (CStr "fraud_er002@yahoo.com")
    /\ cell (run_output sample_run_reversed) "email" 0 = Some (CStr "frauder027@yahoo.com")
    /\ (exists rec1, records out1 !! 0%nat = Some rec1
                     /\ rec1 !! 13%nat = Some "fraud_er002@yahoo.com")
    /\ (exists rec2, records out2 !! 0%nat = Some rec2
                     /\ rec2 !! 13%nat = Some "frauder027@yahoo.com").
Proof.
  exists (fst (main kept_order terminal "in.csv" sample_world)),
         (fst (main reverse_order terminal "in.csv" sample_world)),
         (to_csv (run_output sample_run)), (to_csv (run_output sample_run_reversed)).
  split_and!.
  - vm_compute. reflexivity.
  - vm_compute. reflexivity.
  - vm_compute. reflexivity.
  - vm_compute. reflexivity.
  - vm_compute. intros Heq. discriminate Heq.
  - vm_compute. reflexivity.
  - vm_compute. reflexivity.
  - eexists. split; vm_compute; reflexivity.
  - eexists. split; vm_compute; reflexivity.
Qed.

(** C2 on the first row of the sample run. *)
Lemma fraud_labels_on_sample :
  exists x v b,
    cell (run_output sample_run) "ip" 0 = Some x
    /\ cell (run_output sample_run) "fraud_cluster_id" 0 = Some (CInt v)
    /\ cell (run_output sample_run) "is_synthetic_fraud" 0 = Some (CBool b)
    /\ (0 < v <-> b = true)
    /\ (forall c, c ∈ run_clusters sample_run -> x ∈ ips c -> v = cluster_id c /\ b = true)
    /\ ((forall c, c ∈ run_clusters sample_run -> x ∉ ips c) -> v = 0 /\ b = false).
Proof.
  eapply (fraud_labels_follow_clusters kept_order sample_frame (rs_seed SEED) sample_run).
  - unfold wf_frame. simpl. repeat constructor.
  - vm_compute. reflexivity.
  - simpl. lia.
Defined.

(** C3 on three hub IPs with sizes from 2 to 5. *)
Lemma build_clusters_on_three :
  exists cs g',
    build_clusters (G := Z) 2 5 hub3 7 = Ok (cs, g')
    /\ concat (map ips cs) = hub3
    /\ pairwise_disjoint cs
    /\ (forall x, x ∈ hub3 <-> exists c, c ∈ cs /\ x ∈ ips c)
    /\ ids_from 1 cs
    /\ sizes_within 2 5 cs.
Proof.
  apply (build_clusters_partitions 2 5 hub3 7).
  - lia.
  - apply (bool_decide_unpack _). vm_compute. exact I.
Defined.

(** With three hub IPs and sizes from 2 to 5 the second, last cluster is
    left with a single IP. *)
Example last_cluster_may_be_short :
  exists g',
    build_clusters (G := Z) 2 5 hub3 7
    = Ok ([{| cluster_id := 1; ips := [CInt 1; CInt 2] |};
           {| cluster_id := 2; ips := [CInt 3] |}], g').
Proof. eexists. vm_compute. reflexivity. Qed.

(** C4 as stated fails: the first row of the sample run is a fraud row
    whose email domain is [yahoo.com], a domain of both lists, so the list
    of line 184 is not disjoint from the baseline list. *)
Lemma fraud_domains_overlap_baseline :
  cell (run_output sample_run) "fraud_cluster_id" 0 = Some (CInt 1)
  /\ cell (run_output sample_run) "email" 0
     = Some (CStr (email_from_handle "fraud_er002" "yahoo.com"))
  /\ "yahoo.com" ∈ fraud_domains
  /\ "yahoo.com" ∈ domains
  /\ ~ (forall d, d ∈ fraud_domains -> d ∉ domains).
Proof.
  split_and!.
  - vm_compute. reflexivity.
  - vm_compute. reflexivity.
  - in_cols.
  - in_cols.
  - intros Hdisj. apply (Hdisj "yahoo.com"); in_cols.
Qed.

(** The amended C4 on the first row of the sample run, a row of cluster 1. *)
Lemma fraud_email_on_sample :
  (exists c pool handle domain,
     c ∈ run_clusters sample_run /\ cluster_id c = 1
     /\ cluster_email_pools (run_prepared sample_run) !! 1 = Some pool
     /\ handle ∈ pool /\ domain ∈ fraud_domains
     /\ cell (run_output sample_run) "email" 0 = Some (CStr (handle +:+ "@" +:+ domain)))
  /\ fraud_domains = ["gmail.com"; "outlook.com"; "mail.ru"; "yahoo.com"]
  /\ ("mail.ru" ∉ domains) /\ ("proton.me" ∉ fraud_domains).
Proof.
  eapply (fraud_email_from_cluster_pool kept_order sample_frame (rs_seed SEED) sample_run).
  - unfold wf_frame. simpl. repeat constructor.
  - vm_compute. reflexivity.
  - vm_compute. reflexivity.
  - lia.
Defined.

(** C5 as stated fails: with 39 distinct IPs the selector returns one hub,
    where [max(1, round(39 * 0.05))] is 2. *)
Lemma hub_count_is_not_rounded :
  length (unique ips39) = 39%nat
  /\ hub_count_rounded 39 = 2
  /\ select_hubs kept_order df39 (rs_seed SEED) = Ok ([CInt 4], 1250496027)
  /\ ~ (forall hub g', select_hubs kept_order df39 (rs_seed SEED) = Ok (hub, g') ->
          Z.of_nat (length hub) = hub_count_rounded 39).
Proof.
  split_and!; [by vm_compute|by vm_compute|by vm_compute|].
  intros Hclaim.
  specialize (Hclaim [CInt 4] 1250496027 ltac:(vm_compute; reflexivity)).
  vm_compute in Hclaim. discriminate Hclaim.
Qed.

(** The amended C5 on the sample table. *)
Lemma hub_selection_on_sample :
  exists hub g' ip_col,
    select_hubs kept_order sample_frame (rs_seed SEED) = Ok (hub, g')
    /\ lookup_col "ip" (columns sample_frame) = Some ip_col
    /\ NoDup hub
    /\ (forall x, x ∈ hub -> x ∈ unique ip_col)
    /\ Z.of_nat (length hub) = num_hub_ips (length (unique ip_col))
    /\ (Z.of_nat (length (unique ip_col)) < 2 ^ 52 ->
          Z.of_nat (length hub) = Z.max 1 (Z.of_nat (length (unique ip_col)) / 20)).
Proof.
  apply (hub_selection_truncates kept_order sample_frame (rs_seed SEED)).
  - unfold wf_frame. simpl. repeat constructor.
  - unfold has_col. simpl. by eexists.
  - simpl. lia.
Defined.

(** C6 as stated fails: the same two IPs in the two orders hash to
    different fingerprints. *)
Lemma fingerprint_depends_on_order :
  cluster_fingerprint {| cluster_id := 1; ips := [CInt 1; CInt 2] |} = "fp_46703167"
  /\ cluster_fingerprint {| cluster_id := 1; ips := [CInt 2; CInt 1] |} = "fp_08068587"
  /\ ~ (forall c1 c2, ips c1 ≡ₚ ips c2 -> cluster_fingerprint c1 = cluster_fingerprint c2).
Proof.
  split_and!; [by vm_compute|by vm_compute|].
  intros Hclaim.
  specialize (Hclaim {| cluster_id := 1; ips := [CInt 1; CInt 2] |}
                     {| cluster_id := 1; ips := [CInt 2; CInt 1] |}
                     (Permutation_swap _ _ _)).
  vm_compute in Hclaim. discriminate Hclaim.
Qed.

(** The amended C6 on the one cluster of the sample run. *)
Lemma fingerprint_on_sample :
  cluster_fingerprints (run_prepared sample_run) !! 1 = Some "fp_49103317"
  /\ "fp_49103317" = "fp_" +:+ Py.fmt_0d 8 (Hashlib.sha256_int "10" mod 10 ^ 8)
  /\ (forall i x, cell (run_output sample_run) "ip" i = Some x -> x ∈ [CInt 10] ->
        cell (run_output sample_run) "device_fingerprint" i = Some (CStr "fp_49103317"))
  /\ (forall c', ips c' = [CInt 10] -> cluster_fingerprint c' = "fp_49103317")
  /\ (forall l l' : list Z,
        Py.join "|" (map str (map CInt l)) = Py.join "|" (map str (map CInt l')) ->
        l = l').
Proof.
  change "fp_49103317" with (cluster_fingerprint {| cluster_id := 1; ips := [CInt 10] |}).
  eapply (fingerprint_of_ip_sequence kept_order sample_frame (rs_seed SEED) sample_run
            _ {| cluster_id := 1; ips := [CInt 10] |}).
  - unfold wf_frame. simpl. repeat constructor.
  - vm_compute. reflexivity.
  - simpl. apply elem_of_cons. by left.
Defined.



(** An integer column with a blank in it comes back as floats: the [os]
    of the first click goes in as [13] and is written as [13.0]. *)
Example blank_turns_integers_into_floats :
  exists out rec0 rec1,
    files (fst (main kept_order terminal "in.csv" gap_world)) !! OUTPUT_CSV
      = Some (CsvFile out)
    /\ records gap_csv !! 0%nat = Some rec0 /\ rec0 !! 3%nat = Some "13"
    /\ records out !! 0%nat = Some rec1 /\ rec1 !! 3%nat = Some "13.0".
Proof. eexists _, _, _. split_and!; vm_compute; reflexivity. Qed.

(** C8 as stated fails: on a terminal that cannot encode the check mark of
    line 202 the run on the sample file fails with [UnicodeEncodeError],
    and the output file, absent before, is there in full; on a disk that
    breaks off the write, the run fails and leaves what the disk took. *)
Lemma failed_run_leaves_output_file :
  snd (main kept_order ascii_terminal "in.csv" sample_world) = Raise UnicodeEncodeError
  /\ files sample_world !! OUTPUT_CSV = None
  /\ files (fst (main kept_order ascii_terminal "in.csv" sample_world)) !! OUTPUT_CSV
     = Some (CsvFile (to_csv (run_output sample_run)))
  /\ length (records (to_csv (run_output sample_run))) = 3%nat
  /\ (forall f,
        snd (main kept_order {| stdout := fun _ => None; disk := Fails (Some f) |}
               "in.csv" sample_world) = Raise OSError
        /\ files (fst (main kept_order {| stdout := fun _ => None; disk := Fails (Some f) |}
                         "in.csv" sample_world)) !! OUTPUT_CSV = Some f)
  /\ ~ (forall (env : Env) w w' e,
          main kept_order env "in.csv" w = (w', Raise e) ->
          files w' !! OUTPUT_CSV = files w !! OUTPUT_CSV).
Proof.
  split_and!.
  - vm_compute. reflexivity.
  - vm_compute. reflexivity.
  - vm_compute. reflexivity.
  - vm_compute. reflexivity.
  - intros f. rewrite main_steps. split; vm_compute; reflexivity.
  - intros Hclaim.
    assert (main kept_order ascii_terminal "in.csv" sample_world
            = ({| files := <[OUTPUT_CSV := CsvFile (to_csv (run_output sample_run))]>
                             sample_files;
                  printed := [MsgReading "in.csv"; MsgRows 3] |},
               Raise UnicodeEncodeError)) as Hrun.
    { vm_compute. reflexivity. }
    apply Hclaim in Hrun. vm_compute in Hrun. discriminate Hrun.
Qed.

(** The amended C8 on an input path that names no file. *)
Lemma missing_input_writes_nothing :
  exists w' res,
    main kept_order terminal "missing.csv" sample_world = (w', res)
    /\ files w' = files sample_world
    /\ res = Raise (FileNotFoundError "missing.csv").
Proof.
  exists {| files := sample_files; printed := [MsgReading "missing.csv"] |},
         (Raise (FileNotFoundError "missing.csv")).
  assert (main kept_order terminal "missing.csv" sample_world
          = ({| files := sample_files; printed := [MsgReading "missing.csv"] |},
             Raise (FileNotFoundError "missing.csv"))) as Hmain.
  { vm_compute. reflexivity. }
  split; [exact Hmain|].
  destruct (failed_run_writes_at_most_output kept_order terminal "missing.csv"
              sample_world _ _ Hmain) as (Hmissing & _).
  destruct Hmissing as (Hfiles & _ & Hexn).
  - vm_compute. reflexivity.
  - split; [exact Hfiles|]. apply Hexn. reflexivity.
Defined.


(** C9 on the baseline frame and the cluster of the sample run. *)
Lemma override_frame_on_sample :
  nrows sample_injected = nrows (run_baseline sample_run)
  /\ (forall name, name ∉ overridden ->
        lookup_col name (columns sample_injected)
        = lookup_col name (columns (run_baseline sample_run)))
  /\ (forall name, name ∈ kept_columns ->
        lookup_col name (columns sample_injected)
        = lookup_col name (columns (run_baseline sample_run))).
Proof.
  eapply (override_keeps_other_columns (run_prepared sample_run) (run_clusters sample_run)
            (run_baseline sample_run) (7 : Z) sample_injected).
  vm_compute. reflexivity.
Defined.

(** C10 on the first base handle of a pool. *)
Lemma variants_on_sample_handle :
  (Py.contains "." "frauder000" = false -> (3 <= String.length "frauder000")%nat ->
     exists r g', dot_variant "frauder000" (7 : Z) = Ok (r, g')
                  /\ inserted_once "." "frauder000" r)
  /\ (Py.contains "." "frauder000" = true \/ (String.length "frauder000" < 3)%nat ->
     dot_variant "frauder000" (7 : Z) = Ok ("frauder000", 7))
  /\ (Py.contains "_" "frauder000" = false -> (3 <= String.length "frauder000")%nat ->
     exists r g', underscore_variant "frauder000" (7 : Z) = Ok (r, g')
                  /\ inserted_once "_" "frauder000" r)
  /\ (Py.contains "_" "frauder000" = true \/ (String.length "frauder000" < 3)%nat ->
     underscore_variant "frauder000" (7 : Z) = Ok ("frauder000", 7)).
Proof. exact (variants_insert_one_separator "frauder000" (7 : Z)). Defined.

(** A handle that already holds a dot, and one of two characters, come
    back unchanged; a ten-character handle gets its separator inside. *)
Example variants_examples :
  dot_variant "a.b" (7 : Z) = Ok ("a.b", 7)
  /\ underscore_variant "ab" (7 : Z) = Ok ("ab", 7)
  /\ (exists g', dot_variant "frauder000" (7 : Z) = Ok ("f.rauder000", g'))
  /\ (exists g', underscore_variant "abc" (7 : Z) = Ok ("a_bc", g')).
Proof. split_and!; try (eexists; vm_compute; reflexivity); by vm_compute. Qed.
